(** * enbot: the transaction bot (bot.py), embedded and verified

    The five-step conversation of [TransactionBot] is embedded as
    state-passing functions over an explicit bot state (per-user draft,
    transaction table, messages sent, log, and whether a connection that
    was never closed holds the write lock of the database).  A Python
    exception is a value of [exn]; a handler that raises keeps the state
    it reached.  The development follows one user in one chat; the calls
    that answer the user ([reply_text], [edit_message_text], [answer])
    are taken to succeed, the notification to the contact may fail.

    Database.  [save_transaction] closes its connection on the last
    line only: when [execute] raises, the connection stays open until
    the garbage collector finds it, and after a failed INSERT it holds
    the write lock, so that a later INSERT raises "database is locked".
    When the collector runs is not for the program to decide: it is
    part of the world.  The file itself is taken to be readable and
    writable, and this process is the only one that uses it.

    Text.  A Python [str] is a Rocq [string]; the characters of the model
    are the code points below 256, so that [str.strip] and [float] see
    the same white space as in Python on that range.  The fixed texts of
    the bot are written as they are in the source (UTF-8 in this file).

    Numbers.  A Python [float] is a binary64 value of
    [SpecFloat.spec_float]; [float(str)] is the correctly rounded value
    of the decimal literal, obtained with the library's division.
    Python integers are unbounded ([Z]). *)

From Stdlib Require Import ZArith List Sorted String Ascii Bool Lia.
From Stdlib Require Import SpecFloat DecimalString DecimalPos DecimalZ.
Import ListNotations.

Local Open Scope string_scope.
Local Open Scope Z_scope.

(* ================================================================= *)
(** ** Python strings *)

Module PyStr.

Definition code (c : ascii) : N := N_of_ascii c.

(** [str.isspace] on one character (code points below 256). *)
Definition isspace (c : ascii) : bool :=
  let n := code c in
  ((9 <=? n) && (n <=? 13) || (28 <=? n) && (n <=? 32)
   || (n =? 133) || (n =? 160))%N.

Definition isdigit (c : ascii) : bool :=
  let n := code c in ((48 <=? n) && (n <=? 57))%N.

Definition digit_val (c : ascii) : Z := Z.of_N (code c) - 48.

Fixpoint lstrip_by (p : ascii -> bool) (s : string) : string :=
  match s with
  | String c s' => if p c then lstrip_by p s' else s
  | EmptyString => EmptyString
  end.

(** Drops the trailing characters that satisfy [p]. *)
Fixpoint rstrip_by (p : ascii -> bool) (s : string) : string :=
  match s with
  | String c s' =>
      match rstrip_by p s' with
      | EmptyString => if p c then EmptyString else String c EmptyString
      | r => String c r
      end
  | EmptyString => EmptyString
  end.

(** [s.strip()] *)
Definition strip (s : string) : string :=
  rstrip_by isspace (lstrip_by isspace s).

(** [s.startswith(p)] *)
Fixpoint startswith (p s : string) : bool :=
  match p, s with
  | EmptyString, _ => true
  | String a p', String b s' => Ascii.eqb a b && startswith p' s'
  | String _ _, EmptyString => false
  end.

(** [s.replace(old, new)] for a non-empty [old]: the occurrences of
    [old] are found from the left and do not overlap.  [skip] counts the
    characters of a match that are still to be dropped. *)
Fixpoint replace_from (old new : string) (skip : nat) (s : string) : string :=
  match s with
  | EmptyString => EmptyString
  | String c s' =>
      match skip with
      | S k => replace_from old new k s'
      | O =>
          if startswith old s
          then new ++ replace_from old new (String.length old - 1) s'
          else String c (replace_from old new O s')
      end
  end.

Definition replace (old new s : string) : string :=
  replace_from old new O s.

(** [str(n)] for an integer. *)
Definition str_int (n : Z) : string :=
  NilZero.string_of_int (Z.to_int n).

Fixpoint all_chars (p : ascii -> bool) (s : string) : bool :=
  match s with
  | EmptyString => true
  | String c s' => p c && all_chars p s'
  end.

End PyStr.

(* ================================================================= *)
(** ** Python floats: [float(str)], comparison with 0, [format(x, '.2f')] *)

Module PyFloat.

Definition float := spec_float.

Definition prec : Z := 53.
Definition emax : Z := 1024.

Definition zero : float := S754_zero false.

(** What a float literal denotes before it is rounded:
    an infinity, a NaN, or [(-1)^neg * mant * 10^exp10]. *)
Inductive literal :=
| LitInf (neg : bool)
| LitNan
| LitDec (neg : bool) (mant : Z) (exp10 : Z).

(** C's [isspace] in the C locale, used by [float] on its argument. *)
Definition c_isspace (c : ascii) : bool :=
  let n := PyStr.code c in ((9 <=? n) && (n <=? 13) || (n =? 32))%N.

(** Non-ASCII white space becomes a blank before parsing. *)
Fixpoint spaces_to_ascii (s : string) : string :=
  match s with
  | EmptyString => EmptyString
  | String c s' =>
      let n := PyStr.code c in
      String (if ((n =? 133) || (n =? 160))%N then " "%char else c)
             (spaces_to_ascii s')
  end.

(** Underscores are accepted between two digits only, and removed. *)
Fixpoint remove_underscores (prev : ascii) (s : string) : option string :=
  match s with
  | EmptyString => if Ascii.eqb prev "_" then None else Some EmptyString
  | String c s' =>
      if Ascii.eqb c "_" then
        if PyStr.isdigit prev then remove_underscores c s' else None
      else if Ascii.eqb prev "_" && negb (PyStr.isdigit c) then None
      else option_map (String c) (remove_underscores c s')
  end.

Fixpoint span_digits (s : string) : string * string :=
  match s with
  | String c s' =>
      if PyStr.isdigit c
      then let (d, r) := span_digits s' in (String c d, r)
      else (EmptyString, s)
  | EmptyString => (EmptyString, EmptyString)
  end.

Fixpoint digits_acc (acc : Z) (s : string) : Z :=
  match s with
  | EmptyString => acc
  | String c s' => digits_acc (10 * acc + PyStr.digit_val c) s'
  end.

Definition digits_val (s : string) : Z := digits_acc 0 s.

Definition parse_sign (s : string) : bool * string :=
  match s with
  | String "-" r => (true, r)
  | String "+" r => (false, r)
  | _ => (false, s)
  end.

Definition len (s : string) : Z := Z.of_nat (String.length s).

(** digits [. digits] [(e|E) [sign] digits], at least one digit in the
    number, the whole text consumed. *)
Definition parse_decimal (neg : bool) (s : string) : option literal :=
  let (ip, r1) := span_digits s in
  let (fp, r2) :=
    match r1 with
    | String "." r => span_digits r
    | _ => (EmptyString, r1)
    end in
  if (len ip + len fp =? 0) then None
  else
    let mant := digits_val (ip ++ fp) in
    match r2 with
    | EmptyString => Some (LitDec neg mant (- len fp))
    | String c r3 =>
        if Ascii.eqb c "e" || Ascii.eqb c "E" then
          let (eneg, r4) := parse_sign r3 in
          let (ed, r5) := span_digits r4 in
          match ed, r5 with
          | String _ _, EmptyString =>
              let e := digits_val ed in
              Some (LitDec neg mant ((if eneg then - e else e) - len fp))
          | _, _ => None
          end
        else None
    end.

Definition lower (c : ascii) : ascii :=
  let n := PyStr.code c in
  if ((65 <=? n) && (n <=? 90))%N then ascii_of_N (n + 32) else c.

Fixpoint lowercase (s : string) : string :=
  match s with
  | EmptyString => EmptyString
  | String c s' => String (lower c) (lowercase s')
  end.

Definition parse_inf_or_nan (neg : bool) (s : string) : option literal :=
  let l := lowercase s in
  if String.eqb l "inf" || String.eqb l "infinity" then Some (LitInf neg)
  else if String.eqb l "nan" then Some LitNan
  else None.

(** The literal a text denotes for [float], [None] where [float]
    raises [ValueError]. *)
Definition parse_literal (s : string) : option literal :=
  match remove_underscores "000" (spaces_to_ascii s) with
  | None => None
  | Some s1 =>
      let s2 := PyStr.rstrip_by c_isspace (PyStr.lstrip_by c_isspace s1) in
      let (neg, r) := parse_sign s2 in
      match parse_decimal neg r with
      | Some l => Some l
      | None => parse_inf_or_nan neg r
      end
  end.

(** The binary64 nearest to [(-1)^neg * mant * 10^exp10], ties to even. *)
Definition of_decimal (neg : bool) (mant exp10 : Z) : float :=
  match mant with
  | Zpos m =>
      SFdiv prec emax
        (S754_finite neg (m * Z.to_pos (10 ^ Z.max exp10 0)) 0)
        (S754_finite false (Z.to_pos (10 ^ Z.max (- exp10) 0)) 0)
  | _ => S754_zero neg
  end.

Definition of_literal (l : literal) : float :=
  match l with
  | LitInf neg => S754_infinity neg
  | LitNan => S754_nan
  | LitDec neg mant exp10 => of_decimal neg mant exp10
  end.

(** [float(s)] *)
Definition of_string (s : string) : option float :=
  option_map of_literal (parse_literal s).

(** [x <= 0] *)
Definition le_zero (x : float) : bool := SFleb x zero.

(** Nearest integer to [n / d], ties to even ([0 <= n], [0 < d]). *)
Definition div_half_even (n d : Z) : Z :=
  let q := n / d in
  let r := n mod d in
  match 2 * r ?= d with
  | Lt => q
  | Gt => q + 1
  | Eq => if Z.even q then q else q + 1
  end.

Definition two_digits (n : Z) : string :=
  (if n <? 10 then "0" else EmptyString) ++ PyStr.str_int n.

Definition fixed2 (neg : bool) (hundredths : Z) : string :=
  (if neg then "-" else EmptyString) ++
  PyStr.str_int (hundredths / 100) ++ "." ++ two_digits (hundredths mod 100).

(** [format(x, '.2f')] *)
Definition format_2f (x : float) : string :=
  match x with
  | S754_nan => "nan"
  | S754_infinity neg => if neg then "-inf" else "inf"
  | S754_zero neg => fixed2 neg 0
  | S754_finite neg m e =>
      fixed2 neg
        (if 0 <=? e then Zpos m * 2 ^ e * 100
         else div_half_even (Zpos m * 100) (2 ^ (- e)))
  end.

End PyFloat.

(* ================================================================= *)
(** ** [datetime.strptime(text, '%Y-%m-%d')] *)

Module Strptime.

Import PyStr.

Definition in_range (lo hi : N) (c : ascii) : bool :=
  ((lo <=? code c) && (code c <=? hi))%N.

(** [%Y]: the regular expression [\d\d\d\d]. *)
Definition match_Y (s : string) : option (Z * string) :=
  match s with
  | String a (String b (String c (String d r))) =>
      if isdigit a && isdigit b && isdigit c && isdigit d
      then Some (1000 * digit_val a + 100 * digit_val b
                 + 10 * digit_val c + digit_val d, r)
      else None
  | _ => None
  end.

(** [%m]: the alternatives [1[0-2]|0[1-9]|[1-9]], tried in this order. *)
Definition match_m (s : string) : option (Z * string) :=
  match s with
  | String a r =>
      match r with
      | String b r' =>
          if Ascii.eqb a "1" && in_range 48 50 b
          then Some (10 + digit_val b, r')
          else if Ascii.eqb a "0" && in_range 49 57 b
          then Some (digit_val b, r')
          else if in_range 49 57 a then Some (digit_val a, r)
          else None
      | EmptyString =>
          if in_range 49 57 a then Some (digit_val a, r) else None
      end
  | EmptyString => None
  end.

(** [%d]: the alternatives [3[0-1]|[1-2]\d|0[1-9]|[1-9]| [1-9]], tried
    in this order. *)
Definition match_d (s : string) : option (Z * string) :=
  match s with
  | String a r =>
      match r with
      | String b r' =>
          if Ascii.eqb a "3" && in_range 48 49 b
          then Some (30 + digit_val b, r')
          else if in_range 49 50 a && isdigit b
          then Some (10 * digit_val a + digit_val b, r')
          else if Ascii.eqb a "0" && in_range 49 57 b
          then Some (digit_val b, r')
          else if in_range 49 57 a then Some (digit_val a, r)
          else if Ascii.eqb a " " && in_range 49 57 b
          then Some (digit_val b, r')
          else None
      | EmptyString =>
          if in_range 49 57 a then Some (digit_val a, r) else None
      end
  | EmptyString => None
  end.

Definition expect (c : ascii) (s : string) : option string :=
  match s with
  | String a r => if Ascii.eqb a c then Some r else None
  | EmptyString => None
  end.

Definition is_leap (y : Z) : bool :=
  (y mod 4 =? 0) && (negb (y mod 100 =? 0) || (y mod 400 =? 0)).

Definition days_in_month (y m : Z) : Z :=
  if m =? 2 then (if is_leap y then 29 else 28)
  else if (m =? 4) || (m =? 6) || (m =? 9) || (m =? 11) then 30
  else 31.

(** [datetime.date(y, m, d)] exists. *)
Definition valid_date (y m d : Z) : bool :=
  (1 <=? y) && (y <=? 9999) && (1 <=? m) && (m <=? 12)
  && (1 <=? d) && (d <=? days_in_month y m).

(** The date read from the text, [None] where [strptime] raises
    [ValueError] (no match, text left over, or no such date). *)
Definition strptime_Ymd (s : string) : option (Z * Z * Z) :=
  match match_Y s with
  | None => None
  | Some (y, r1) =>
    match expect "-" r1 with
    | None => None
    | Some r2 =>
      match match_m r2 with
      | None => None
      | Some (m, r3) =>
        match expect "-" r3 with
        | None => None
        | Some r4 =>
          match match_d r4 with
          | Some (d, EmptyString) =>
              if valid_date y m d then Some (y, m, d) else None
          | _ => None
          end
        end
      end
    end
  end.

End Strptime.

(* ================================================================= *)
(** ** The [transactions] table *)

Module Sqlite.

(** A value stored in a column. *)
Inductive value :=
| Null
| Integer (n : Z)
| Real (x : PyFloat.float)
| Text (s : string).

(** How the [sqlite3] module binds a Python value to a [?]:
    a NaN is bound as NULL. *)
Definition bind_float (x : PyFloat.float) : value :=
  match x with
  | S754_nan => Null
  | _ => Real x
  end.

(** One row of [transactions], column by column. *)
Record row := {
  id : Z;
  family : value;
  category : value;
  amount : value;
  period : value;
  contact : value;
  user_id : value;
  username : value;
  created_at : value
}.

(** The table with the counter that AUTOINCREMENT keeps
    (the largest identifier given so far). *)
Record table := { rows : list row; sequence : Z }.

Definition empty : table := {| rows := []; sequence := 0 |}.

(** [CREATE TABLE IF NOT EXISTS transactions (...)] *)
Definition create_if_not_exists (db : option table) : option table :=
  match db with
  | None => Some empty
  | Some t => Some t
  end.

Definition is_null (v : value) : bool :=
  match v with Null => true | _ => false end.

(** The integers that the [sqlite3] module binds to a [?]: those of 64
    bits; for the others it raises OverflowError. *)
Definition fits_int64 (n : Z) : bool :=
  (- 2 ^ 63 <=? n) && (n <? 2 ^ 63).

(** The columns declared NOT NULL, in the order of the schema; the
    first one that holds NULL, if any. *)
Definition not_null_violation (r : row) : option string :=
  if is_null (family r) then Some "family"
  else if is_null (category r) then Some "category"
  else if is_null (amount r) then Some "amount"
  else if is_null (period r) then Some "period"
  else if is_null (contact r) then Some "contact"
  else if is_null (user_id r) then Some "user_id"
  else None.

(** [INSERT INTO transactions (family, category, amount, period, contact,
    user_id, username) VALUES (?, ?, ?, ?, ?, ?, ?)]: the identifier and
    [created_at] are given by the store.  The result is the new table,
    or the column whose NOT NULL constraint failed. *)
Definition insert (now : string)
    (f c a p k u n : value) (t : table) : table + string :=
  let r := {| id := sequence t + 1;
              family := f; category := c; amount := a; period := p;
              contact := k; user_id := u; username := n;
              created_at := Text now |} in
  match not_null_violation r with
  | Some col => inr col
  | None => inl {| rows := rows t ++ [r]; sequence := sequence t + 1 |}
  end.

End Sqlite.

(* ================================================================= *)
(** ** The bot *)

(** Conversation states *)
Definition FAMILY : Z := 0.
Definition CATEGORY : Z := 1.
Definition AMOUNT : Z := 2.
Definition PERIOD : Z := 3.
Definition CONTACT : Z := 4.
(** [ConversationHandler.END] *)
Definition END : Z := -1.

Definition nl : string := String "010" EmptyString.

Definition FAMILIES : list string :=
  [ "Famiglia Rossi"; "Famiglia Bianchi"; "Famiglia Verdi";
    "Famiglia Neri"; "Famiglia Blu" ].

Definition CATEGORIES : list string :=
  [ "Quota Mensile"; "Quota Iscrizione"; "Altro" ].

(** [self]: what [__init__] reads from the environment. *)
Record TransactionBot := {
  bot_token : option string;
  allowed_group_id : option string;
  db_path : string
}.

(** What an update carries. *)
Inductive payload :=
| Command (name : string) (text : string)
| TextMessage (text : string)
| CallbackQuery (data : string).

Record Update := {
  effective_chat_id : Z;
  effective_user_id : Z;
  effective_user_username : option string;
  update_payload : payload
}.

(** [update.message.text] *)
Definition message_text (u : Update) : string :=
  match update_payload u with
  | Command _ t => t
  | TextMessage t => t
  | CallbackQuery _ => EmptyString
  end.

(** [update.callback_query.data] *)
Definition query_data (u : Update) : string :=
  match update_payload u with
  | CallbackQuery d => d
  | _ => EmptyString
  end.

(** [context.user_data]: the draft.  Its keys are the four below, each
    written by one handler with a value of one type; a key that is absent
    is [None] and reading it raises [KeyError]. *)
Record UserData := {
  ud_family : option string;
  ud_category : option string;
  ud_amount : option PyFloat.float;
  ud_period : option string
}.

(** [user_data.clear()] leaves this. *)
Definition no_data : UserData :=
  {| ud_family := None; ud_category := None;
     ud_amount := None; ud_period := None |}.

(** An inline keyboard: rows of buttons (label, callback data). *)
Definition keyboard := list (list (string * string)).

(** The calls made on the Telegram API, in order. *)
Inductive outgoing :=
| ReplyText (text : string) (reply_markup : option keyboard)
            (parse_mode : option string)
| AnswerQuery
| EditMessageText (text : string) (reply_markup : option keyboard)
                  (parse_mode : option string)
| SendMessage (chat_id : string) (text : string) (parse_mode : option string).

Inductive exn :=
| ValueError (msg : string)
| KeyError (key : string)
| IntegrityError (msg : string)
| OperationalError (msg : string)
| OverflowError (msg : string)
| TelegramError (msg : string).

(** [str(e)] *)
Definition exn_str (e : exn) : string :=
  match e with
  | KeyError k => "'" ++ k ++ "'"
  | ValueError m | IntegrityError m | OperationalError m | OverflowError m
  | TelegramError m => m
  end.

(** What the handlers act on: the draft of the user, the database file,
    the calls made on the API and the error log; [locked]: a connection
    that [save_transaction] left open after a failed INSERT holds the
    write lock of the database file. *)
Record State := {
  user_data : UserData;
  db : option Sqlite.table;
  sent : list outgoing;
  log : list string;
  locked : bool
}.

(** What the handlers cannot decide: the two clocks, whether
    [bot.send_message] delivers ([None]) or raises, and whether the
    garbage collector has closed the connections left open so far. *)
Record World := {
  current_timestamp : string;
  now_local : string;
  send_message_error : string -> string -> option string;
  collected : bool
}.

Inductive outcome (A : Type) :=
| Return (a : A)
| Raise (e : exn).
Arguments Return {A} a.
Arguments Raise {A} e.

(** A computation on the state that returns or raises; the state it
    reached is kept in both cases. *)
Definition M (A : Type) : Type := State -> State * outcome A.

Definition ret {A} (a : A) : M A := fun s => (s, Return a).
Definition raise {A} (e : exn) : M A := fun s => (s, Raise e).

Definition bind {A B} (m : M A) (k : A -> M B) : M B :=
  fun s =>
    match m s with
    | (s', Return a) => k a s'
    | (s', Raise e) => (s', Raise e)
    end.

Notation "x <- m ;; k" := (bind m (fun x => k))
  (at level 61, m at next level, right associativity).
Notation "m ;; k" := (bind m (fun _ => k))
  (at level 61, right associativity).

(** [try: body except <caught>: handler] *)
Definition try_except {A} (body : M A) (caught : exn -> bool)
    (handler : exn -> M A) : M A :=
  fun s =>
    match body s with
    | (s', Raise e) => if caught e then handler e s' else (s', Raise e)
    | r => r
    end.

Definition is_ValueError (e : exn) : bool :=
  match e with ValueError _ => true | _ => false end.

(** [except Exception] *)
Definition is_Exception (e : exn) : bool := true.

Definition modify (f : State -> State) : M unit := fun s => (f s, Return tt).

Definition call (o : outgoing) : M unit :=
  modify (fun s => {| user_data := user_data s; db := db s;
                      sent := sent s ++ [o]; log := log s;
                      locked := locked s |}).

Definition logger_error (m : string) : M unit :=
  modify (fun s => {| user_data := user_data s; db := db s;
                      sent := sent s; log := log s ++ [m];
                      locked := locked s |}).

Definition set_user_data (f : UserData -> UserData) : M unit :=
  modify (fun s => {| user_data := f (user_data s); db := db s;
                      sent := sent s; log := log s; locked := locked s |}).

(** [context.user_data[key]] *)
Definition lookup {A} (key : string) (field : UserData -> option A) : M A :=
  fun s =>
    match field (user_data s) with
    | Some v => (s, Return v)
    | None => (s, Raise (KeyError key))
    end.

(** [x or default] on an optional text *)
Definition or_default (x : option string) (default : string) : string :=
  match x with
  | Some (String c r) => String c r
  | _ => default
  end.

(** The fixed texts and the formatted ones, as the handlers build them. *)

Definition unauthorized_text : string :=
  "❌ Questo bot può essere utilizzato solo nel gruppo autorizzato.".

Definition start_text : string :=
  "💰 **Registrazione Transazione**" ++ nl ++ nl ++ "Seleziona la famiglia:".

Definition family_selected_text (family : string) : string :=
  "👨‍👩‍👧‍👦 **Famiglia selezionata:** " ++ family ++ nl ++ nl ++
  "Seleziona la categoria:".

Definition ask_amount_text (family category : string) : string :=
  "👨‍👩‍👧‍👦 **Famiglia:** " ++ family ++ nl ++
  "📂 **Categoria:** " ++ category ++ nl ++ nl ++
  "💰 Inserisci l'importo in Euro (es. 25.50):".

Definition ask_period_text (family category : string)
    (amount : PyFloat.float) : string :=
  "👨‍👩‍👧‍👦 **Famiglia:** " ++ family ++ nl ++
  "📂 **Categoria:** " ++ category ++ nl ++
  "💰 **Importo:** €" ++ PyFloat.format_2f amount ++ nl ++ nl ++
  "📅 Inserisci il periodo (formato: YYYY-MM-DD, es. 2024-01-15):".

Definition amount_retry_text : string :=
  "❌ Formato non valido. Inserisci un importo numerico valido (es. 25.50):".

Definition ask_contact_text (family category : string)
    (amount : PyFloat.float) (period : string) : string :=
  "👨‍👩‍👧‍👦 **Famiglia:** " ++ family ++ nl ++
  "📂 **Categoria:** " ++ category ++ nl ++
  "💰 **Importo:** €" ++ PyFloat.format_2f amount ++ nl ++
  "📅 **Periodo:** " ++ period ++ nl ++ nl ++
  "👤 Inserisci il username del contatto (es. @username):".

Definition period_retry_text : string :=
  "❌ Formato data non valido. Usa il formato YYYY-MM-DD (es. 2024-01-15):".

Definition confirmation_text (family category : string)
    (amount : PyFloat.float) (period contact : string) : string :=
  "✅ **Transazione registrata con successo!**" ++ nl ++ nl ++
  "👨‍👩‍👧‍👦 **Famiglia:** " ++ family ++ nl ++
  "📂 **Categoria:** " ++ category ++ nl ++
  "💰 **Importo:** €" ++ PyFloat.format_2f amount ++ nl ++
  "📅 **Periodo:** " ++ period ++ nl ++
  "👤 **Contatto:** " ++ contact ++ nl ++ nl ++
  "📨 Notifica inviata a " ++ contact.

Definition notification_text (family category : string)
    (amount : PyFloat.float) (period requester now : string) : string :=
  "🔔 **Nuova Transazione Registrata**" ++ nl ++ nl ++
  "👨‍👩‍👧‍👦 **Famiglia:** " ++ family ++ nl ++
  "📂 **Categoria:** " ++ category ++ nl ++
  "💰 **Importo:** €" ++ PyFloat.format_2f amount ++ nl ++
  "📅 **Periodo:** " ++ period ++ nl ++
  "👤 **Registrato da:** @" ++ requester ++ nl ++
  "⏰ **Data:** " ++ now.

Definition delivery_warning_text (contact : string) : string :=
  "⚠️ Transazione salvata ma non è stato possibile inviare la notifica a "
  ++ contact ++ "." ++ nl ++
  "Verifica che l'username sia corretto.".

Definition cancel_text : string := "❌ Operazione annullata.".

Definition help_text : string :=
  "🤖 **Bot di Gestione Transazioni**" ++ nl ++ nl ++
  "**Comandi disponibili:**" ++ nl ++
  "/start - Inizia una nuova registrazione transazione" ++ nl ++
  "/help - Mostra questo messaggio di aiuto" ++ nl ++ nl ++
  "**Come usare:**" ++ nl ++
  "1. Usa /start per iniziare" ++ nl ++
  "2. Segui le istruzioni per inserire i dati" ++ nl ++
  "3. La transazione verrà salvata e una notifica inviata al contatto specificato".

Definition markdown : option string := Some "Markdown".

Definition reply_text (text : string) (reply_markup : option keyboard)
    (parse_mode : option string) : M unit :=
  call (ReplyText text reply_markup parse_mode).

Definition edit_message_text (text : string) (reply_markup : option keyboard)
    (parse_mode : option string) : M unit :=
  call (EditMessageText text reply_markup parse_mode).

(** One button per row, the label after [prefix] as callback data. *)
Definition choice_keyboard (prefix : string) (labels : list string) : keyboard :=
  map (fun l => [(l, prefix ++ l)]) labels.

(** The contact as [get_contact] stores it: [@] put in front unless it is
    there already. *)
Definition normalize_contact (contact : string) : string :=
  if negb (PyStr.startswith "@" contact) then "@" ++ contact else contact.

Section Handlers.

Variable self : TransactionBot.
Variable world : World.

(** [init_database] *)
Definition init_database : M unit :=
  modify (fun s => {| user_data := user_data s;
                      db := Sqlite.create_if_not_exists (db s);
                      sent := sent s; log := log s; locked := locked s |}).

(** [is_authorized] *)
Definition is_authorized (update : Update) : M bool :=
  match allowed_group_id self with
  | None | Some EmptyString => ret true
  | Some allowed =>
      let chat_id := PyStr.str_int (effective_chat_id update) in
      ret (String.eqb chat_id allowed)
  end.

(** [start] *)
Definition start (update : Update) : M Z :=
  ok <- is_authorized update ;;
  if negb ok then
    reply_text unauthorized_text None None ;;
    ret END
  else
    let keyboard := choice_keyboard "family_" FAMILIES in
    reply_text start_text (Some keyboard) markdown ;;
    ret FAMILY.

(** [select_family] *)
Definition select_family (update : Update) : M Z :=
  call AnswerQuery ;;
  let family := PyStr.replace "family_" EmptyString (query_data update) in
  set_user_data (fun d =>
    {| ud_family := Some family; ud_category := ud_category d;
       ud_amount := ud_amount d; ud_period := ud_period d |}) ;;
  let keyboard := choice_keyboard "category_" CATEGORIES in
  edit_message_text (family_selected_text family) (Some keyboard) markdown ;;
  ret CATEGORY.

(** [select_category] *)
Definition select_category (update : Update) : M Z :=
  call AnswerQuery ;;
  let category := PyStr.replace "category_" EmptyString (query_data update) in
  set_user_data (fun d =>
    {| ud_family := ud_family d; ud_category := Some category;
       ud_amount := ud_amount d; ud_period := ud_period d |}) ;;
  family <- lookup "family" ud_family ;;
  edit_message_text (ask_amount_text family category) None None ;;
  ret AMOUNT.

(** [float(update.message.text.replace(',', '.'))], then the test
    [amount <= 0]: the first two statements of [get_amount]. *)
Definition read_amount (text : string) : M PyFloat.float :=
  match PyFloat.of_string (PyStr.replace "," "." text) with
  | None => raise (ValueError "could not convert string to float")
  | Some amount =>
      if PyFloat.le_zero amount
      then raise (ValueError "L'importo deve essere positivo")
      else ret amount
  end.

(** [get_amount] *)
Definition get_amount (update : Update) : M Z :=
  try_except
    (amount <- read_amount (message_text update) ;;
     set_user_data (fun d =>
       {| ud_family := ud_family d; ud_category := ud_category d;
          ud_amount := Some amount; ud_period := ud_period d |}) ;;
     family <- lookup "family" ud_family ;;
     category <- lookup "category" ud_category ;;
     reply_text (ask_period_text family category amount) None None ;;
     ret PERIOD)
    is_ValueError
    (fun _ =>
       reply_text amount_retry_text None None ;;
       ret AMOUNT).

(** [datetime.strptime(period, '%Y-%m-%d')], the value dropped. *)
Definition check_period (period : string) : M unit :=
  match Strptime.strptime_Ymd period with
  | Some _ => ret tt
  | None => raise (ValueError "time data does not match format")
  end.

(** [get_period] *)
Definition get_period (update : Update) : M Z :=
  try_except
    (let period := PyStr.strip (message_text update) in
     check_period period ;;
     set_user_data (fun d =>
       {| ud_family := ud_family d; ud_category := ud_category d;
          ud_amount := ud_amount d; ud_period := Some period |}) ;;
     family <- lookup "family" ud_family ;;
     category <- lookup "category" ud_category ;;
     amount <- lookup "amount" ud_amount ;;
     reply_text (ask_contact_text family category amount period) None None ;;
     ret CONTACT)
    is_ValueError
    (fun _ =>
       reply_text period_retry_text None None ;;
       ret PERIOD).

(** [sqlite3.connect(self.db_path)].  The connections that earlier
    calls left open are closed when the garbage collector has found
    them, and their lock goes with them. *)
Definition connect : M unit :=
  modify (fun s => {| user_data := user_data s; db := db s;
                      sent := sent s; log := log s;
                      locked := locked s && negb (collected world) |}).

(** [save_transaction].  The statement is prepared (the table must be
    there), its values are read from the draft and bound (an integer
    must fit 64 bits), and it is run: under the lock of a connection
    left open it gives up with "database is locked"; a NOT NULL
    constraint that fails raises with the write lock taken.  The
    connection is closed on the last line only, so a call that raises
    leaves it open, and after the failed constraint the lock is held. *)
Definition save_transaction (update : Update) (contact : string) : M unit :=
  connect ;;
  family <- lookup "family" ud_family ;;
  category <- lookup "category" ud_category ;;
  amount <- lookup "amount" ud_amount ;;
  period <- lookup "period" ud_period ;;
  let username := or_default (effective_user_username update) "N/A" in
  fun s =>
    match db s with
    | None => (s, Raise (OperationalError "no such table: transactions"))
    | Some t =>
        if negb (Sqlite.fits_int64 (effective_user_id update)) then
          (s, Raise (OverflowError
                       "Python int too large to convert to SQLite INTEGER"))
        else if locked s then
          (s, Raise (OperationalError "database is locked"))
        else
          match Sqlite.insert (current_timestamp world)
                  (Sqlite.Text family) (Sqlite.Text category)
                  (Sqlite.bind_float amount) (Sqlite.Text period)
                  (Sqlite.Text contact)
                  (Sqlite.Integer (effective_user_id update))
                  (Sqlite.Text username) t with
          | inl t' =>
              ({| user_data := user_data s; db := Some t';
                  sent := sent s; log := log s; locked := false |},
               Return tt)
          | inr col =>
              ({| user_data := user_data s; db := db s;
                  sent := sent s; log := log s; locked := true |},
               Raise (IntegrityError
                        ("NOT NULL constraint failed: transactions." ++ col)))
          end
    end.

(** [context.bot.send_message(chat_id, text, parse_mode)]: delivered, or
    an error of the API. *)
Definition send_message (chat_id text : string)
    (parse_mode : option string) : M unit :=
  match send_message_error world chat_id text with
  | None => call (SendMessage chat_id text parse_mode)
  | Some err => raise (TelegramError err)
  end.

(** [send_notification] *)
Definition send_notification (update : Update) (contact : string) : M unit :=
  try_except
    (family <- lookup "family" ud_family ;;
     category <- lookup "category" ud_category ;;
     amount <- lookup "amount" ud_amount ;;
     period <- lookup "period" ud_period ;;
     let requester := or_default (effective_user_username update) "utente" in
     let notification_message :=
       notification_text family category amount period requester
         (now_local world) in
     send_message contact notification_message markdown)
    is_Exception
    (fun e =>
       logger_error ("Failed to send notification to " ++ contact ++ ": "
                     ++ exn_str e) ;;
       reply_text (delivery_warning_text contact) None None).

(** [get_contact] *)
Definition get_contact (update : Update) : M Z :=
  let contact := normalize_contact (PyStr.strip (message_text update)) in
  save_transaction update contact ;;
  send_notification update contact ;;
  family <- lookup "family" ud_family ;;
  category <- lookup "category" ud_category ;;
  amount <- lookup "amount" ud_amount ;;
  period <- lookup "period" ud_period ;;
  reply_text (confirmation_text family category amount period contact)
    None markdown ;;
  set_user_data (fun _ => no_data) ;;
  ret END.

(** [cancel] *)
Definition cancel (update : Update) : M Z :=
  reply_text cancel_text None None ;;
  set_user_data (fun _ => no_data) ;;
  ret END.

(** [help_command] *)
Definition help_command (update : Update) : M unit :=
  ok <- is_authorized update ;;
  if negb ok then
    reply_text unauthorized_text None None
  else
    reply_text help_text None markdown.

(** [CommandHandler(name, _)] *)
Definition is_command (name : string) (update : Update) : bool :=
  match update_payload update with
  | Command n _ => String.eqb n name
  | _ => false
  end.

(** [filters.TEXT & ~filters.COMMAND] *)
Definition is_plain_text (update : Update) : bool :=
  match update_payload update with
  | TextMessage _ => true
  | _ => false
  end.

(** [CallbackQueryHandler(_, pattern='^prefix')] *)
Definition is_callback (prefix : string) (update : Update) : bool :=
  match update_payload update with
  | CallbackQuery d => PyStr.startswith prefix d
  | _ => false
  end.

(** The handlers registered in [run], each with the test of its filter. *)
Definition entry_points : list ((Update -> bool) * (Update -> M Z)) :=
  [ (is_command "start", start) ].

Definition states (state : Z) : list ((Update -> bool) * (Update -> M Z)) :=
  if state =? FAMILY then [ (is_callback "family_", select_family) ]
  else if state =? CATEGORY then [ (is_callback "category_", select_category) ]
  else if state =? AMOUNT then [ (is_plain_text, get_amount) ]
  else if state =? PERIOD then [ (is_plain_text, get_period) ]
  else if state =? CONTACT then [ (is_plain_text, get_contact) ]
  else [].

Definition fallbacks : list ((Update -> bool) * (Update -> M Z)) :=
  [ (is_command "cancel", cancel) ].

Definition first_match (hs : list ((Update -> bool) * (Update -> M Z)))
    (update : Update) : option (Update -> M Z) :=
  option_map snd (find (fun h => fst h update) hs).

(** [conv] is the state of the conversation of this user in this chat,
    [None] when there is none.  The conversation handler looks at its
    entry points when there is no conversation, else at the handlers of
    the current state and then at the fallbacks; [None] when no handler
    takes the update. *)
Definition conv_handler (conv : option Z) (update : Update)
  : option (Update -> M Z) :=
  match conv with
  | None => first_match entry_points update
  | Some state =>
      match first_match (states state) update with
      | Some h => Some h
      | None => first_match fallbacks update
      end
  end.

(** One update handled by the application: the conversation handler
    first, [/help] after it.  A handler that raises leaves the state of
    the conversation as it was. *)
Definition handle_update (conv : option Z) (update : Update) (s : State)
  : option Z * State :=
  match conv_handler conv update with
  | Some h =>
      match h update s with
      | (s', Return new_state) =>
          (if new_state =? END then None else Some new_state, s')
      | (s', Raise _) => (conv, s')
      end
  | None =>
      if is_command "help" update
      then (conv, fst (help_command update s))
      else (conv, s)
  end.

Fixpoint handle_updates (conv : option Z) (updates : list Update)
    (s : State) : option Z * State :=
  match updates with
  | [] => (conv, s)
  | u :: us =>
      let (conv', s') := handle_update conv u s in
      handle_updates conv' us s'
  end.

End Handlers.

(** Before the first start: no database file, nothing sent. *)
Definition no_database : State :=
  {| user_data := no_data; db := None; sent := []; log := [];
     locked := false |}.

(** The state in which [TransactionBot()] leaves a fresh installation:
    [__init__] calls [init_database]. *)
Definition initial_state : State := fst (init_database no_database).

(** ** States after a handler, for the statements below *)

(** [s] after the API calls [os] were made. *)
Definition with_sent (s : State) (os : list outgoing) : State :=
  {| user_data := user_data s; db := db s;
     sent := sent s ++ os; log := log s; locked := locked s |}.

(** A draft in which every step has stored its value. *)
Definition draft (family category : string) (amount : PyFloat.float)
    (period : string) : UserData :=
  {| ud_family := Some family; ud_category := Some category;
     ud_amount := Some amount; ud_period := Some period |}.

(** The amount step accepts the text: [float] reads it once the commas
    are points, and the value is not [<= 0]. *)
Definition amount_valid (text : string) : bool :=
  match PyFloat.of_string (PyStr.replace "," "." text) with
  | Some amount => negb (PyFloat.le_zero amount)
  | None => false
  end.

(** A text message, from a user without a username. *)
Definition text_update (text : string) : Update :=
  {| effective_chat_id := 7; effective_user_id := 42;
     effective_user_username := None;
     update_payload := TextMessage text |}.

(** The row that [save_transaction] hands to the store for a draft, a
    contact and the user of the update, with the next identifier of [t]. *)
Definition committed_row (world : World) (u : Update)
    (f c : string) (a : PyFloat.float) (p contact : string)
    (t : Sqlite.table) : Sqlite.row :=
  {| Sqlite.id := Sqlite.sequence t + 1;
     Sqlite.family := Sqlite.Text f;
     Sqlite.category := Sqlite.Text c;
     Sqlite.amount := Sqlite.Real a;
     Sqlite.period := Sqlite.Text p;
     Sqlite.contact := Sqlite.Text contact;
     Sqlite.user_id := Sqlite.Integer (effective_user_id u);
     Sqlite.username :=
       Sqlite.Text (or_default (effective_user_username u) "N/A");
     Sqlite.created_at := Sqlite.Text (current_timestamp world) |}.

(** [t] with one more row. *)
Definition with_row (t : Sqlite.table) (r : Sqlite.row) : Sqlite.table :=
  {| Sqlite.rows := Sqlite.rows t ++ [r];
     Sqlite.sequence := Sqlite.sequence t + 1 |}.

(** The text sent to the contact by [send_notification]. *)
Definition notification_for (world : World) (u : Update)
    (f c : string) (a : PyFloat.float) (p : string) : string :=
  notification_text f c a p
    (or_default (effective_user_username u) "utente") (now_local world).

(** The contact that [get_contact] reads from the message. *)
Definition contact_of (u : Update) : string :=
  normalize_contact (PyStr.strip (message_text u)).

(** The float [x] is exactly the rational [n / d] ([0 < d]). *)
Definition is_exactly (x : PyFloat.float) (n d : Z) : Prop :=
  match x with
  | S754_zero _ => n = 0
  | S754_finite neg m e =>
      (if neg then Z.neg m else Z.pos m) * 2 ^ Z.max e 0 * d
      = n * 2 ^ Z.max (- e) 0
  | _ => False
  end.

(** The updates of one whole conversation, all from the same user in the
    same chat. *)
Definition conversation (chat uid : Z) (uname : option string)
    (family category amount period contact : string) : list Update :=
  map (fun p => {| effective_chat_id := chat; effective_user_id := uid;
                   effective_user_username := uname; update_payload := p |})
      [ Command "start" "/start";
        CallbackQuery ("family_" ++ family);
        CallbackQuery ("category_" ++ category);
        TextMessage amount;
        TextMessage period;
        TextMessage contact ].

(** A bot without chat restriction, and a world in which the notifier
    answers [answer] to every attempt. *)
Definition open_bot : TransactionBot :=
  {| bot_token := Some "token"; allowed_group_id := None;
     db_path := "transactions.db" |}.

Definition world_with (answer : option string) : World :=
  {| current_timestamp := "2024-01-20 10:00:00";
     now_local := "2024-01-20 11:00";
     send_message_error := fun _ _ => answer;
     collected := false |}.

(** The state at the contact step of the conversation "Famiglia Rossi",
    "Quota Mensile", 25.50, "2024-01-15", on an empty table. *)
Definition rossi_state : State :=
  {| user_data := draft "Famiglia Rossi" "Quota Mensile"
                    (S754_finite false 7177611906121728 (-48)) "2024-01-15";
     db := Some Sqlite.empty; sent := []; log := []; locked := false |}.

(** ** The invariant of the table *)

(** No column of the row is NULL. *)
Definition populated (r : Sqlite.row) : bool :=
  negb (Sqlite.is_null (Sqlite.family r))
  && negb (Sqlite.is_null (Sqlite.category r))
  && negb (Sqlite.is_null (Sqlite.amount r))
  && negb (Sqlite.is_null (Sqlite.period r))
  && negb (Sqlite.is_null (Sqlite.contact r))
  && negb (Sqlite.is_null (Sqlite.user_id r))
  && negb (Sqlite.is_null (Sqlite.username r))
  && negb (Sqlite.is_null (Sqlite.created_at r)).

(** Every row is populated, and the identifiers grow strictly in the order
    of insertion, from 1 up to the counter of the table. *)
Definition store_ok (t : Sqlite.table) : Prop :=
  Forall (fun r => populated r = true) (Sqlite.rows t)
  /\ StronglySorted Z.lt (map Sqlite.id (Sqlite.rows t))
  /\ Forall (fun r => 1 <= Sqlite.id r <= Sqlite.sequence t) (Sqlite.rows t)
  /\ 0 <= Sqlite.sequence t.

(** The states the bot goes through from a fresh installation, whatever
    the updates and whatever the world does at each of them. *)
Inductive reachable (self : TransactionBot) : option Z -> State -> Prop :=
| reach_init : reachable self None initial_state
| reach_step conv s world u :
    reachable self conv s ->
    reachable self (fst (handle_update self world conv u s))
                   (snd (handle_update self world conv u s)).

(** A computation that leaves the table as it is. *)
Definition keeps_db {A} (m : M A) : Prop :=
  forall s, db (fst (m s)) = db s.

(** The table after is the table before, or the table before with one
    populated row that has the next identifier. *)
Definition db_step (d d' : option Sqlite.table) : Prop :=
  d' = d
  \/ exists t r, d = Some t /\ d' = Some (with_row t r)
                 /\ populated r = true
                 /\ Sqlite.id r = Sqlite.sequence t + 1.

(** ** Dates as texts *)

(** The character of a decimal digit. *)
Definition digit_char (k : Z) : ascii := ascii_of_N (48 + Z.to_N k).

Definition digit1 (k : Z) : string := String (digit_char k) EmptyString.

(** Two and four digits, with zeros in front. *)
Definition pad2 (k : Z) : string :=
  String (digit_char (k / 10)) (String (digit_char (k mod 10)) EmptyString).

Definition pad4 (k : Z) : string :=
  String (digit_char (k / 1000))
    (String (digit_char (k / 100 mod 10))
       (String (digit_char (k / 10 mod 10))
          (String (digit_char (k mod 10)) EmptyString))).

(** YYYY-MM-DD for a date of the calendar: what the prompt asks for. *)
Definition is_iso_date (s : string) : Prop :=
  exists y m d,
    Strptime.valid_date y m d = true
    /\ s = pad4 y ++ "-" ++ pad2 m ++ "-" ++ pad2 d.

(** The ways to write a month and a day that [strptime] reads: two digits,
    or one digit for a number below 10, or for a day a blank and one
    digit. *)
Definition month_forms (m : Z) : list string :=
  if m <? 10 then [pad2 m; digit1 m] else [pad2 m].

Definition day_forms (d : Z) : list string :=
  if d <? 10 then [pad2 d; digit1 d; String " " (digit1 d)] else [pad2 d].

(** The texts that denote the date [y]-[m]-[d] for the period step. *)
Definition date_text (y m d : Z) (s : string) : Prop :=
  Strptime.valid_date y m d = true
  /\ exists M D, In M (month_forms m) /\ In D (day_forms d)
                 /\ s = pad4 y ++ "-" ++ M ++ "-" ++ D.

Definition accepted_date_text (s : string) : Prop :=
  exists y m d, date_text y m d s.

(** The conversation of "Famiglia Rossi" at the period step, and at the
    amount step. *)
Definition rossi_period_state : State :=
  {| user_data := {| ud_family := Some "Famiglia Rossi";
                     ud_category := Some "Quota Mensile";
                     ud_amount := Some (S754_finite false 7177611906121728 (-48));
                     ud_period := None |};
     db := Some Sqlite.empty; sent := []; log := []; locked := false |}.

Definition rossi_amount_state : State :=
  {| user_data := {| ud_family := Some "Famiglia Rossi";
                     ud_category := Some "Quota Mensile";
                     ud_amount := None; ud_period := None |};
     db := Some Sqlite.empty; sent := []; log := []; locked := false |}.

(** ** Amounts as texts *)

(** The text is a decimal numeral (with the optional sign, point and
    exponent that [float] reads) for [(-1)^neg * mant * 10^exp10]. *)
Definition denotes (text : string) (neg : bool) (mant exp10 : Z) : Prop :=
  PyFloat.parse_literal text = Some (PyFloat.LitDec neg mant exp10).

(** [mant * 10^exp10 >= 2^-1074], the least positive binary64. *)
Definition at_least_tiny (mant exp10 : Z) : Prop :=
  10 ^ Z.max (- exp10) 0 <= mant * 10 ^ Z.max exp10 0 * 2 ^ 1074.

(** [mant * 10^exp10 < 2^1023], within the range of binary64. *)
Definition below_huge (mant exp10 : Z) : Prop :=
  mant * 10 ^ Z.max exp10 0 < 2 ^ 1023 * 10 ^ Z.max (- exp10) 0.

(** [n] zeros. *)
Fixpoint zeros (n : nat) : string :=
  match n with
  | O => EmptyString
  | S k => String "0" (zeros k)
  end.


(** What the draft holds when the conversation is in a given state. *)
Definition draft_ready (conv : option Z) (d : UserData) : Prop :=
  match conv with
  | None => True
  | Some state =>
      FAMILY <= state <= CONTACT
      /\ (CATEGORY <= state -> ud_family d <> None)
      /\ (AMOUNT <= state -> ud_category d <> None)
      /\ (PERIOD <= state -> ud_amount d <> None)
      /\ (CONTACT <= state -> ud_period d <> None)
  end.


(** ** The rest of the bot: definitions for the statements below *)

(** [old in s]: [old] occurs in [s]. *)
Fixpoint contains (old s : string) : bool :=
  PyStr.startswith old s
  || match s with
     | EmptyString => false
     | String _ s' => contains old s'
     end.

(** [logger.info]: the log keeps the messages, not their levels. *)
Definition logger_info (m : string) : M unit := logger_error m.

(** [run]: without a token an error is logged and nothing is handled;
    with one the application polls, and the updates that arrive are
    handled one after the other, no conversation being open at first. *)
Definition run (self : TransactionBot) (world : World)
    (updates : list Update) (s : State) : State :=
  match bot_token self with
  | None | Some EmptyString =>
      fst (logger_error
             "TELEGRAM_BOT_TOKEN not found in environment variables" s)
  | Some _ =>
      snd (handle_updates self world None updates
             (fst (logger_info "Starting bot..." s)))
  end.

(** [bot = TransactionBot(); bot.run()] on the database file as it is
    found ([None]: no file yet); a new process has no draft. *)
Definition main (self : TransactionBot) (world : World)
    (database : option Sqlite.table) (updates : list Update) : State :=
  run self world updates
    (fst (init_database {| user_data := no_data; db := database;
                           sent := []; log := []; locked := false |})).

(** An update of a given user in a given chat. *)
Definition update_of (chat uid : Z) (uname : option string) (p : payload)
  : Update :=
  {| effective_chat_id := chat; effective_user_id := uid;
     effective_user_username := uname; update_payload := p |}.

(** The keyboards that [start] and [select_family] send. *)
Definition family_keyboard : keyboard := choice_keyboard "family_" FAMILIES.
Definition category_keyboard : keyboard :=
  choice_keyboard "category_" CATEGORIES.

(** The buttons of a keyboard, row after row. *)
Definition buttons (k : keyboard) : list (string * string) :=
  List.concat k.


(** The draft with one more value. *)
Definition with_family (d : UserData) (family : string) : UserData :=
  {| ud_family := Some family; ud_category := ud_category d;
     ud_amount := ud_amount d; ud_period := ud_period d |}.

Definition with_category (d : UserData) (category : string) : UserData :=
  {| ud_family := ud_family d; ud_category := Some category;
     ud_amount := ud_amount d; ud_period := ud_period d |}.

(** [s] with another draft and more calls on the API. *)
Definition with_draft_sent (s : State) (d : UserData) (os : list outgoing)
  : State :=
  {| user_data := d; db := db s; sent := sent s ++ os; log := log s;
     locked := locked s |}.

(** The first of the four keys that the draft lacks, in the order in
    which [save_transaction] reads them. *)
Definition first_missing (d : UserData) : option string :=
  match ud_family d, ud_category d, ud_amount d, ud_period d with
  | None, _, _, _ => Some "family"
  | _, None, _, _ => Some "category"
  | _, _, None, _ => Some "amount"
  | _, _, _, None => Some "period"
  | _, _, _, _ => None
  end.

Definition with_amount (d : UserData) (amount : PyFloat.float) : UserData :=
  {| ud_family := ud_family d; ud_category := ud_category d;
     ud_amount := Some amount; ud_period := ud_period d |}.

Definition with_period (d : UserData) (period : string) : UserData :=
  {| ud_family := ud_family d; ud_category := ud_category d;
     ud_amount := ud_amount d; ud_period := Some period |}.

(** [s] with another draft. *)
Definition with_draft (s : State) (d : UserData) : State :=
  {| user_data := d; db := db s; sent := sent s; log := log s;
     locked := locked s |}.

(** What one update can do to the conversation and to its draft: the
    moves of the handlers of [run], one constructor for each.  A handler
    that stores its value and then raises on a missing key leaves the
    conversation where it is. *)
Inductive draft_step : option Z -> UserData -> option Z -> UserData -> Prop :=
| step_same conv d : draft_step conv d conv d
| step_start d : draft_step None d (Some FAMILY) d
| step_family d family :
    draft_step (Some FAMILY) d (Some CATEGORY) (with_family d family)
| step_category d category conv' :
    conv' = Some AMOUNT \/ conv' = Some CATEGORY /\ ud_family d = None ->
    draft_step (Some CATEGORY) d conv' (with_category d category)
| step_amount d amount conv' :
    PyFloat.le_zero amount = false ->
    conv' = Some PERIOD
    \/ conv' = Some AMOUNT /\ (ud_family d = None \/ ud_category d = None) ->
    draft_step (Some AMOUNT) d conv' (with_amount d amount)
| step_period d period conv' :
    Strptime.strptime_Ymd period <> None ->
    conv' = Some CONTACT
    \/ conv' = Some PERIOD
       /\ (ud_family d = None \/ ud_category d = None \/ ud_amount d = None) ->
    draft_step (Some PERIOD) d conv' (with_period d period)
| step_end state d : draft_step (Some state) d None no_data.

(** The keys of the draft are those of the steps that are behind: none
    outside a conversation, and in state [k] the first [k] of family,
    category, amount, period. *)
Definition draft_shape (conv : option Z) (d : UserData) : Prop :=
  match conv with
  | None => d = no_data
  | Some state =>
      FAMILY <= state <= CONTACT
      /\ (ud_family d <> None <-> CATEGORY <= state)
      /\ (ud_category d <> None <-> AMOUNT <= state)
      /\ (ud_amount d <> None <-> PERIOD <= state)
      /\ (ud_period d <> None <-> CONTACT <= state)
  end.

(** The values of the draft have passed the checks of their steps. *)
Definition draft_checked (d : UserData) : Prop :=
  (forall a, ud_amount d = Some a -> PyFloat.le_zero a = false)
  /\ (forall p, ud_period d = Some p -> Strptime.strptime_Ymd p <> None).

(** A number above zero, [inf] too: not zero, not negative, not [nan]. *)
Definition above_zero (a : PyFloat.float) : bool :=
  match a with
  | S754_finite false _ _ | S754_infinity false => true
  | _ => false
  end.

(** A row as the conversation means it: an amount above zero, a period
    that [strptime] reads, a contact that starts with [@]. *)
Definition row_checked (r : Sqlite.row) : Prop :=
  (exists a, Sqlite.amount r = Sqlite.Real a /\ above_zero a = true)
  /\ (exists p, Sqlite.period r = Sqlite.Text p
                /\ Strptime.strptime_Ymd p <> None)
  /\ (exists c, Sqlite.contact r = Sqlite.Text (String "@" c)).

(** How often [c] occurs in [s]. *)
Fixpoint count_char (c : ascii) (s : string) : nat :=
  match s with
  | EmptyString => 0
  | String x s' => (if Ascii.eqb x c then 1 else 0) + count_char c s'
  end.

(** The answer of [is_authorized] for an update from the chat [chat]. *)
Definition authorized (self : TransactionBot) (chat : Z) : bool :=
  match allowed_group_id self with
  | None | Some EmptyString => true
  | Some allowed => String.eqb (PyStr.str_int chat) allowed
  end.

(** A bot that is restricted to the chat [-100]. *)
Definition group_bot : TransactionBot :=
  {| bot_token := Some "token"; allowed_group_id := Some "-100";
     db_path := "transactions.db" |}.

(* ================================================================= *)
(** * Properties *)

(** ** The embedded library functions on sample inputs *)

Example strip_ex : PyStr.strip "  2024-01-15 " = "2024-01-15".
Proof. reflexivity. Qed.

Example replace_ex : PyStr.replace "," "." "25,50" = "25.50".
Proof. reflexivity. Qed.

Example replace_ex2 :
  PyStr.replace "family_" EmptyString "family_Famiglia Rossi" = "Famiglia Rossi".
Proof. reflexivity. Qed.

Example str_int_ex : PyStr.str_int (-1001234) = "-1001234" /\ PyStr.str_int 0 = "0".
Proof. split; reflexivity. Qed.

Example float_ex1 :
  PyFloat.of_string "25.50" = Some (S754_finite false 7177611906121728 (-48)).
Proof. vm_compute. reflexivity. Qed.

Example float_ex2 :
  PyFloat.of_string "0.1" = Some (S754_finite false 7205759403792794 (-56))
  /\ PyFloat.of_string "1e999" = Some (S754_infinity false)
  /\ PyFloat.of_string "1_000" = PyFloat.of_string "1000"
  /\ PyFloat.of_string "1e" = None
  /\ PyFloat.of_string "12abc" = None.
Proof. vm_compute. repeat split. Qed.

Example format_ex :
  option_map PyFloat.format_2f (PyFloat.of_string "2.675") = Some "2.67"
  /\ option_map PyFloat.format_2f (PyFloat.of_string "25,50") = None
  /\ option_map PyFloat.format_2f (PyFloat.of_string "25.50") = Some "25.50".
Proof. vm_compute. repeat split. Qed.

Example strptime_ex :
  Strptime.strptime_Ymd "2024-01-15" = Some (2024, 1, 15)
  /\ Strptime.strptime_Ymd "2024-1-5" = Some (2024, 1, 5)
  /\ Strptime.strptime_Ymd "2024-02-30" = None
  /\ Strptime.strptime_Ymd "2023-02-29" = None
  /\ Strptime.strptime_Ymd "2024-02-29" = Some (2024, 2, 29)
  /\ Strptime.strptime_Ymd "0000-01-01" = None
  /\ Strptime.strptime_Ymd "2024-01-15x" = None
  /\ Strptime.strptime_Ymd "15/01/2024" = None.
Proof. vm_compute. repeat split. Qed.


(** ** Text *)

Lemma startswith_at_cons (c : string) :
  PyStr.startswith "@" (String "@" c) = true.
Proof. reflexivity. Qed.

Lemma startswith_at_inv (c : string) :
  PyStr.startswith "@" c = true -> exists r, c = String "@" r.
Proof.
  destruct c as [|a r]; [discriminate|].
  change (PyStr.startswith "@" (String a r)) with (Ascii.eqb "@" a && true).
  rewrite andb_true_r. intros H. apply Ascii.eqb_eq in H. subst a.
  now exists r.
Qed.

Lemma lstrip_all (p : ascii -> bool) (s : string) :
  PyStr.all_chars p s = true -> PyStr.lstrip_by p s = EmptyString.
Proof.
  induction s as [|c s IH]; simpl; [reflexivity|].
  intros H. apply andb_true_iff in H as [Hc Hs]. rewrite Hc. auto.
Qed.

Lemma strip_blank (s : string) :
  PyStr.all_chars PyStr.isspace s = true -> PyStr.strip s = EmptyString.
Proof.
  intros H. unfold PyStr.strip. now rewrite lstrip_all.
Qed.

Lemma str_int_inj (a b : Z) : PyStr.str_int a = PyStr.str_int b -> a = b.
Proof.
  unfold PyStr.str_int. intros H.
  assert (Hnz : forall z, Z.to_int z <> Decimal.Pos Decimal.Nil
                          /\ Z.to_int z <> Decimal.Neg Decimal.Nil).
  { intros [|p|p]; simpl; split; try discriminate;
      intros [= E]; now apply (DecimalPos.Unsigned.to_uint_nonnil p). }
  assert (E : Some (Z.to_int a) = Some (Z.to_int b)).
  { rewrite <- (NilZero.isi (Z.to_int a)), <- (NilZero.isi (Z.to_int b));
      try apply Hnz. now rewrite H. }
  injection E as E.
  rewrite <- (DecimalZ.of_to a), <- (DecimalZ.of_to b). now rewrite E.
Qed.

(** ** Contact normalization *)

(** C6.  Normalizing a contact that begins with [@] returns it unchanged;
    normalizing one that does not puts exactly one [@] in front; and
    normalizing twice is normalizing once. *)
Theorem normalize_contact_idempotent (c : string) :
  (PyStr.startswith "@" c = true -> normalize_contact c = c)
  /\ (PyStr.startswith "@" c = false -> normalize_contact c = String "@" c)
  /\ normalize_contact (normalize_contact c) = normalize_contact c.
Proof.
  unfold normalize_contact.
  destruct (PyStr.startswith "@" c) eqn:E; cbn [negb].
  - rewrite E. repeat split. discriminate.
  - change ("@" ++ c) with (String "@" c).
    rewrite startswith_at_cons. repeat split. discriminate.
Qed.

Lemma normalize_contact_idempotent_witness :
  normalize_contact "@mario" = "@mario"
  /\ normalize_contact "mario" = "@mario"
  /\ normalize_contact (normalize_contact "mario") = normalize_contact "mario".
Proof.
  split; [|split].
  - apply (proj1 (normalize_contact_idempotent "@mario")); reflexivity.
  - apply (proj1 (proj2 (normalize_contact_idempotent "mario"))); reflexivity.
  - apply (proj2 (proj2 (normalize_contact_idempotent "mario"))).
Defined.

(** ** Authorization *)

Lemma str_int_nonempty (n : Z) : PyStr.str_int n <> EmptyString.
Proof.
  intros H.
  assert (E : NilZero.int_of_string (PyStr.str_int n) = None)
    by now rewrite H.
  unfold PyStr.str_int in E. rewrite NilZero.isi in E; [discriminate| |];
    destruct n as [|p|p]; simpl; try discriminate;
    intros [= E']; now apply (Unsigned.to_uint_nonnil p).
Qed.

(** C7.  [is_authorized] changes nothing; it answers true when no chat is
    configured (the variable unset or empty), and otherwise it answers
    true exactly when the identifier of the chat, written in decimal, is
    the configured one.  A caller of [/start] who is not authorized gets
    the fixed rejection text, and no conversation is opened. *)
Theorem is_authorized_spec (self : TransactionBot) (world : World)
    (u : Update) (s : State) :
  (exists b, is_authorized self u s = (s, Return b))
  /\ (allowed_group_id self = None \/ allowed_group_id self = Some EmptyString ->
      is_authorized self u s = (s, Return true))
  /\ (forall a, allowed_group_id self = Some a -> a <> EmptyString ->
      (is_authorized self u s = (s, Return true)
       <-> PyStr.str_int (effective_chat_id u) = a))
  /\ (forall n, allowed_group_id self = Some (PyStr.str_int n) ->
      (is_authorized self u s = (s, Return true) <-> effective_chat_id u = n))
  /\ (is_authorized self u s = (s, Return false) ->
      start self u s
      = (with_sent s [ReplyText unauthorized_text None None], Return END)
      /\ (is_command "start" u = true ->
          handle_update self world None u s
          = (None, with_sent s [ReplyText unauthorized_text None None]))).
Proof.
  assert (Hyes : forall a, allowed_group_id self = Some a -> a <> EmptyString ->
            (is_authorized self u s = (s, Return true)
             <-> PyStr.str_int (effective_chat_id u) = a)).
  { intros a Ha Hne. unfold is_authorized. rewrite Ha.
    destruct a as [|c r]; [congruence|]. unfold ret.
    split.
    - intros [= E]. now apply String.eqb_eq.
    - intros E. apply String.eqb_eq in E. now rewrite E. }
  split; [|split; [|split; [|split]]].
  - unfold is_authorized.
    destruct (allowed_group_id self) as [[|c r]|]; eexists; reflexivity.
  - unfold is_authorized. intros [E|E]; rewrite E; reflexivity.
  - exact Hyes.
  - intros n Hn. rewrite (Hyes _ Hn (str_int_nonempty n)).
    split; [apply str_int_inj | congruence].
  - intros Hno.
    assert (Hstart : start self u s
      = (with_sent s [ReplyText unauthorized_text None None], Return END)).
    { unfold start, bind. rewrite Hno. reflexivity. }
    split; [exact Hstart|].
    intros Hcmd. unfold handle_update, conv_handler, first_match, entry_points.
    cbn [find fst snd option_map]. rewrite Hcmd. cbn [option_map snd].
    rewrite Hstart. reflexivity.
Qed.

Lemma is_authorized_spec_witness :
  let self := {| bot_token := Some "token";
                 allowed_group_id := Some "-1001234";
                 db_path := "transactions.db" |} in
  let world := {| current_timestamp := "2024-01-20 10:00:00";
                  now_local := "2024-01-20 11:00";
                  send_message_error := fun _ _ => None;
     collected := false |} in
  let u := {| effective_chat_id := 77; effective_user_id := 42;
              effective_user_username := Some "anna";
              update_payload := Command "start" "/start" |} in
  start self u initial_state
  = (with_sent initial_state [ReplyText unauthorized_text None None],
     Return END)
  /\ handle_update self world None u initial_state
     = (None, with_sent initial_state [ReplyText unauthorized_text None None]).
Proof.
  intros self world u.
  destruct (is_authorized_spec self world u initial_state)
    as (_ & _ & _ & _ & H).
  destruct H as [H1 H2]; [reflexivity|].
  split; [exact H1 | apply H2; reflexivity].
Defined.

(** ** Cancelling *)

(** C5.  In each of the five states [/cancel] is taken by the fallback:
    the draft is emptied, the conversation ends, and the table is the one
    before (no row is inserted). *)
Theorem cancel_discards_draft (self : TransactionBot) (world : World)
    (state : Z) (u : Update) (s : State) (text : string) :
  In state [FAMILY; CATEGORY; AMOUNT; PERIOD; CONTACT] ->
  update_payload u = Command "cancel" text ->
  handle_update self world (Some state) u s
  = (None, {| user_data := no_data; db := db s;
              sent := sent s ++ [ReplyText cancel_text None None];
              log := log s; locked := locked s |}).
Proof.
  intros Hstate Hu. destruct u as [chat uid uname pl]. simpl in Hu. subst pl.
  simpl in Hstate.
  repeat (destruct Hstate as [<-|Hstate]); try contradiction; reflexivity.
Qed.

Lemma cancel_discards_draft_witness :
  let self := {| bot_token := Some "token"; allowed_group_id := None;
                 db_path := "transactions.db" |} in
  let world := {| current_timestamp := "2024-01-20 10:00:00";
                  now_local := "2024-01-20 11:00";
                  send_message_error := fun _ _ => None;
     collected := false |} in
  let u := {| effective_chat_id := 7; effective_user_id := 42;
              effective_user_username := None;
              update_payload := Command "cancel" "/cancel" |} in
  let s := {| user_data := draft "Famiglia Rossi" "Quota Mensile"
                             (S754_finite false 7177611906121728 (-48))
                             "2024-01-15";
              db := Some Sqlite.empty; sent := []; log := [];
              locked := false |} in
  handle_update self world (Some CONTACT) u s
  = (None, {| user_data := no_data; db := Some Sqlite.empty;
              sent := [ReplyText cancel_text None None]; log := [];
              locked := false |}).
Proof.
  intros self world u s.
  apply (cancel_discards_draft self world CONTACT u s "/cancel").
  - simpl. tauto.
  - reflexivity.
Defined.

(** ** The amount step *)

Lemma read_amount_invalid (text : string) (s : State) :
  amount_valid text = false ->
  exists msg, read_amount text s = (s, Raise (ValueError msg)).
Proof.
  unfold amount_valid, read_amount.
  destruct (PyFloat.of_string _) as [a|]; [|eexists; reflexivity].
  destruct (PyFloat.le_zero a); [eexists; reflexivity | discriminate].
Qed.

Lemma read_amount_valid (text : string) (s : State) :
  amount_valid text = true ->
  exists a, PyFloat.of_string (PyStr.replace "," "." text) = Some a
            /\ PyFloat.le_zero a = false
            /\ read_amount text s = (s, Return a).
Proof.
  unfold amount_valid, read_amount.
  destruct (PyFloat.of_string _) as [a|]; [|discriminate].
  destruct (PyFloat.le_zero a) eqn:E; [discriminate|].
  intros _. exists a. now rewrite E.
Qed.

(** C8.  When the amount is not accepted, the handler answers with the
    retry text and stays in AMOUNT; the draft, the table and the log are
    those before. *)
Theorem invalid_amount_changes_nothing (u : Update) (s : State) :
  amount_valid (message_text u) = false ->
  get_amount u s = (with_sent s [ReplyText amount_retry_text None None],
                    Return AMOUNT)
  /\ user_data (fst (get_amount u s)) = user_data s
  /\ db (fst (get_amount u s)) = db s
  /\ log (fst (get_amount u s)) = log s.
Proof.
  intros H. destruct (read_amount_invalid _ s H) as [msg E].
  assert (G : get_amount u s
              = (with_sent s [ReplyText amount_retry_text None None],
                 Return AMOUNT)).
  { unfold get_amount, try_except, bind. rewrite E. reflexivity. }
  rewrite G. repeat split.
Qed.

Lemma invalid_amount_changes_nothing_witness :
  let s := {| user_data := {| ud_family := Some "Famiglia Rossi";
                              ud_category := Some "Quota Mensile";
                              ud_amount := None; ud_period := None |};
              db := Some Sqlite.empty; sent := []; log := [];
              locked := false |} in
  get_amount (text_update "-5") s
  = (with_sent s [ReplyText amount_retry_text None None], Return AMOUNT).
Proof.
  intros s.
  apply (invalid_amount_changes_nothing (text_update "-5") s).
  vm_compute. reflexivity.
Defined.

(** ** The contact step: commit, notification, confirmation *)

Lemma float_nan_dec (a : PyFloat.float) : {a = S754_nan} + {a <> S754_nan}.
Proof. destruct a; (now left) || (right; discriminate). Qed.

Lemma bind_float_real (a : PyFloat.float) :
  a <> S754_nan -> Sqlite.bind_float a = Sqlite.Real a.
Proof. destruct a; simpl; congruence. Qed.

(** A commit that is not held back: the connections left open, if any,
    have been collected. *)
Definition lock_free (world : World) (s : State) : Prop :=
  locked s && negb (collected world) = false.

(** [save_transaction] on a full draft whose amount is a number, with the
    table there, an identifier of 64 bits and no lock: the row goes in. *)
Lemma save_transaction_ok (world : World) (u : Update) (contact : string)
    (s : State) (t : Sqlite.table) (f c : string) (a : PyFloat.float)
    (p : string) :
  db s = Some t ->
  user_data s = draft f c a p ->
  a <> S754_nan ->
  Sqlite.fits_int64 (effective_user_id u) = true ->
  lock_free world s ->
  save_transaction world u contact s
  = ({| user_data := user_data s;
        db := Some (with_row t (committed_row world u f c a p contact t));
        sent := sent s; log := log s; locked := false |}, Return tt).
Proof.
  intros Hdb Hud Ha Hid Hl. unfold lock_free in Hl.
  destruct s as [ud d snt lg lk]. simpl in Hdb, Hud, Hl. subst ud d.
  unfold save_transaction, connect, bind, lookup, modify.
  cbn [user_data db sent log locked ud_family ud_category ud_amount ud_period
       draft].
  rewrite Hid, Hl, (bind_float_real a Ha). reflexivity.
Qed.

(** It returns in no other case. *)
Lemma save_transaction_inv (world : World) (u : Update) (contact : string)
    (s s1 : State) :
  save_transaction world u contact s = (s1, Return tt) ->
  exists t f c a p,
    db s = Some t /\ user_data s = draft f c a p /\ a <> S754_nan
    /\ Sqlite.fits_int64 (effective_user_id u) = true
    /\ lock_free world s
    /\ s1 = {| user_data := user_data s;
               db := Some (with_row t
                             (committed_row world u f c a p contact t));
               sent := sent s; log := log s; locked := false |}.
Proof.
  intros H.
  destruct s as [[[f|] [c|] [a|] [p|]] [t|] snt lg lk];
    try (unfold save_transaction, connect, bind, lookup, modify in H;
         simpl in H; discriminate).
  unfold save_transaction, connect, bind, lookup, modify in H.
  cbn [user_data db sent log locked ud_family ud_category ud_amount
       ud_period] in H.
  destruct (Sqlite.fits_int64 (effective_user_id u)) eqn:Hid;
    [|discriminate H].
  destruct (lk && negb (collected world)) eqn:Hl; [discriminate H|].
  destruct (float_nan_dec a) as [->|Ha]; [discriminate H|].
  exists t, f, c, a, p. repeat split; try assumption.
  rewrite (bind_float_real a Ha) in H.
  unfold Sqlite.insert, Sqlite.not_null_violation in H.
  cbn [Sqlite.family Sqlite.category Sqlite.amount Sqlite.period
       Sqlite.contact Sqlite.user_id Sqlite.is_null negb] in H.
  injection H as <-. reflexivity.
Qed.

(** When it raises, the draft, the table, the messages and the log are
    those before; a lock that was there and has not been collected is
    still there. *)
Lemma save_transaction_raise (world : World) (u : Update) (contact : string)
    (s s' : State) (e : exn) :
  save_transaction world u contact s = (s', Raise e) ->
  user_data s' = user_data s /\ db s' = db s
  /\ sent s' = sent s /\ log s' = log s
  /\ (locked s' = true \/ locked s' = locked s && negb (collected world)).
Proof.
  destruct s as [[[f|] [c|] [a|] [p|]] [t|] snt lg lk];
    unfold save_transaction, connect, bind, lookup, modify;
    cbn [user_data db sent log locked ud_family ud_category ud_amount
         ud_period];
    try (intros [= <- _]; repeat split; now right).
  destruct (Sqlite.fits_int64 (effective_user_id u)); cbn [negb];
    [|intros [= <- _]; repeat split; now right].
  destruct (lk && negb (collected world));
    [intros [= <- _]; repeat split; now right|].
  destruct (Sqlite.insert _ _ _ _ _ _ _ _ _); [discriminate|].
  intros [= <- _]; repeat split; now left.
Qed.

(** What [get_contact] does once [save_transaction] has returned: the
    notification is tried, the user is told, the draft is emptied. *)
Lemma get_contact_saved (world : World) (u : Update) (s s1 : State)
    (f c : string) (a : PyFloat.float) (p : string) :
  save_transaction world u (contact_of u) s = (s1, Return tt) ->
  user_data s = draft f c a p ->
  let contact := contact_of u in
  let note := notification_for world u f c a p in
  let confirmation :=
    ReplyText (confirmation_text f c a p contact) None markdown in
  get_contact world u s
  = match send_message_error world contact note with
    | None =>
        ({| user_data := no_data; db := db s1;
            sent := sent s ++ [SendMessage contact note markdown; confirmation];
            log := log s; locked := false |}, Return END)
    | Some err =>
        ({| user_data := no_data; db := db s1;
            sent := sent s ++ [ReplyText (delivery_warning_text contact) None None;
                               confirmation];
            log := log s ++ ["Failed to send notification to " ++ contact
                             ++ ": " ++ err];
            locked := false |}, Return END)
    end.
Proof.
  intros Hsave Hud contact note confirmation.
  destruct (save_transaction_inv world u _ s s1 Hsave)
    as (t & f' & c' & a' & p' & Hdb & Hud' & Ha & Hid & Hl & ->).
  rewrite Hud in Hud'. injection Hud' as <- <- <- <-.
  subst contact note confirmation.
  unfold get_contact. fold (contact_of u). unfold bind at 1. rewrite Hsave.
  rewrite Hud.
  unfold send_notification, send_message, try_except,
    bind, lookup, draft, reply_text, call, logger_error, set_user_data,
    modify, ret, raise.
  cbn [user_data db sent log locked ud_family ud_category ud_amount ud_period].
  fold (notification_for world u f c a p).
  destruct (send_message_error world _ (notification_for world u f c a p))
    as [err|];
    cbn beta iota delta [is_Exception exn_str user_data db sent log locked
         ud_family ud_category ud_amount ud_period];
    rewrite <- app_assoc; reflexivity.
Qed.

Lemma handle_updates_app (self : TransactionBot) (world : World)
    (us1 us2 : list Update) (conv : option Z) (s : State) :
  handle_updates self world conv (us1 ++ us2) s
  = handle_updates self world (fst (handle_updates self world conv us1 s)) us2
      (snd (handle_updates self world conv us1 s)).
Proof.
  revert conv s. induction us1 as [|u us1 IH]; intros conv s; simpl.
  - reflexivity.
  - destruct (handle_update self world conv u s) as [conv' s']. apply IH.
Qed.

Lemma handle_contact_saved (self : TransactionBot) (world : World)
    (u : Update) (s s1 : State) (text : string) :
  update_payload u = TextMessage text ->
  save_transaction world u (contact_of u) s = (s1, Return tt) ->
  exists s',
    handle_update self world (Some CONTACT) u s = (None, s')
    /\ get_contact world u s = (s', Return END)
    /\ user_data s' = no_data
    /\ db s' = db s1.
Proof.
  intros Hu Hsave.
  destruct (save_transaction_inv world u _ s s1 Hsave)
    as (t & f & c & a & p & _ & Hud & _).
  pose proof (get_contact_saved world u s s1 f c a p Hsave Hud) as G.
  cbv zeta in G.
  unfold handle_update, conv_handler, first_match.
  change (states world CONTACT) with [(is_plain_text, get_contact world)].
  unfold find, fst, is_plain_text. rewrite Hu. cbn [option_map snd].
  destruct (send_message_error world _ _); rewrite G;
    eexists; repeat split; reflexivity.
Qed.

Lemma handle_contact_full (self : TransactionBot) (world : World)
    (u : Update) (s : State) (t : Sqlite.table)
    (f c : string) (a : PyFloat.float) (p text : string) :
  update_payload u = TextMessage text ->
  db s = Some t -> user_data s = draft f c a p -> a <> S754_nan ->
  Sqlite.fits_int64 (effective_user_id u) = true ->
  lock_free world s ->
  exists s',
    handle_update self world (Some CONTACT) u s = (None, s')
    /\ get_contact world u s = (s', Return END)
    /\ user_data s' = no_data
    /\ db s' = Some (with_row t
                       (committed_row world u f c a p (contact_of u) t)).
Proof.
  intros Hu Hdb Hud Ha Hid Hl.
  destruct (handle_contact_saved self world u s _ text Hu
              (save_transaction_ok world u (contact_of u) s t f c a p
                 Hdb Hud Ha Hid Hl))
    as (s' & H1 & H2 & H3 & H4).
  exists s'. repeat split; assumption.
Qed.

(** C3.  Whenever the contact step completes, the table has exactly one
    more row, made of the draft, the normalized contact and the identity
    of the user; the step does complete once [save_transaction] has
    returned, with the table that it left; and from a fresh installation
    the conversation "Famiglia Rossi", "Quota Mensile", "25,50",
    "2024-01-15", "mario" of a user whose identifier has 64 bits leaves
    the row with amount 25.50, period "2024-01-15" and contact
    "@mario". *)
Theorem commit_inserts_one_row (self : TransactionBot) (world : World) :
  (forall u s s',
     get_contact world u s = (s', Return END) ->
     exists t f c a p,
       db s = Some t /\ user_data s = draft f c a p
       /\ db s' = Some (with_row t
                          (committed_row world u f c a p (contact_of u) t)))
  /\ (forall u s s1,
        save_transaction world u (contact_of u) s = (s1, Return tt) ->
        exists s', get_contact world u s = (s', Return END)
                   /\ db s' = db s1)
  /\ (forall chat uid uname,
        allowed_group_id self = None ->
        Sqlite.fits_int64 uid = true ->
        let amount := S754_finite false 7177611906121728 (-48) in
        exists s',
          handle_updates self world None
            (conversation chat uid uname "Famiglia Rossi" "Quota Mensile"
               "25,50" "2024-01-15" "mario") initial_state = (None, s')
          /\ db s' = Some
               {| Sqlite.rows :=
                    [ {| Sqlite.id := 1;
                         Sqlite.family := Sqlite.Text "Famiglia Rossi";
                         Sqlite.category := Sqlite.Text "Quota Mensile";
                         Sqlite.amount := Sqlite.Real amount;
                         Sqlite.period := Sqlite.Text "2024-01-15";
                         Sqlite.contact := Sqlite.Text "@mario";
                         Sqlite.user_id := Sqlite.Integer uid;
                         Sqlite.username :=
                           Sqlite.Text (or_default uname "N/A");
                         Sqlite.created_at :=
                           Sqlite.Text (current_timestamp world) |} ];
                  Sqlite.sequence := 1 |}
          /\ is_exactly amount 2550 100).
Proof.
  split; [|split].
  - intros u s s' H.
    destruct (save_transaction world u (contact_of u) s) as [s1 [[]|e]] eqn:E.
    + destruct (save_transaction_inv world u _ s s1 E)
        as (t & f & c & a & p & Hdb & Hud & _ & _ & _ & ->).
      exists t, f, c, a, p. repeat split; try assumption.
      pose proof (get_contact_saved world u s _ f c a p E Hud) as G.
      cbv zeta in G. rewrite G in H.
      destruct (send_message_error world _ _); injection H as <-; reflexivity.
    + unfold get_contact in H. fold (contact_of u) in H.
      unfold bind at 1 in H. rewrite E in H. discriminate H.
  - intros u s s1 Hsave.
    destruct (save_transaction_inv world u _ s s1 Hsave)
      as (t & f & c & a & p & _ & Hud & _).
    pose proof (get_contact_saved world u s s1 f c a p Hsave Hud) as G.
    cbv zeta in G. rewrite G.
    destruct (send_message_error world _ _); eexists; split; reflexivity.
  - intros chat uid uname Hall Hid amount.
    destruct self as [tok allowed path]. simpl in Hall. subst allowed.
    set (self := {| bot_token := tok; allowed_group_id := None;
                    db_path := path |}).
    unfold conversation.
    change (map ?f [?a; ?b; ?c; ?d; ?e; ?g])
      with ([f a; f b; f c; f d; f e] ++ [f g])%list.
    rewrite handle_updates_app.
    match goal with
    | |- context [handle_updates self world None ?us initial_state] =>
        assert (E : handle_updates self world None us initial_state
                    = (fst (handle_updates self world None us initial_state),
                       snd (handle_updates self world None us initial_state)))
          by (destruct (handle_updates self world None us initial_state);
              reflexivity);
        assert (E1 : fst (handle_updates self world None us initial_state)
                     = Some CONTACT) by (vm_compute; reflexivity);
        assert (E2 : user_data (snd (handle_updates self world None us
                                       initial_state))
                     = draft "Famiglia Rossi" "Quota Mensile" amount
                         "2024-01-15") by (vm_compute; reflexivity);
        assert (E3 : db (snd (handle_updates self world None us
                                initial_state)) = Some Sqlite.empty)
          by (vm_compute; reflexivity);
        rewrite E1;
        set (s5 := snd (handle_updates self world None us initial_state)) in *
    end.
    cbn [handle_updates].
    edestruct (handle_contact_full self world
                 {| effective_chat_id := chat; effective_user_id := uid;
                    effective_user_username := uname;
                    update_payload := TextMessage "mario" |}
                 s5 Sqlite.empty "Famiglia Rossi" "Quota Mensile" amount
                 "2024-01-15" "mario" eq_refl E3 E2)
      as (s' & Hs' & _ & _ & Hdb).
    { discriminate. }
    { exact Hid. }
    { unfold lock_free. subst s5.
      replace (locked _) with false by (vm_compute; reflexivity).
      reflexivity. }
    rewrite Hs'. exists s'. split; [reflexivity|]. split.
    + rewrite Hdb. reflexivity.
    + vm_compute. reflexivity.
Qed.

Lemma commit_inserts_one_row_witness :
  exists s',
    handle_updates open_bot (world_with None) None
      (conversation 7 42 (Some "anna") "Famiglia Rossi" "Quota Mensile"
         "25,50" "2024-01-15" "mario") initial_state = (None, s')
    /\ db s' = Some
         {| Sqlite.rows :=
              [ {| Sqlite.id := 1;
                   Sqlite.family := Sqlite.Text "Famiglia Rossi";
                   Sqlite.category := Sqlite.Text "Quota Mensile";
                   Sqlite.amount :=
                     Sqlite.Real (S754_finite false 7177611906121728 (-48));
                   Sqlite.period := Sqlite.Text "2024-01-15";
                   Sqlite.contact := Sqlite.Text "@mario";
                   Sqlite.user_id := Sqlite.Integer 42;
                   Sqlite.username := Sqlite.Text "anna";
                   Sqlite.created_at := Sqlite.Text "2024-01-20 10:00:00" |} ];
            Sqlite.sequence := 1 |}.
Proof.
  destruct (commit_inserts_one_row open_bot (world_with None)) as (_ & _ & H).
  destruct (H 7 42 (Some "anna") eq_refl eq_refl) as (s' & H1 & H2 & _).
  exists s'. split; [exact H1 | exact H2].
Defined.

(** C4.  Once [save_transaction] has inserted the row, a notifier that
    fails leaves it in the table: the contact step still completes, the
    table is the one after the insert, and the user receives the warning,
    which contains the contact, followed by the confirmation. *)
Theorem notifier_failure_keeps_row (world : World) (u : Update)
    (s s1 : State) (err : string) :
  save_transaction world u (contact_of u) s = (s1, Return tt) ->
  (forall text, send_message_error world (contact_of u) text = Some err) ->
  exists s' t r f c a p,
    get_contact world u s = (s', Return END)
    /\ db s = Some t /\ db s1 = Some (with_row t r) /\ db s' = db s1
    /\ user_data s = draft f c a p
    /\ sent s'
       = (sent s
          ++ [ ReplyText (delivery_warning_text (contact_of u)) None None;
               ReplyText (confirmation_text f c a p (contact_of u))
                 None markdown ])%list
    /\ exists before after,
         delivery_warning_text (contact_of u)
         = before ++ contact_of u ++ after.
Proof.
  intros Hsave Herr.
  destruct (save_transaction_inv world u _ s s1 Hsave)
    as (t & f & c & a & p & Hdb & Hud & Ha & _ & _ & E).
  pose proof (get_contact_saved world u s s1 f c a p Hsave Hud) as G.
  cbv zeta in G. rewrite Herr in G. rewrite G. subst s1.
  eexists. exists t. eexists. exists f, c, a, p.
  split; [reflexivity|]. split; [exact Hdb|]. split; [reflexivity|].
  split; [reflexivity|]. split; [exact Hud|]. split; [reflexivity|].
  unfold delivery_warning_text. do 2 eexists. reflexivity.
Qed.

Lemma notifier_failure_keeps_row_witness :
  exists s',
    get_contact (world_with (Some "Chat not found")) (text_update "mario")
      rossi_state = (s', Return END)
    /\ db s' = Some (with_row Sqlite.empty
                       (committed_row (world_with (Some "Chat not found"))
                          (text_update "mario") "Famiglia Rossi"
                          "Quota Mensile"
                          (S754_finite false 7177611906121728 (-48))
                          "2024-01-15" "@mario" Sqlite.empty)).
Proof.
  destruct (notifier_failure_keeps_row (world_with (Some "Chat not found"))
              (text_update "mario") rossi_state
              {| user_data := user_data rossi_state;
                 db := Some (with_row Sqlite.empty
                               (committed_row
                                  (world_with (Some "Chat not found"))
                                  (text_update "mario") "Famiglia Rossi"
                                  "Quota Mensile"
                                  (S754_finite false 7177611906121728 (-48))
                                  "2024-01-15" "@mario" Sqlite.empty));
                 sent := []; log := []; locked := false |}
              "Chat not found" eq_refl (fun _ => eq_refl))
    as (s' & t & r & f & c & a & p & H1 & _ & _ & H4 & _).
  exists s'. split; [exact H1 | exact H4].
Defined.

(** C10.  The contact is the message with the white space at both ends
    removed and then normalized, whatever is left, and nothing looks at
    it before the row is written: whether [save_transaction] returns
    does not depend on the contact.  So when it returns for a message of
    white space only, the step completes and the row is committed with
    contact "@". *)
Theorem blank_contact_is_accepted (world : World) (u : Update)
    (s s1 : State) :
  save_transaction world u
    (normalize_contact (PyStr.strip (message_text u))) s = (s1, Return tt) ->
  (exists s' t f c a p,
     get_contact world u s = (s', Return END)
     /\ db s = Some t /\ user_data s = draft f c a p
     /\ db s' = Some (with_row t
                        (committed_row world u f c a p
                           (normalize_contact (PyStr.strip (message_text u)))
                           t))
     /\ (PyStr.all_chars PyStr.isspace (message_text u) = true ->
         db s' = Some (with_row t (committed_row world u f c a p "@" t))))
  /\ (forall contact, exists s2,
        save_transaction world u contact s = (s2, Return tt)).
Proof.
  intros Hsave. fold (contact_of u) in Hsave.
  destruct (save_transaction_inv world u _ s s1 Hsave)
    as (t & f & c & a & p & Hdb & Hud & Ha & Hid & Hl & E).
  split.
  - pose proof (get_contact_saved world u s s1 f c a p Hsave Hud) as G.
    cbv zeta in G.
    assert (H : exists s',
              get_contact world u s = (s', Return END) /\ db s' = db s1).
    { rewrite G.
      destruct (send_message_error world _ _); eexists; split; reflexivity. }
    destruct H as (s' & H1 & H2). exists s', t, f, c, a, p.
    rewrite H2, E. cbn [db]. unfold contact_of.
    repeat split; try assumption.
    intros Hblank. now rewrite (strip_blank _ Hblank).
  - intros contact. eexists.
    exact (save_transaction_ok world u contact s t f c a p Hdb Hud Ha Hid Hl).
Qed.

Lemma blank_contact_is_accepted_witness :
  exists s',
    get_contact (world_with None) (text_update "   ") rossi_state
    = (s', Return END)
    /\ db s' = Some (with_row Sqlite.empty
                       (committed_row (world_with None) (text_update "   ")
                          "Famiglia Rossi" "Quota Mensile"
                          (S754_finite false 7177611906121728 (-48))
                          "2024-01-15" "@" Sqlite.empty)).
Proof.
  destruct (blank_contact_is_accepted (world_with None) (text_update "   ")
              rossi_state
              (fst (save_transaction (world_with None) (text_update "   ")
                      "@" rossi_state)) eq_refl)
    as [(s' & t & f & c & a & p & H1 & Hdb & Hud & _ & H) _].
  exists s'. split; [exact H1|].
  injection Hdb as <-. injection Hud as <- <- <- <-.
  apply H. reflexivity.
Defined.

(** ** The table: every row populated, identifiers unique and growing *)

Section Frame.

Context {A B : Type}.

Lemma keeps_db_ret (a : A) : keeps_db (ret a).
Proof. intros s. reflexivity. Qed.

Lemma keeps_db_raise (e : exn) : keeps_db (@raise A e).
Proof. intros s. reflexivity. Qed.

Lemma keeps_db_bind (m : M A) (k : A -> M B) :
  keeps_db m -> (forall a, keeps_db (k a)) -> keeps_db (bind m k).
Proof.
  intros Hm Hk s. unfold bind. specialize (Hm s).
  destruct (m s) as [s' [a|e]]; simpl in *.
  - now rewrite Hk.
  - exact Hm.
Qed.

Lemma keeps_db_try (m : M A) (caught : exn -> bool) (h : exn -> M A) :
  keeps_db m -> (forall e, keeps_db (h e)) -> keeps_db (try_except m caught h).
Proof.
  intros Hm Hh s. unfold try_except. specialize (Hm s).
  destruct (m s) as [s' [a|e]]; simpl in *.
  - exact Hm.
  - destruct (caught e); simpl; [now rewrite Hh | exact Hm].
Qed.

Lemma keeps_db_lookup (key : string) (field : UserData -> option A) :
  keeps_db (lookup key field).
Proof. intros s. unfold lookup. now destruct (field (user_data s)). Qed.

Lemma keeps_db_if (c : bool) (m1 m2 : M A) :
  keeps_db m1 -> keeps_db m2 -> keeps_db (if c then m1 else m2).
Proof. now destruct c. Qed.

End Frame.

Lemma keeps_db_call (o : outgoing) : keeps_db (call o).
Proof. intros s. reflexivity. Qed.

Lemma keeps_db_log (m : string) : keeps_db (logger_error m).
Proof. intros s. reflexivity. Qed.

Lemma keeps_db_set (f : UserData -> UserData) : keeps_db (set_user_data f).
Proof. intros s. reflexivity. Qed.

Create HintDb frame.
#[local] Hint Resolve keeps_db_ret keeps_db_raise keeps_db_lookup
  keeps_db_call keeps_db_log keeps_db_set : frame.
#[local] Hint Extern 2 (keeps_db (bind _ _)) =>
  apply keeps_db_bind; [|intro] : frame.
#[local] Hint Extern 2 (keeps_db (try_except _ _ _)) =>
  apply keeps_db_try; [|intro] : frame.
#[local] Hint Extern 2 (keeps_db (if _ then _ else _)) =>
  apply keeps_db_if : frame.
#[local] Hint Extern 1 (keeps_db (reply_text _ _ _)) =>
  apply keeps_db_call : frame.
#[local] Hint Extern 1 (keeps_db (edit_message_text _ _ _)) =>
  apply keeps_db_call : frame.

Lemma keeps_db_is_authorized (self : TransactionBot) (u : Update) :
  keeps_db (is_authorized self u).
Proof.
  unfold is_authorized.
  destruct (allowed_group_id self) as [[|c r]|]; auto with frame.
Qed.

#[local] Hint Resolve keeps_db_is_authorized : frame.

Lemma keeps_db_start (self : TransactionBot) (u : Update) :
  keeps_db (start self u).
Proof. unfold start. auto 10 with frame. Qed.

Lemma keeps_db_select_family (u : Update) : keeps_db (select_family u).
Proof. unfold select_family. auto 10 with frame. Qed.

Lemma keeps_db_select_category (u : Update) : keeps_db (select_category u).
Proof. unfold select_category. auto 10 with frame. Qed.

Lemma keeps_db_get_amount (u : Update) : keeps_db (get_amount u).
Proof.
  unfold get_amount.
  assert (keeps_db (read_amount (message_text u))).
  { unfold read_amount. destruct (PyFloat.of_string _) as [a|];
      [destruct (PyFloat.le_zero a)|]; auto with frame. }
  auto 12 with frame.
Qed.

Lemma keeps_db_get_period (u : Update) : keeps_db (get_period u).
Proof.
  unfold get_period.
  assert (keeps_db (check_period (PyStr.strip (message_text u)))).
  { unfold check_period. destruct (Strptime.strptime_Ymd _);
      auto with frame. }
  cbv zeta. auto 12 with frame.
Qed.

Lemma keeps_db_cancel (u : Update) : keeps_db (cancel u).
Proof. unfold cancel. auto 10 with frame. Qed.

Lemma keeps_db_help (self : TransactionBot) (u : Update) :
  keeps_db (help_command self u).
Proof. unfold help_command. auto 10 with frame. Qed.

Lemma keeps_db_send_notification (world : World) (u : Update)
    (contact : string) :
  keeps_db (send_notification world u contact).
Proof.
  unfold send_notification. cbv zeta.
  assert (forall c t p, keeps_db (send_message world c t p)).
  { intros c t p. unfold send_message.
    destruct (send_message_error world c t); auto with frame. }
  auto 12 with frame.
Qed.

Lemma db_step_refl (d : option Sqlite.table) : db_step d d.
Proof. now left. Qed.

Lemma save_transaction_step (world : World) (u : Update) (contact : string)
    (s : State) :
  db_step (db s) (db (fst (save_transaction world u contact s))).
Proof.
  destruct (save_transaction world u contact s) as [s1 [[]|e]] eqn:E;
    cbn [fst].
  - destruct (save_transaction_inv world u _ s s1 E)
      as (t & f & c & a & p & Hdb & _ & _ & _ & _ & ->).
    right. exists t. eexists. split; [exact Hdb|].
    split; [reflexivity|]. split; reflexivity.
  - left. now apply save_transaction_raise in E.
Qed.

Lemma get_contact_step (world : World) (u : Update) (s : State) :
  db_step (db s) (db (fst (get_contact world u s))).
Proof.
  unfold get_contact.
  set (contact := normalize_contact _).
  pose proof (save_transaction_step world u contact s) as H.
  unfold bind at 1.
  destruct (save_transaction world u contact s) as [s1 [[]|e]];
    simpl in H; [|exact H].
  match goal with
  | |- db_step _ (db (fst (?m s1))) =>
      assert (K : keeps_db m)
  end.
  { apply keeps_db_bind; [apply keeps_db_send_notification|intro].
    auto 12 with frame. }
  rewrite (K s1). exact H.
Qed.

Lemma first_match_single (p : Update -> bool) (h : Update -> M Z)
    (u : Update) :
  first_match [(p, h)] u = if p u then Some h else None.
Proof. unfold first_match. cbn [find fst]. now destruct (p u). Qed.

(** The handler that takes an update is one of the seven registered. *)
Lemma conv_handler_In (self : TransactionBot) (world : World)
    (conv : option Z) (u : Update) (h : Update -> M Z) :
  conv_handler self world conv u = Some h ->
  In h [ start self; select_family; select_category; get_amount;
         get_period; get_contact world; cancel ].
Proof.
  assert (Hfall : first_match fallbacks u = Some h ->
            In h [ start self; select_family; select_category; get_amount;
                   get_period; get_contact world; cancel ]).
  { unfold fallbacks. rewrite first_match_single.
    destruct (is_command "cancel" u); intros [= <-]. simpl. tauto. }
  unfold conv_handler. destruct conv as [state|].
  - unfold states.
    repeat match goal with
    | |- context [if (state =? ?k) then _ else _] => destruct (state =? k)
    end;
    try rewrite first_match_single;
    try match goal with
    | |- context [if ?p u then _ else _] => destruct (p u)
    end;
    try exact Hfall; intros [= <-]; simpl; tauto.
  - unfold entry_points. rewrite first_match_single.
    destruct (is_command "start" u); intros [= <-]. simpl. tauto.
Qed.

Lemma handle_update_step (self : TransactionBot) (world : World)
    (conv : option Z) (u : Update) (s : State) :
  db_step (db s) (db (snd (handle_update self world conv u s))).
Proof.
  unfold handle_update.
  destruct (conv_handler self world conv u) as [h|] eqn:E.
  - assert (H : db_step (db s) (db (fst (h u s)))).
    { apply conv_handler_In in E. simpl in E.
      repeat (destruct E as [<-|E]); try contradiction;
        try apply get_contact_step;
        match goal with
        | |- db_step _ (db (fst (?m s))) =>
            assert (K : keeps_db m)
              by auto using keeps_db_start, keeps_db_select_family,
                   keeps_db_select_category, keeps_db_get_amount,
                   keeps_db_get_period, keeps_db_cancel;
            rewrite (K s); apply db_step_refl
        end. }
    destruct (h u s) as [s' [z|e]]; exact H.
  - destruct (is_command "help" u); cbn [snd].
    + rewrite (keeps_db_help self u s). apply db_step_refl.
    + apply db_step_refl.
Qed.

Lemma sorted_snoc (l : list Z) (x : Z) :
  StronglySorted Z.lt l -> Forall (fun y => y < x) l ->
  StronglySorted Z.lt (l ++ [x]).
Proof.
  induction 1 as [|a l Hl IH Ha]; intros Hx; simpl.
  - constructor; constructor.
  - inversion Hx as [|? ? Hax Hlx]; subst.
    constructor; [now apply IH|].
    apply Forall_app. split; [exact Ha | now constructor].
Qed.

Lemma store_ok_with_row (t : Sqlite.table) (r : Sqlite.row) :
  store_ok t -> populated r = true -> Sqlite.id r = Sqlite.sequence t + 1 ->
  store_ok (with_row t r).
Proof.
  intros (Hpop & Hsort & Hbound & Hseq) Hr Hid. unfold store_ok, with_row.
  simpl. split; [|split; [|split]].
  - apply Forall_app. split; [exact Hpop | now constructor].
  - rewrite map_app. simpl. apply sorted_snoc; [exact Hsort|].
    rewrite Forall_map. eapply Forall_impl; [|exact Hbound].
    simpl. intros a Ha. lia.
  - apply Forall_app. split.
    + eapply Forall_impl; [|exact Hbound]. simpl. intros a Ha. lia.
    + constructor; [lia|constructor].
  - lia.
Qed.

Lemma sorted_NoDup (l : list Z) : StronglySorted Z.lt l -> NoDup l.
Proof.
  induction 1 as [|a l Hl IH Ha]; constructor; [|exact IH].
  intros Hin. rewrite Forall_forall in Ha. specialize (Ha a Hin). lia.
Qed.

Lemma store_ok_empty : store_ok Sqlite.empty.
Proof.
  unfold store_ok, Sqlite.empty. simpl.
  repeat split; try constructor. discriminate.
Qed.

Lemma db_step_ok (d d' : option Sqlite.table) :
  db_step d d' ->
  (exists t, d = Some t /\ store_ok t) ->
  exists t', d' = Some t' /\ store_ok t'.
Proof.
  intros [->|(t & r & -> & -> & Hr & Hid)] (t0 & E & Hok); [now exists t0|].
  injection E as <-. eexists. split; [reflexivity|].
  now apply store_ok_with_row.
Qed.

(** C9.  From a fresh installation, whatever updates arrive, the table
    exists, none of its rows has a NULL column, and the identifiers are
    distinct and grow with the order of insertion; handling an update
    keeps this true of any table for which it holds; a user without a
    username is recorded as "N/A"; [init_database] makes the empty table
    and leaves an existing one alone. *)
Theorem table_rows_are_complete (self : TransactionBot) :
  (forall conv s, reachable self conv s ->
     exists t, db s = Some t /\ store_ok t
               /\ NoDup (map Sqlite.id (Sqlite.rows t)))
  /\ (forall world conv u s t,
        db s = Some t -> store_ok t ->
        exists t', db (snd (handle_update self world conv u s)) = Some t'
                   /\ store_ok t'
                   /\ (t' = t
                       \/ exists r, t' = with_row t r
                                    /\ populated r = true
                                    /\ Forall (fun r0 => Sqlite.id r0 < Sqlite.id r)
                                         (Sqlite.rows t)))
  /\ (forall world u f c a p contact t,
        (effective_user_username u = None
         \/ effective_user_username u = Some EmptyString) ->
        Sqlite.username (committed_row world u f c a p contact t)
        = Sqlite.Text "N/A")
  /\ (forall s, db s = None ->
        db (fst (init_database s)) = Some Sqlite.empty)
  /\ (forall s t, db s = Some t -> db (fst (init_database s)) = Some t).
Proof.
  split; [|split; [|split; [|split]]].
  - assert (H : forall conv s, reachable self conv s ->
                  exists t, db s = Some t /\ store_ok t).
    { induction 1 as [|conv s world u Hr IH].
      - exists Sqlite.empty. split; [reflexivity | apply store_ok_empty].
      - eapply db_step_ok; [apply handle_update_step | exact IH]. }
    intros conv s Hr. destruct (H conv s Hr) as (t & E & Hok).
    exists t. repeat split; try assumption; try apply Hok.
    apply sorted_NoDup, Hok.
  - intros world conv u s t Hdb Hok.
    pose proof (handle_update_step self world conv u s) as Hstep.
    destruct Hstep as [E|(t0 & r & E0 & E & Hr & Hid)].
    + exists t. rewrite E. repeat split; try assumption; try apply Hok.
      now left.
    + rewrite Hdb in E0. injection E0 as <-.
      exists (with_row t r). split; [exact E|].
      split; [now apply store_ok_with_row|].
      right. exists r. repeat split; try assumption.
      destruct Hok as (_ & _ & Hbound & _).
      eapply Forall_impl; [|exact Hbound]. simpl. intros r0 Hr0. lia.
  - intros world u f c a p contact t [E|E]; unfold committed_row; simpl;
      now rewrite E.
  - intros s E. unfold init_database, modify. simpl. now rewrite E.
  - intros s t E. unfold init_database, modify. simpl. now rewrite E.
Qed.

Lemma table_rows_are_complete_witness :
  exists t, db (snd (handle_update open_bot (world_with None) (Some CONTACT)
                       (text_update "mario") rossi_state)) = Some t
            /\ store_ok t
            /\ NoDup (map Sqlite.id (Sqlite.rows t)).
Proof.
  destruct (table_rows_are_complete open_bot) as (_ & H & _).
  destruct (H (world_with None) (Some CONTACT) (text_update "mario")
              rossi_state Sqlite.empty eq_refl
              ltac:(unfold store_ok; simpl; repeat split;
                    try constructor; lia))
    as (t & E & Hok & _).
  exists t. repeat split; try assumption; try apply Hok.
  apply sorted_NoDup, Hok.
Defined.

(** ** The period step *)

Lemma digit_char_val (c : ascii) :
  PyStr.isdigit c = true -> digit_char (PyStr.digit_val c) = c.
Proof.
  unfold PyStr.isdigit, PyStr.digit_val, digit_char, PyStr.code.
  intros H. apply andb_true_iff in H as [H1 H2].
  apply N.leb_le in H1, H2.
  replace (48 + Z.to_N (Z.of_N (N_of_ascii c) - 48))%N with (N_of_ascii c)
    by lia.
  apply ascii_N_embedding.
Qed.

Lemma digit_val_range (c : ascii) :
  PyStr.isdigit c = true -> 0 <= PyStr.digit_val c <= 9.
Proof.
  unfold PyStr.isdigit, PyStr.digit_val, PyStr.code.
  intros H. apply andb_true_iff in H as [H1 H2].
  apply N.leb_le in H1, H2. lia.
Qed.

Lemma digit_char_digit (k : Z) :
  0 <= k <= 9 ->
  PyStr.isdigit (digit_char k) = true /\ PyStr.digit_val (digit_char k) = k.
Proof.
  intros H.
  assert (E : k = 0 \/ k = 1 \/ k = 2 \/ k = 3 \/ k = 4 \/ k = 5 \/ k = 6
              \/ k = 7 \/ k = 8 \/ k = 9) by lia.
  repeat destruct E as [->|E]; try subst k; split; reflexivity.
Qed.

Lemma in_range_digit (lo hi : N) (c : ascii) :
  (48 <= lo)%N -> (hi <= 57)%N ->
  Strptime.in_range lo hi c = true ->
  PyStr.isdigit c = true
  /\ Z.of_N lo - 48 <= PyStr.digit_val c <= Z.of_N hi - 48.
Proof.
  unfold Strptime.in_range, PyStr.isdigit, PyStr.digit_val.
  intros Hlo Hhi H. apply andb_true_iff in H as [H1 H2].
  apply N.leb_le in H1, H2. split.
  - apply andb_true_iff. split; apply N.leb_le; lia.
  - lia.
Qed.

Lemma valid_date_range (y m d : Z) :
  Strptime.valid_date y m d = true ->
  1 <= y <= 9999 /\ 1 <= m <= 12 /\ 1 <= d <= 31.
Proof.
  unfold Strptime.valid_date, Strptime.days_in_month. intros H.
  repeat (apply andb_true_iff in H as [H ?]).
  repeat match goal with
  | H : (_ <=? _) = true |- _ => apply Z.leb_le in H
  end.
  repeat split; try assumption.
  destruct (m =? 2); [destruct (Strptime.is_leap y)|]; try lia.
  destruct (_ || _); lia.
Qed.

Lemma match_Y_pad4 (y : Z) (rest : string) :
  0 <= y <= 9999 -> Strptime.match_Y (pad4 y ++ rest) = Some (y, rest).
Proof.
  intros H. unfold pad4. cbn [String.append]. unfold Strptime.match_Y.
  destruct (digit_char_digit (y / 1000)) as [-> ->];
    [Z.to_euclidean_division_equations; lia|].
  destruct (digit_char_digit (y / 100 mod 10)) as [-> ->];
    [Z.to_euclidean_division_equations; lia|].
  destruct (digit_char_digit (y / 10 mod 10)) as [-> ->];
    [Z.to_euclidean_division_equations; lia|].
  destruct (digit_char_digit (y mod 10)) as [-> ->];
    [Z.to_euclidean_division_equations; lia|].
  cbn [andb]. do 2 f_equal.
  Z.to_euclidean_division_equations; lia.
Qed.

Lemma match_Y_inv (s r : string) (y : Z) :
  Strptime.match_Y s = Some (y, r) -> 0 <= y <= 9999 /\ s = pad4 y ++ r.
Proof.
  unfold Strptime.match_Y.
  destruct s as [|a [|b [|c [|d s]]]]; try discriminate.
  destruct (PyStr.isdigit a) eqn:Ha; [|discriminate].
  destruct (PyStr.isdigit b) eqn:Hb; [|discriminate].
  destruct (PyStr.isdigit c) eqn:Hc; [|discriminate].
  destruct (PyStr.isdigit d) eqn:Hd; [|discriminate].
  cbv beta iota delta [andb]. intros E.
  assert (Ey : y = 1000 * PyStr.digit_val a + 100 * PyStr.digit_val b
                   + 10 * PyStr.digit_val c + PyStr.digit_val d)
    by congruence.
  assert (Er : r = s) by congruence.
  clear E. subst y r.
  pose proof (digit_val_range a Ha). pose proof (digit_val_range b Hb).
  pose proof (digit_val_range c Hc). pose proof (digit_val_range d Hd).
  split; [lia|].
  unfold pad4. cbn [String.append].
  rewrite <- (digit_char_val a Ha) at 1. rewrite <- (digit_char_val b Hb) at 1.
  rewrite <- (digit_char_val c Hc) at 1. rewrite <- (digit_char_val d Hd) at 1.
  repeat f_equal; Z.to_euclidean_division_equations; lia.
Qed.

Lemma expect_inv (c : ascii) (s r : string) :
  Strptime.expect c s = Some r -> s = String c r.
Proof.
  unfold Strptime.expect. destruct s as [|a s]; [discriminate|].
  destruct (Ascii.eqb_spec a c) as [->|]; [|discriminate].
  now intros [= ->].
Qed.

Lemma match_m_form (m : Z) (M rest : string) :
  1 <= m <= 12 -> In M (month_forms m) ->
  Strptime.match_m (M ++ String "-" rest) = Some (m, String "-" rest).
Proof.
  intros H HM.
  assert (E : m = 1 \/ m = 2 \/ m = 3 \/ m = 4 \/ m = 5 \/ m = 6 \/ m = 7
              \/ m = 8 \/ m = 9 \/ m = 10 \/ m = 11 \/ m = 12) by lia.
  repeat destruct E as [->|E]; try subst m;
    simpl in HM; repeat destruct HM as [<-|HM]; try contradiction;
    reflexivity.
Qed.

Lemma match_d_form (d : Z) (D : string) :
  1 <= d <= 31 -> In D (day_forms d) ->
  Strptime.match_d D = Some (d, EmptyString).
Proof.
  intros H HD.
  assert (E : d = 1 \/ d = 2 \/ d = 3 \/ d = 4 \/ d = 5 \/ d = 6 \/ d = 7
              \/ d = 8 \/ d = 9 \/ d = 10 \/ d = 11 \/ d = 12 \/ d = 13
              \/ d = 14 \/ d = 15 \/ d = 16 \/ d = 17 \/ d = 18 \/ d = 19
              \/ d = 20 \/ d = 21 \/ d = 22 \/ d = 23 \/ d = 24 \/ d = 25
              \/ d = 26 \/ d = 27 \/ d = 28 \/ d = 29 \/ d = 30 \/ d = 31)
    by lia.
  repeat destruct E as [->|E]; try subst d;
    simpl in HD; repeat destruct HD as [<-|HD]; try contradiction;
    reflexivity.
Qed.

Lemma date_text_strptime (y m d : Z) (s : string) :
  date_text y m d s -> Strptime.strptime_Ymd s = Some (y, m, d).
Proof.
  intros (Hv & M & D & HM & HD & ->).
  destruct (valid_date_range y m d Hv) as (Hy & Hm & Hd).
  unfold Strptime.strptime_Ymd.
  rewrite match_Y_pad4 by lia.
  change ("-" ++ M ++ "-" ++ D) with (String "-" (M ++ String "-" D)).
  cbn [Strptime.expect]. rewrite Ascii.eqb_refl.
  rewrite (match_m_form m M D Hm HM).
  cbn [Strptime.expect]. rewrite Ascii.eqb_refl.
  rewrite (match_d_form d D Hd HD). now rewrite Hv.
Qed.

Lemma pad2_digits (a b : ascii) :
  PyStr.isdigit a = true -> PyStr.isdigit b = true ->
  pad2 (10 * PyStr.digit_val a + PyStr.digit_val b)
  = String a (String b EmptyString).
Proof.
  intros Ha Hb.
  pose proof (digit_val_range a Ha). pose proof (digit_val_range b Hb).
  unfold pad2.
  replace ((10 * PyStr.digit_val a + PyStr.digit_val b) / 10)
    with (PyStr.digit_val a) by (Z.to_euclidean_division_equations; lia).
  replace ((10 * PyStr.digit_val a + PyStr.digit_val b) mod 10)
    with (PyStr.digit_val b) by (Z.to_euclidean_division_equations; lia).
  now rewrite !digit_char_val.
Qed.

Lemma digit1_digit (a : ascii) :
  PyStr.isdigit a = true -> digit1 (PyStr.digit_val a) = String a EmptyString.
Proof. intros Ha. unfold digit1. now rewrite digit_char_val. Qed.

Ltac some_pair E :=
  match type of E with
  | Some (?x, ?y) = Some (?m, ?r) =>
      let E1 := fresh in
      let E2 := fresh in
      assert (E1 : m = x) by congruence;
      assert (E2 : r = y) by congruence;
      clear E; subst m; subst r
  end.

Ltac in_digit H :=
  apply in_range_digit in H; [|lia|lia];
  let Hd := fresh "Hd" in
  let Hb := fresh "Hb" in
  destruct H as [Hd Hb];
  match type of Hb with
  | ?l <= ?x <= ?h =>
      let l' := eval vm_compute in l in
      let h' := eval vm_compute in h in
      change (l' <= x <= h') in Hb
  end.

Lemma match_m_inv (s r : string) (m : Z) :
  Strptime.match_m s = Some (m, r) ->
  exists M, In M (month_forms m) /\ s = M ++ r.
Proof.
  unfold Strptime.match_m, month_forms.
  destruct s as [|a [|b s']]; [discriminate| |].
  - destruct (Strptime.in_range 49 57 a) eqn:Ha; [|discriminate].
    intros E. some_pair E. in_digit Ha.
    destruct (Z.ltb_spec (PyStr.digit_val a) 10); [|lia].
    exists (digit1 (PyStr.digit_val a)). split; [simpl; tauto|].
    now rewrite digit1_digit.
  - destruct (Ascii.eqb_spec a "1") as [->|Hn1].
    + destruct (Strptime.in_range 48 50 b) eqn:Hb; cbv beta iota delta [andb].
      * intros E. some_pair E. in_digit Hb.
        destruct (Z.ltb_spec (10 + PyStr.digit_val b) 10); [lia|].
        exists (pad2 (10 * PyStr.digit_val "1" + PyStr.digit_val b)).
        split; [left; reflexivity|]. now rewrite pad2_digits.
      * change (Ascii.eqb "1" "0") with false.
        change (Strptime.in_range 49 57 "1") with true.
        cbv beta iota delta [andb]. intros E. some_pair E.
        exists (digit1 1). split; [simpl; tauto | reflexivity].
    + cbv beta iota delta [andb].
      destruct (Ascii.eqb_spec a "0") as [->|Hn0].
      * destruct (Strptime.in_range 49 57 b) eqn:Hb;
          cbv beta iota delta [andb].
        -- intros E. some_pair E. in_digit Hb.
           destruct (Z.ltb_spec (PyStr.digit_val b) 10); [|lia].
           exists (pad2 (10 * PyStr.digit_val "0" + PyStr.digit_val b)).
           split; [left; reflexivity|]. now rewrite pad2_digits.
        -- change (Strptime.in_range 49 57 "0") with false. discriminate.
      * cbv beta iota delta [andb].
        destruct (Strptime.in_range 49 57 a) eqn:Ha; [|discriminate].
        intros E. some_pair E. in_digit Ha.
        destruct (Z.ltb_spec (PyStr.digit_val a) 10); [|lia].
        exists (digit1 (PyStr.digit_val a)). split; [simpl; tauto|].
        now rewrite digit1_digit.
Qed.

Lemma append_empty_r (s : string) : s ++ EmptyString = s.
Proof. induction s as [|c s IH]; [reflexivity | simpl; now rewrite IH]. Qed.

Lemma match_d_inv (s r : string) (d : Z) :
  Strptime.match_d s = Some (d, r) ->
  exists D, In D (day_forms d) /\ s = D ++ r.
Proof.
  assert (One : forall a r0,
            Strptime.in_range 49 57 a = true ->
            exists D, In D (day_forms (PyStr.digit_val a))
                      /\ String a r0 = D ++ r0).
  { intros a r0 Ha. in_digit Ha. unfold day_forms.
    destruct (Z.ltb_spec (PyStr.digit_val a) 10); [|lia].
    exists (digit1 (PyStr.digit_val a)). split; [simpl; tauto|].
    now rewrite digit1_digit. }
  assert (Two : forall a b r0,
            PyStr.isdigit a = true -> PyStr.isdigit b = true ->
            exists D, In D (day_forms (10 * PyStr.digit_val a
                                       + PyStr.digit_val b))
                      /\ String a (String b r0) = D ++ r0).
  { intros a b r0 Ha Hb.
    exists (pad2 (10 * PyStr.digit_val a + PyStr.digit_val b)). split.
    - unfold day_forms. destruct (_ <? 10); left; reflexivity.
    - now rewrite pad2_digits. }
  unfold Strptime.match_d.
  destruct s as [|a [|b s']]; [discriminate| |].
  - destruct (Strptime.in_range 49 57 a) eqn:Ha; [|discriminate].
    intros E. some_pair E. now apply One.
  - destruct (Ascii.eqb a "3" && Strptime.in_range 48 49 b) eqn:A1.
    { apply andb_true_iff in A1 as [Ea Hb]. apply Ascii.eqb_eq in Ea.
      subst a. intros E. some_pair E. in_digit Hb.
      apply (Two "3"%char b s' eq_refl Hd). }
    destruct (Strptime.in_range 49 50 a && PyStr.isdigit b) eqn:A2.
    { apply andb_true_iff in A2 as [Ha Hb]. intros E. some_pair E.
      in_digit Ha. now apply Two. }
    destruct (Ascii.eqb a "0" && Strptime.in_range 49 57 b) eqn:A3.
    { apply andb_true_iff in A3 as [Ea Hb]. apply Ascii.eqb_eq in Ea.
      subst a. intros E. some_pair E. in_digit Hb.
      apply (Two "0"%char b s' eq_refl Hd). }
    destruct (Strptime.in_range 49 57 a) eqn:A4.
    { intros E. some_pair E. now apply One. }
    destruct (Ascii.eqb a " " && Strptime.in_range 49 57 b) eqn:A5;
      [|discriminate].
    apply andb_true_iff in A5 as [Ea Hb]. apply Ascii.eqb_eq in Ea.
    subst a. intros E. some_pair E. in_digit Hb. unfold day_forms.
    destruct (Z.ltb_spec (PyStr.digit_val b) 10); [|lia].
    exists (String " " (digit1 (PyStr.digit_val b))).
    split; [simpl; tauto|]. now rewrite digit1_digit.
Qed.

Lemma strptime_date_text (y m d : Z) (s : string) :
  Strptime.strptime_Ymd s = Some (y, m, d) -> date_text y m d s.
Proof.
  unfold Strptime.strptime_Ymd.
  destruct (Strptime.match_Y s) as [[y0 r1]|] eqn:EY; [|discriminate].
  destruct (Strptime.expect "-" r1) as [r2|] eqn:E1; [|discriminate].
  destruct (Strptime.match_m r2) as [[m0 r3]|] eqn:EM; [|discriminate].
  destruct (Strptime.expect "-" r3) as [r4|] eqn:E2; [|discriminate].
  destruct (Strptime.match_d r4) as [[d0 [|c r5]]|] eqn:ED; try discriminate.
  destruct (Strptime.valid_date y0 m0 d0) eqn:Hv; [|discriminate].
  intros E.
  assert (y0 = y /\ m0 = m /\ d0 = d) as (-> & -> & ->)
    by (repeat split; congruence).
  clear E. split; [exact Hv|].
  apply match_Y_inv in EY as [_ ->].
  apply expect_inv in E1 as ->. apply expect_inv in E2 as ->.
  apply match_m_inv in EM as (M & HM & ->).
  apply match_d_inv in ED as (D & HD & ->).
  exists M, D. split; [exact HM|]. split; [exact HD|].
  now rewrite append_empty_r.
Qed.

(** [strptime] reads exactly the texts of [date_text]. *)
Lemma strptime_accepts (s : string) :
  accepted_date_text s <-> Strptime.strptime_Ymd s <> None.
Proof.
  split.
  - intros (y & m & d & H). now rewrite (date_text_strptime y m d s H).
  - destruct (Strptime.strptime_Ymd s) as [[[y m] d]|] eqn:E; [|congruence].
    intros _. exists y, m, d. now apply strptime_date_text.
Qed.

Lemma iso_date_accepted (s : string) : is_iso_date s -> accepted_date_text s.
Proof.
  intros (y & m & d & Hv & ->). exists y, m, d. split; [exact Hv|].
  exists (pad2 m), (pad2 d). repeat split.
  - unfold month_forms. destruct (m <? 10); left; reflexivity.
  - unfold day_forms. destruct (d <? 10); left; reflexivity.
Qed.

Lemma iso_date_length (s : string) : is_iso_date s -> String.length s = 10%nat.
Proof. intros (y & m & d & _ & ->). reflexivity. Qed.

(** C2, as the code has it.  With the family, the category and the amount
    in the draft, the period step looks at the message without the white
    space at its ends.  It succeeds exactly when what is left is a
    four-digit year, "-", a month, "-", a day, where month and day are
    written with two digits or, below 10, with one digit (the day also
    with a blank and one digit), and the date exists in the calendar
    (years 1 to 9999); it then stores that text as the period and goes to
    CONTACT.  Otherwise it answers with the retry text, changes nothing
    else and stays in PERIOD.  Every YYYY-MM-DD text of a calendar date
    is accepted. *)
Theorem period_step_accepts (u : Update) (s : State) (f c : string)
    (a : PyFloat.float) :
  ud_family (user_data s) = Some f ->
  ud_category (user_data s) = Some c ->
  ud_amount (user_data s) = Some a ->
  let p := PyStr.strip (message_text u) in
  (accepted_date_text p ->
   get_period u s
   = ({| user_data := draft f c a p; db := db s;
         sent := sent s ++ [ReplyText (ask_contact_text f c a p) None None];
         log := log s; locked := locked s |}, Return CONTACT))
  /\ (~ accepted_date_text p ->
      get_period u s
      = (with_sent s [ReplyText period_retry_text None None], Return PERIOD))
  /\ (is_iso_date p -> accepted_date_text p).
Proof.
  intros Hf Hc Ha p. split; [|split].
  - intros Hp. apply strptime_accepts in Hp.
    unfold get_period. fold p.
    unfold try_except, bind, check_period, lookup, reply_text, call,
      set_user_data, modify, ret.
    destruct (Strptime.strptime_Ymd p) eqn:E; [|congruence].
    cbn [user_data db sent log locked ud_family ud_category ud_amount ud_period].
    rewrite Hf, Hc, Ha. reflexivity.
  - intros Hp. rewrite strptime_accepts in Hp.
    unfold get_period. fold p.
    unfold try_except, bind, check_period.
    destruct (Strptime.strptime_Ymd p) eqn:E; [|reflexivity].
    exfalso. apply Hp. discriminate.
  - apply iso_date_accepted.
Qed.

Lemma period_step_accepts_witness :
  get_period (text_update " 2024-01-15 ") rossi_period_state
  = ({| user_data := draft "Famiglia Rossi" "Quota Mensile"
                       (S754_finite false 7177611906121728 (-48))
                       "2024-01-15";
        db := Some Sqlite.empty;
        sent := [ReplyText (ask_contact_text "Famiglia Rossi" "Quota Mensile"
                              (S754_finite false 7177611906121728 (-48))
                              "2024-01-15") None None];
        log := []; locked := false |}, Return CONTACT).
Proof.
  apply (period_step_accepts (text_update " 2024-01-15 ") rossi_period_state
           "Famiglia Rossi" "Quota Mensile"
           (S754_finite false 7177611906121728 (-48)) eq_refl eq_refl eq_refl).
  exists 2024, 1, 15. split; [reflexivity|].
  exists "01", "15". repeat split; simpl; tauto.
Defined.

(** C2 as it is stated fails: "2024-1-5" is not of the form YYYY-MM-DD,
    and the period step accepts and stores it. *)
Lemma period_exact_match_counterexample :
  ~ is_iso_date "2024-1-5"
  /\ snd (get_period (text_update "2024-1-5") rossi_period_state)
     = Return CONTACT
  /\ ud_period (user_data (fst (get_period (text_update "2024-1-5")
                                  rossi_period_state)))
     = Some "2024-1-5".
Proof.
  split; [|split; reflexivity].
  intros H. apply iso_date_length in H. discriminate.
Qed.

(** ** Rounding to binary64: the sign of the result *)

Lemma digits2_pos_bounds (p : positive) :
  2 ^ (Z.pos (digits2_pos p) - 1) <= Z.pos p < 2 ^ Z.pos (digits2_pos p).
Proof.
  induction p as [p IH|p IH|]; cbn [digits2_pos].
  - rewrite Pos2Z.inj_succ.
    replace (Z.succ (Z.pos (digits2_pos p)) - 1)
      with (Z.succ (Z.pos (digits2_pos p) - 1)) by lia.
    rewrite !Z.pow_succ_r by lia. lia.
  - rewrite Pos2Z.inj_succ.
    replace (Z.succ (Z.pos (digits2_pos p)) - 1)
      with (Z.succ (Z.pos (digits2_pos p) - 1)) by lia.
    rewrite !Z.pow_succ_r by lia. lia.
  - simpl. lia.
Qed.

Lemma shr_1_m (s : shr_record) :
  0 <= shr_m s ->
  0 <= shr_m (shr_1 s)
  /\ Zdigits2 (shr_m (shr_1 s)) = Z.max 0 (Zdigits2 (shr_m s) - 1).
Proof.
  destruct s as [m r st]. cbn [shr_m]. intros Hm. unfold shr_1.
  destruct m as [|[p|p|]|p]; cbn [shr_m Zdigits2 digits2_pos]; try lia.
Qed.

Lemma iter_shr_1_m (n : positive) (s : shr_record) :
  0 <= shr_m s ->
  0 <= shr_m (iter_pos shr_1 n s)
  /\ Zdigits2 (shr_m (iter_pos shr_1 n s))
     = Z.max 0 (Zdigits2 (shr_m s) - Z.pos n).
Proof.
  revert s. induction n as [n IH|n IH|]; intros s Hs; cbn [iter_pos].
  - destruct (shr_1_m s Hs) as [H1 E1].
    destruct (IH _ H1) as [H2 E2]. destruct (IH _ H2) as [H3 E3].
    split; [exact H3|]. rewrite E3, E2, E1. lia.
  - destruct (IH _ Hs) as [H2 E2]. destruct (IH _ H2) as [H3 E3].
    split; [exact H3|]. rewrite E3, E2. lia.
  - apply shr_1_m, Hs.
Qed.

Lemma Zdigits2_pos (z : Z) : 0 <= z -> 1 <= Zdigits2 z -> 1 <= z.
Proof. destruct z; simpl; lia. Qed.

Lemma Zdigits2_of_pos (z : Z) : 1 <= z -> 1 <= Zdigits2 z.
Proof. destruct z; simpl; lia. Qed.

Lemma shr_record_of_loc_m (m : Z) (l : location) :
  shr_m (shr_record_of_loc m l) = m.
Proof. destruct l as [|[]]; reflexivity. Qed.

Section Binary64.

Let prec := PyFloat.prec.
Let emax := PyFloat.emax.

(** A mantissa that is not negative stays so through the shift, and one
    that is at least 1 at an exponent not below [emin] stays at least 1. *)
Lemma shr_fexp_m (m e : Z) (l : location) :
  0 <= m ->
  0 <= shr_m (fst (shr_fexp prec emax m e l))
  /\ (1 <= m -> -1074 <= e ->
      1 <= shr_m (fst (shr_fexp prec emax m e l))
      /\ -1074 <= snd (shr_fexp prec emax m e l)).
Proof.
  intros Hm. unfold shr_fexp, shr, fexp, emin, prec, emax,
    PyFloat.prec, PyFloat.emax.
  destruct (Z.max (Zdigits2 m + e - 53) (3 - 1024 - 53) - e) as [|n|n] eqn:En;
    cbn [fst snd]; rewrite ?shr_record_of_loc_m;
    try (split; [lia | intros; split; lia]).
  destruct (iter_shr_1_m n (shr_record_of_loc m l)) as [H0 E];
    [rewrite shr_record_of_loc_m; lia|].
  rewrite shr_record_of_loc_m in E.
  split; [exact H0|]. intros H1 He. split; [|lia].
  apply Zdigits2_pos; [exact H0|]. rewrite E. lia.
Qed.

Lemma round_nearest_even_ge (m : Z) (l : location) :
  m <= round_nearest_even m l.
Proof.
  unfold round_nearest_even. destruct l as [|[]]; try lia.
  destruct (Z.even m); lia.
Qed.

(** The rounded value has the sign it was given; it is not zero when the
    mantissa is at least 1 at an exponent not below [emin]. *)
Lemma binary_round_aux_sign (sx : bool) (mx ex : Z) (lx : location) :
  0 <= mx ->
  let x := binary_round_aux prec emax sx mx ex lx in
  (x = S754_zero sx \/ x = S754_infinity sx
   \/ exists m e, x = S754_finite sx m e)
  /\ (1 <= mx -> -1074 <= ex -> x <> S754_zero sx).
Proof.
  intros Hmx. unfold binary_round_aux.
  destruct (shr_fexp_m mx ex lx Hmx) as [H1 K1].
  destruct (shr_fexp prec emax mx ex lx) as [mrs' e'] eqn:E1.
  cbn [fst snd] in H1, K1.
  pose proof (round_nearest_even_ge (shr_m mrs') (loc_of_shr_record mrs'))
    as Hr.
  set (m1 := round_nearest_even (shr_m mrs') (loc_of_shr_record mrs')) in *.
  assert (Hm1 : 0 <= m1) by lia.
  destruct (shr_fexp_m m1 e' loc_Exact Hm1) as [H2 K2].
  destruct (shr_fexp prec emax m1 e' loc_Exact) as [mrs'' e''] eqn:E2.
  cbn [fst snd] in H2, K2. cbv zeta.
  destruct (shr_m mrs'') as [|m|m] eqn:Em; [| |lia].
  - split; [now left|]. intros Hp He.
    destruct K1 as [K1 K1']; [lia|lia|].
    destruct K2 as [K2 _]; lia.
  - split.
    + destruct (e'' <=? emax - prec); [right; right; now exists m, e''|].
      right. now left.
    + intros _ _.
      destruct (e'' <=? emax - prec); discriminate.
Qed.

Lemma Zdigits2_lt_pow (z : Z) : 0 <= z -> z < 2 ^ Zdigits2 z.
Proof.
  destruct z as [|p|p]; [simpl; lia| |lia]. intros _.
  apply digits2_pos_bounds.
Qed.

Lemma Zdigits2_le (z k : Z) : 0 <= z -> 0 <= k -> z < 2 ^ k -> Zdigits2 z <= k.
Proof.
  destruct z as [|p|p]; [simpl; lia| |lia]. intros _ Hk Hz.
  destruct (digits2_pos_bounds p) as [Hlo _]. cbn [Zdigits2].
  assert (H : 2 ^ (Z.pos (digits2_pos p) - 1) < 2 ^ k) by lia.
  apply Z.pow_lt_mono_r_iff in H; lia.
Qed.

(** The exponent after the shift, and the digits that are left. *)
Lemma shr_fexp_e (m e : Z) (l : location) :
  0 <= m ->
  snd (shr_fexp prec emax m e l)
  = Z.max e (Z.max (Zdigits2 m + e - 53) (-1074))
  /\ Zdigits2 (shr_m (fst (shr_fexp prec emax m e l)))
     <= Z.max 0 (Zdigits2 m + e - snd (shr_fexp prec emax m e l)).
Proof.
  intros Hm. unfold shr_fexp, shr, fexp, emin, prec, emax,
    PyFloat.prec, PyFloat.emax.
  destruct (Z.max (Zdigits2 m + e - 53) (3 - 1024 - 53) - e) as [|n|n] eqn:En;
    cbn [fst snd]; rewrite ?shr_record_of_loc_m; try lia.
  destruct (iter_shr_1_m n (shr_record_of_loc m l)) as [_ E];
    [rewrite shr_record_of_loc_m; lia|].
  rewrite shr_record_of_loc_m in E. rewrite E. lia.
Qed.

Lemma round_nearest_even_le (m : Z) (l : location) :
  round_nearest_even m l <= m + 1.
Proof.
  unfold round_nearest_even. destruct l as [|[]]; try lia.
  destruct (Z.even m); lia.
Qed.

(** No overflow: a mantissa and an exponent that stand for a number below
    [2^1023] are not rounded to an infinity. *)
Lemma binary_round_aux_finite (sx : bool) (mx ex : Z) (lx : location) :
  0 <= mx -> ex <= 971 -> Zdigits2 mx + ex <= 1023 ->
  binary_round_aux prec emax sx mx ex lx <> S754_infinity sx.
Proof.
  intros Hmx Hex Hde. unfold binary_round_aux.
  destruct (shr_fexp_m mx ex lx Hmx) as [H1 _].
  destruct (shr_fexp_e mx ex lx Hmx) as [Ee1 Hd1].
  destruct (shr_fexp prec emax mx ex lx) as [mrs' e'] eqn:E1.
  cbn [fst snd] in H1, Ee1, Hd1.
  pose proof (round_nearest_even_ge (shr_m mrs') (loc_of_shr_record mrs'))
    as Hge.
  pose proof (round_nearest_even_le (shr_m mrs') (loc_of_shr_record mrs'))
    as Hle.
  set (m1 := round_nearest_even (shr_m mrs') (loc_of_shr_record mrs')) in *.
  assert (Hm1 : 0 <= m1) by lia.
  assert (Hdm1 : Zdigits2 m1 <= Zdigits2 (shr_m mrs') + 1).
  { pose proof (Zdigits2_lt_pow (shr_m mrs') H1) as Hlt.
    assert (0 <= Zdigits2 (shr_m mrs')) by (destruct (shr_m mrs'); simpl; lia).
    apply Zdigits2_le; [lia|lia|].
    rewrite Z.pow_add_r by lia. lia. }
  destruct (shr_fexp_e m1 e' loc_Exact Hm1) as [Ee2 _].
  destruct (shr_fexp prec emax m1 e' loc_Exact) as [mrs'' e''] eqn:E2.
  cbn [fst snd] in Ee2. cbv zeta.
  destruct (shr_m mrs'') as [|m|m]; try discriminate.
  assert (He'' : e'' <= 971) by lia.
  unfold emax, prec, PyFloat.emax, PyFloat.prec.
  apply Z.leb_le in He''.
  change (1024 - 53) with 971. rewrite He''. discriminate.
Qed.

End Binary64.

Lemma div_core_quotient (mx my : positive) :
  let '(q, e, _) :=
    SFdiv_core_binary PyFloat.prec PyFloat.emax (Z.pos mx) 0 (Z.pos my) 0 in
  0 <= q /\ -1074 <= e <= 0
  /\ (Z.pos my <= Z.pos mx * 2 ^ 1074 -> 1 <= q)
  /\ (Z.pos mx < 2 ^ 1023 * Z.pos my -> Zdigits2 q + e <= 1023).
Proof.
  unfold SFdiv_core_binary, fexp, emin, PyFloat.prec, PyFloat.emax.
  cbn [Zdigits2].
  pose proof (digits2_pos_bounds mx) as [Hx _].
  pose proof (digits2_pos_bounds my) as [_ Hy].
  set (d1 := Z.pos (digits2_pos mx)) in *.
  set (d2 := Z.pos (digits2_pos my)) in *.
  assert (Hd1 : 1 <= d1) by (unfold d1; lia).
  set (e := Z.min (Z.max (d1 + 0 - (d2 + 0) - 53) (3 - 1024 - 53)) (0 - 0)).
  set (s := 0 - 0 - e).
  assert (Hs : 0 <= s) by (unfold s, e; lia).
  set (m' := match s with
             | 0 => Z.pos mx
             | Z.pos _ => Z.shiftl (Z.pos mx) s
             | Z.neg _ => 0
             end).
  assert (Em : m' = Z.pos mx * 2 ^ s).
  { unfold m'. destruct s as [|p|p] eqn:Es; [simpl; lia| |lia].
    rewrite Z.shiftl_mul_pow2 by lia. reflexivity. }
  assert (Hpow : 0 < 2 ^ s) by (apply Z.pow_pos_nonneg; lia).
  pose proof (Z_div_mod m' (Z.pos my) eq_refl) as Hdiv.
  destruct (Z.div_eucl m' (Z.pos my)) as [q r].
  destruct Hdiv as [Eq Hr].
  assert (Hq : 0 <= q) by nia.
  split; [exact Hq|]. split; [unfold e; lia|]. split.
  - intros Htiny.
    assert (Hge : Z.pos my <= m').
    { rewrite Em.
      destruct (Z.eq_dec s 1074) as [->|Hne]; [exact Htiny|].
      assert (Hle : d2 <= s + (d1 - 1)) by (unfold s, e in *; lia).
      assert (2 ^ d2 <= 2 ^ (s + (d1 - 1)))
        by (apply Z.pow_le_mono_r; lia).
      rewrite Z.pow_add_r in H by lia. nia. }
    nia.
  - intros Hhuge.
    assert (Hlt : q < 2 ^ (1023 + s)).
    { rewrite Z.pow_add_r by lia. nia. }
    pose proof (Zdigits2_le q (1023 + s) Hq ltac:(lia) Hlt).
    unfold s in *. lia.
Qed.

Lemma of_decimal_sign (neg : bool) (mant exp10 : Z) :
  0 <= mant ->
  let x := PyFloat.of_decimal neg mant exp10 in
  (x = S754_zero neg \/ x = S754_infinity neg
   \/ exists m e, x = S754_finite neg m e)
  /\ (1 <= mant -> at_least_tiny mant exp10 -> x <> S754_zero neg)
  /\ (below_huge mant exp10 -> x <> S754_infinity neg).
Proof.
  intros Hm. unfold PyFloat.of_decimal.
  destruct mant as [|m|m]; [|clear Hm|lia].
  { split; [now left | split; [lia | discriminate]]. }
  unfold SFdiv.
  set (N := (m * Z.to_pos (10 ^ Z.max exp10 0))%positive).
  set (D := Z.to_pos (10 ^ Z.max (- exp10) 0)).
  pose proof (div_core_quotient N D) as H.
  destruct (SFdiv_core_binary PyFloat.prec PyFloat.emax (Z.pos N) 0
              (Z.pos D) 0) as [[q e] l].
  destruct H as (Hq & He & Hq1 & Hq2).
  replace (xorb neg false) with neg by now destruct neg.
  destruct (binary_round_aux_sign neg q e l Hq) as [H1 H2].
  assert (P1 : 0 < 10 ^ Z.max exp10 0) by (apply Z.pow_pos_nonneg; lia).
  assert (P2 : 0 < 10 ^ Z.max (- exp10) 0) by (apply Z.pow_pos_nonneg; lia).
  split; [exact H1|]. split.
  - intros _ Htiny. apply H2; [|lia].
    apply Hq1. unfold at_least_tiny in Htiny. unfold N, D.
    rewrite Pos2Z.inj_mul, !Z2Pos.id by assumption. exact Htiny.
  - intros Hhuge. apply binary_round_aux_finite; [exact Hq|lia|].
    apply Hq2. unfold below_huge in Hhuge. unfold N, D.
    rewrite Pos2Z.inj_mul, !Z2Pos.id by assumption. exact Hhuge.
Qed.

(** How the amount step sees a decimal: not accepted when it is zero or
    negative, accepted when it is at least [2^-1074]. *)
Lemma of_decimal_le_zero (neg : bool) (mant exp10 : Z) :
  0 <= mant ->
  (mant = 0 \/ neg = true ->
   PyFloat.le_zero (PyFloat.of_decimal neg mant exp10) = true)
  /\ (neg = false -> 1 <= mant -> at_least_tiny mant exp10 ->
      PyFloat.le_zero (PyFloat.of_decimal neg mant exp10) = false
      /\ PyFloat.of_decimal neg mant exp10 <> S754_nan
      /\ (below_huge mant exp10 ->
          exists m e,
            PyFloat.of_decimal neg mant exp10 = S754_finite false m e)).
Proof.
  intros Hm. destruct (of_decimal_sign neg mant exp10 Hm) as (H1 & H2 & H3).
  cbv zeta in H1, H2, H3. split.
  - intros [->| ->]; [reflexivity|].
    destruct H1 as [->|[->|(m & e & ->)]]; reflexivity.
  - intros -> Hp Ht. specialize (H2 Hp Ht).
    destruct H1 as [E|[E|(m & e & E)]]; [contradiction| |]; rewrite E in *;
      (split; [reflexivity|]); (split; [discriminate|]); intros Hh.
    + now elim (H3 Hh).
    + now exists m, e.
Qed.

(** ** The amount step on decimal numerals *)

Lemma span_digits_all (s : string) :
  PyStr.all_chars PyStr.isdigit (fst (PyFloat.span_digits s)) = true.
Proof.
  induction s as [|c s IH]; [reflexivity|]. cbn [PyFloat.span_digits].
  destruct (PyStr.isdigit c) eqn:Hc; [|reflexivity].
  destruct (PyFloat.span_digits s) as [d r]. simpl in *. now rewrite Hc.
Qed.

Lemma all_chars_app (p : ascii -> bool) (s1 s2 : string) :
  PyStr.all_chars p s1 = true -> PyStr.all_chars p s2 = true ->
  PyStr.all_chars p (s1 ++ s2) = true.
Proof.
  induction s1 as [|c s1 IH]; simpl; [auto|].
  intros H1 H2. apply andb_true_iff in H1 as [Hc H1]. rewrite Hc. auto.
Qed.

Lemma digits_acc_nonneg (s : string) (acc : Z) :
  PyStr.all_chars PyStr.isdigit s = true -> 0 <= acc ->
  0 <= PyFloat.digits_acc acc s.
Proof.
  revert acc.
  induction s as [|c s IH]; intros acc H Hacc; cbn [PyFloat.digits_acc];
    [exact Hacc|].
  cbn [PyStr.all_chars] in H. apply andb_true_iff in H as [Hc H].
  apply IH; [exact H|]. pose proof (digit_val_range c Hc). lia.
Qed.

Lemma parse_decimal_nonneg (neg neg' : bool) (s : string) (mant exp10 : Z) :
  PyFloat.parse_decimal neg s = Some (PyFloat.LitDec neg' mant exp10) ->
  0 <= mant.
Proof.
  unfold PyFloat.parse_decimal.
  pose proof (span_digits_all s) as Hip.
  destruct (PyFloat.span_digits s) as [ip r1]. cbn [fst] in Hip.
  assert (Hfp : exists fp r2,
            match r1 with
            | String "." r => PyFloat.span_digits r
            | _ => (EmptyString, r1)
            end = (fp, r2)
            /\ PyStr.all_chars PyStr.isdigit fp = true).
  { destruct r1 as [|c r]; [now exists EmptyString, EmptyString|].
    destruct (Ascii.eqb_spec c ".") as [->|Hc].
    - pose proof (span_digits_all r) as H.
      destruct (PyFloat.span_digits r) as [fp r2]. now exists fp, r2.
    - exists EmptyString, (String c r). split; [|reflexivity].
      destruct c as [[] [] [] [] [] [] [] []]; try reflexivity.
      now elim Hc. }
  destruct Hfp as (fp & r2 & -> & Hfp).
  assert (Hm : 0 <= PyFloat.digits_val (ip ++ fp)).
  { apply digits_acc_nonneg; [now apply all_chars_app | lia]. }
  destruct (PyFloat.len ip + PyFloat.len fp =? 0); [discriminate|].
  destruct r2 as [|c r3].
  - intros E. assert (mant = PyFloat.digits_val (ip ++ fp)) by congruence.
    lia.
  - destruct (Ascii.eqb c "e" || Ascii.eqb c "E"); [|discriminate].
    destruct (PyFloat.parse_sign r3) as [eneg r4].
    destruct (PyFloat.span_digits r4) as [[|c' ed] [|c'' r5]];
      try discriminate.
    intros E. assert (mant = PyFloat.digits_val (ip ++ fp)) by congruence.
    lia.
Qed.

Lemma denotes_nonneg (t : string) (neg : bool) (mant exp10 : Z) :
  denotes t neg mant exp10 -> 0 <= mant.
Proof.
  unfold denotes, PyFloat.parse_literal.
  destruct (PyFloat.remove_underscores _ _) as [s1|]; [|discriminate].
  destruct (PyFloat.parse_sign _) as [sg r].
  destruct (PyFloat.parse_decimal sg r) as [l|] eqn:E.
  - intros [= ->]. eapply parse_decimal_nonneg, E.
  - unfold PyFloat.parse_inf_or_nan.
    destruct (_ || _); [discriminate|]. destruct (String.eqb _ _); discriminate.
Qed.

Lemma get_amount_accepts (u : Update) (s : State) (f c : string)
    (a : PyFloat.float) :
  ud_family (user_data s) = Some f ->
  ud_category (user_data s) = Some c ->
  PyFloat.of_string (PyStr.replace "," "." (message_text u)) = Some a ->
  PyFloat.le_zero a = false ->
  get_amount u s
  = ({| user_data := {| ud_family := Some f; ud_category := Some c;
                        ud_amount := Some a;
                        ud_period := ud_period (user_data s) |};
        db := db s;
        sent := sent s ++ [ReplyText (ask_period_text f c a) None None];
        log := log s; locked := locked s |}, Return PERIOD).
Proof.
  intros Hf Hc Ha Hle.
  unfold get_amount, try_except, bind, read_amount, lookup, reply_text, call,
    set_user_data, modify, ret.
  rewrite Ha, Hle.
  cbn [user_data db sent log locked ud_family ud_category ud_amount ud_period].
  rewrite Hf, Hc. reflexivity.
Qed.

Lemma get_amount_rejects (u : Update) (s : State) :
  amount_valid (message_text u) = false ->
  get_amount u s
  = (with_sent s [ReplyText amount_retry_text None None], Return AMOUNT).
Proof.
  intros H. destruct (read_amount_invalid _ s H) as [msg E].
  unfold get_amount, try_except, bind. rewrite E. reflexivity.
Qed.

(** Every numeral from [10^-323] to below [10^307] is in the range of the
    amount step. *)
Lemma decimal_in_range (mant exp10 : Z) :
  1 <= mant -> -323 <= exp10 ->
  mant * 10 ^ Z.max exp10 0 < 10 ^ 307 * 10 ^ Z.max (- exp10) 0 ->
  at_least_tiny mant exp10 /\ below_huge mant exp10.
Proof.
  intros Hm He Hlt. unfold at_least_tiny, below_huge.
  assert (P1 : 0 < 10 ^ Z.max exp10 0) by (apply Z.pow_pos_nonneg; lia).
  assert (P2 : 0 < 10 ^ Z.max (- exp10) 0) by (apply Z.pow_pos_nonneg; lia).
  assert (T : 10 ^ 323 <= 2 ^ 1074) by (vm_compute; discriminate).
  assert (U : 10 ^ 307 < 2 ^ 1023) by (vm_compute; reflexivity).
  assert (V : 10 ^ Z.max (- exp10) 0 <= 10 ^ 323)
    by (apply Z.pow_le_mono_r; lia).
  set (a := 10 ^ Z.max exp10 0) in *. set (b := 10 ^ Z.max (- exp10) 0) in *.
  set (x := 10 ^ 323) in *. set (y := 2 ^ 1074) in *.
  set (z := 10 ^ 307) in *. set (w := 2 ^ 1023) in *.
  split; nia.
Qed.

(** C1, as the code has it.  With the family and the category in the
    draft, let [t] be the message with every comma replaced by a point.
    If [t] is a decimal numeral for a number from 2^-1074 to below 2^1023,
    the amount step stores the binary64 to which [float] rounds that
    number, which is finite and greater than zero, and goes to PERIOD.
    If [t] is a numeral for zero, for a negative number, or for a number
    whose nearest binary64 is zero, or if [float] does not read [t] at
    all, the step answers with the retry text, changes nothing else and
    stays in AMOUNT.  The numbers from 10^-323 to below 10^307 are all in
    the accepted range. *)
Theorem amount_step_accepts (u : Update) (s : State) (f c : string) :
  ud_family (user_data s) = Some f ->
  ud_category (user_data s) = Some c ->
  let t := PyStr.replace "," "." (message_text u) in
  (forall mant exp10,
     denotes t false mant exp10 -> 1 <= mant ->
     at_least_tiny mant exp10 -> below_huge mant exp10 ->
     let a := PyFloat.of_decimal false mant exp10 in
     get_amount u s
     = ({| user_data := {| ud_family := Some f; ud_category := Some c;
                           ud_amount := Some a;
                           ud_period := ud_period (user_data s) |};
           db := db s;
           sent := sent s ++ [ReplyText (ask_period_text f c a) None None];
           log := log s; locked := locked s |}, Return PERIOD)
     /\ exists m e, a = S754_finite false m e)
  /\ (forall neg mant exp10,
        denotes t neg mant exp10 ->
        mant = 0 \/ neg = true
        \/ PyFloat.le_zero (PyFloat.of_decimal neg mant exp10) = true ->
        get_amount u s
        = (with_sent s [ReplyText amount_retry_text None None],
           Return AMOUNT))
  /\ (PyFloat.parse_literal t = None ->
      get_amount u s
      = (with_sent s [ReplyText amount_retry_text None None], Return AMOUNT))
  /\ (forall mant exp10,
        1 <= mant -> -323 <= exp10 ->
        mant * 10 ^ Z.max exp10 0 < 10 ^ 307 * 10 ^ Z.max (- exp10) 0 ->
        at_least_tiny mant exp10 /\ below_huge mant exp10).
Proof.
  intros Hf Hc t. split; [|split; [|split]]; [| | |apply decimal_in_range].
  - intros mant exp10 Hd Hm Ht Hh a.
    destruct (of_decimal_le_zero false mant exp10) as [_ H]; [lia|].
    destruct (H eq_refl Hm Ht) as (Hle & _ & Hfin).
    split; [|exact (Hfin Hh)].
    apply get_amount_accepts; try assumption.
    unfold PyFloat.of_string. fold t. unfold denotes in Hd. now rewrite Hd.
  - intros neg mant exp10 Hd Hcase.
    apply get_amount_rejects. unfold amount_valid, PyFloat.of_string. fold t.
    pose proof (denotes_nonneg t neg mant exp10 Hd) as Hm.
    unfold denotes in Hd. rewrite Hd. cbn [option_map PyFloat.of_literal].
    destruct (of_decimal_le_zero neg mant exp10 Hm) as [H _].
    destruct Hcase as [E|[E|E]]; [rewrite H by tauto| rewrite H by tauto|
                                   rewrite E]; reflexivity.
  - intros Hnone. apply get_amount_rejects.
    unfold amount_valid, PyFloat.of_string. fold t. now rewrite Hnone.
Qed.

Lemma amount_step_accepts_witness :
  let a := S754_finite false 7177611906121728 (-48) in
  get_amount (text_update "25,50") rossi_amount_state
  = ({| user_data := {| ud_family := Some "Famiglia Rossi";
                        ud_category := Some "Quota Mensile";
                        ud_amount := Some a; ud_period := None |};
        db := Some Sqlite.empty;
        sent := [ReplyText (ask_period_text "Famiglia Rossi" "Quota Mensile" a)
                   None None];
        log := []; locked := false |}, Return PERIOD).
Proof.
  intros a.
  destruct (amount_step_accepts (text_update "25,50") rossi_amount_state
              "Famiglia Rossi" "Quota Mensile" eq_refl eq_refl) as [H _].
  destruct (H 2550 (-2)) as [E _].
  - reflexivity.
  - lia.
  - unfold at_least_tiny. vm_compute. discriminate.
  - unfold below_huge. vm_compute. reflexivity.
  - exact E.
Defined.

(** C1 as it is stated fails: "1e-400" denotes the number 10^-400, which
    is greater than zero, and the amount step rejects it. *)
Lemma amount_underflow_counterexample :
  denotes "1e-400" false 1 (-400)
  /\ 0 < 1
  /\ get_amount (text_update "1e-400") rossi_amount_state
     = (with_sent rossi_amount_state
          [ReplyText amount_retry_text None None], Return AMOUNT).
Proof. repeat split; vm_compute; reflexivity. Qed.

(** The same number written without exponent, with a comma: 0,000...01
    with 400 decimals. *)
Example amount_underflow_plain_decimal :
  denotes ("0." ++ zeros 399 ++ "1") false 1 (-400)
  /\ get_amount (text_update ("0," ++ zeros 399 ++ "1")) rossi_amount_state
     = (with_sent rossi_amount_state
          [ReplyText amount_retry_text None None], Return AMOUNT).
Proof. split; vm_compute; reflexivity. Qed.

(** What is stored for "0,1" is the binary64 next to 1/10, not 1/10. *)
Example amount_is_rounded :
  exists a,
    ud_amount (user_data (fst (get_amount (text_update "0,1")
                                 rossi_amount_state))) = Some a
    /\ a = S754_finite false 7205759403792794 (-56)
    /\ ~ is_exactly a 1 10.
Proof.
  eexists. split; [vm_compute; reflexivity|]. split; [reflexivity|].
  vm_compute. discriminate.
Qed.

(** ** Not a number *)

(** [float] reads "nan", and a NaN is not [<= 0]: the amount step takes it
    and the draft holds a NaN. *)
Example nan_amount_is_accepted :
  get_amount (text_update "nan") rossi_amount_state
  = ({| user_data := {| ud_family := Some "Famiglia Rossi";
                        ud_category := Some "Quota Mensile";
                        ud_amount := Some S754_nan; ud_period := None |};
        db := Some Sqlite.empty;
        sent := [ReplyText (ask_period_text "Famiglia Rossi" "Quota Mensile"
                              S754_nan) None None];
        log := []; locked := false |}, Return PERIOD).
Proof. vm_compute. reflexivity. Qed.

(** With a NaN in the draft the contact step raises at the INSERT (the NaN
    is bound as NULL, and the column is NOT NULL): no row is written, the
    draft stays and the conversation stays in CONTACT; the connection is
    left open with the write lock. *)
Example nan_amount_fails_commit (world : World) :
  let s := {| user_data := draft "Famiglia Rossi" "Quota Mensile" S754_nan
                             "2024-01-15";
              db := Some Sqlite.empty; sent := []; log := [];
              locked := false |} in
  let s' := {| user_data := user_data s; db := db s; sent := []; log := [];
               locked := true |} in
  get_contact world (text_update "mario") s
  = (s', Raise (IntegrityError
                  "NOT NULL constraint failed: transactions.amount"))
  /\ handle_update open_bot world (Some CONTACT) (text_update "mario") s
     = (Some CONTACT, s').
Proof. split; reflexivity. Qed.

(** ** The draft along the conversation *)

(** Case analysis on an innermost scrutinee of the goal. *)
Ltac is_innermost scrut :=
  lazymatch scrut with
  | context [match _ with _ => _ end] => fail
  | _ => idtac
  end.

Ltac split_match :=
  match goal with
  | |- context [match ?scrut with _ => _ end] =>
      is_innermost scrut; destruct scrut eqn:?
  end.

Lemma handle_update_ready (self : TransactionBot) (world : World)
    (conv : option Z) (u : Update) (s : State) :
  draft_ready conv (user_data s) ->
  draft_ready (fst (handle_update self world conv u s))
              (user_data (snd (handle_update self world conv u s))).
Proof.
  intros H. unfold handle_update.
  destruct (conv_handler self world conv u) as [h|] eqn:E.
  2:{ destruct (is_command "help" u); cbn [fst snd]; [|exact H].
      unfold help_command, bind, is_authorized, reply_text, call, modify, ret.
      repeat split_match; cbn [fst snd user_data];
        repeat match goal with
        | E : (_, _) = (_, _) |- _ => injection E as <- <-
        end; exact H. }
  unfold conv_handler in E. destruct conv as [state|].
  - destruct H as (Hr & Hf & Hc & Ha & Hp).
    unfold states in E.
    repeat match type of E with
    | context [if (state =? ?k) then _ else _] =>
        destruct (Z.eqb_spec state k) as [->|?]
    end;
    rewrite ?first_match_single in E; unfold fallbacks in E;
    rewrite ?first_match_single in E;
    repeat match type of E with
    | context [if ?p u then _ else _] => destruct (p u)
    end;
    try discriminate; injection E as <-;
    unfold FAMILY, CATEGORY, AMOUNT, PERIOD, CONTACT, END in *;
    first [specialize (Hf ltac:(lia)) | clear Hf];
    first [specialize (Hc ltac:(lia)) | clear Hc];
    first [specialize (Ha ltac:(lia)) | clear Ha];
    first [specialize (Hp ltac:(lia)) | clear Hp];
    unfold select_family, select_category, get_amount, get_period,
      get_contact, cancel, save_transaction, connect, send_notification,
      send_message,
      read_amount, check_period, try_except, bind, lookup, reply_text,
      edit_message_text, call, logger_error, set_user_data, modify, ret, raise;
    cbn [user_data db sent log locked ud_family ud_category ud_amount ud_period];
    repeat (split_match;
            cbn [fst snd user_data db sent log locked ud_family ud_category
                 ud_amount ud_period is_ValueError is_Exception] in *;
            try congruence;
            repeat match goal with
            | E : (_, _) = (_, _) |- _ => injection E as <- <-
            | E : Return _ = Return _ |- _ => injection E as <-
            | E : Raise _ = Raise _ |- _ => injection E as <-
            | E : Return _ = Raise _ |- _ => discriminate E
            | E : Raise _ = Return _ |- _ => discriminate E
            end);
    cbn [fst snd user_data db sent log locked ud_family ud_category
         ud_amount ud_period draft_ready];
    try exact I;
    try (match goal with
         | H : (_ =? _) = _ |- _ => vm_compute in H; discriminate H
         end);
    unfold FAMILY, CATEGORY, AMOUNT, PERIOD, CONTACT;
    repeat split; try lia; try congruence.
  - unfold entry_points in E. rewrite first_match_single in E.
    destruct (is_command "start" u); [|discriminate]. injection E as <-.
    unfold start, bind, is_authorized, reply_text, call, modify, ret.
    repeat split_match; cbn [fst snd user_data];
      repeat match goal with
      | E : (_, _) = (_, _) |- _ => injection E as <- <-
      end;
      cbn [negb] in *;
      repeat match goal with
      | E : (_, _) = (_, _) |- _ => injection E as <- <-
      end;
      try discriminate;
      cbn [draft_ready]; try exact I;
      unfold FAMILY, CATEGORY, AMOUNT, PERIOD, CONTACT;
      repeat split; try lia.
Qed.

(** In every state the bot reaches, the draft holds what the steps before
    have stored, and the table exists. *)
Lemma reachable_ready (self : TransactionBot) (conv : option Z) (s : State) :
  reachable self conv s -> draft_ready conv (user_data s).
Proof.
  induction 1 as [|conv s world u Hr IH]; [exact I|].
  now apply handle_update_ready.
Qed.

Lemma not_None_Some {A : Type} (x : option A) : x <> None -> exists a, x = Some a.
Proof. destruct x as [a|]; [now exists a | congruence]. Qed.

(** The steps are entered with the draft their statements ask for. *)
Lemma reachable_amount (self : TransactionBot) (s : State) :
  reachable self (Some AMOUNT) s ->
  exists f c, ud_family (user_data s) = Some f
              /\ ud_category (user_data s) = Some c.
Proof.
  intros H. apply reachable_ready in H. destruct H as (_ & Hf & Hc & _).
  destruct (not_None_Some _ (Hf ltac:(unfold CATEGORY, AMOUNT; lia))) as [f ->].
  destruct (not_None_Some _ (Hc ltac:(unfold AMOUNT; lia))) as [c ->].
  now exists f, c.
Qed.

Lemma reachable_period (self : TransactionBot) (s : State) :
  reachable self (Some PERIOD) s ->
  exists f c a, ud_family (user_data s) = Some f
                /\ ud_category (user_data s) = Some c
                /\ ud_amount (user_data s) = Some a.
Proof.
  intros H. apply reachable_ready in H. destruct H as (_ & Hf & Hc & Ha & _).
  destruct (not_None_Some _ (Hf ltac:(unfold CATEGORY, PERIOD; lia))) as [f ->].
  destruct (not_None_Some _ (Hc ltac:(unfold AMOUNT, PERIOD; lia))) as [c ->].
  destruct (not_None_Some _ (Ha ltac:(unfold PERIOD; lia))) as [a ->].
  now exists f, c, a.
Qed.

Lemma reachable_contact (self : TransactionBot) (s : State) :
  reachable self (Some CONTACT) s ->
  exists f c a p, user_data s = draft f c a p.
Proof.
  intros H. apply reachable_ready in H.
  destruct H as (_ & Hf & Hc & Ha & Hp).
  destruct (user_data s) as [uf uc ua up]. cbn in *.
  destruct (not_None_Some _ (Hf ltac:(unfold CATEGORY, CONTACT; lia))) as [f ->].
  destruct (not_None_Some _ (Hc ltac:(unfold AMOUNT, CONTACT; lia))) as [c ->].
  destruct (not_None_Some _ (Ha ltac:(unfold PERIOD, CONTACT; lia))) as [a ->].
  destruct (not_None_Some _ (Hp ltac:(unfold CONTACT; lia))) as [p ->].
  now exists f, c, a, p.
Qed.

(* ================================================================= *)
(** * More of the bot *)

(** ** [str.replace] on the callback data *)

Lemma replace_from_skip (old new x l : string) :
  PyStr.replace_from old new (String.length x) (x ++ l)
  = PyStr.replace_from old new O l.
Proof.
  induction x as [|c x IH]; [reflexivity|]. cbn [String.length String.append].
  cbn [PyStr.replace_from]. exact IH.
Qed.

Lemma startswith_append (p l : string) : PyStr.startswith p (p ++ l) = true.
Proof.
  induction p as [|c p IH]; [now destruct l|].
  cbn [String.append PyStr.startswith]. now rewrite Ascii.eqb_refl, IH.
Qed.

(** A leading occurrence is replaced, and the search goes on after it. *)
Lemma replace_prefix (c : ascii) (old new l : string) :
  PyStr.replace (String c old) new (String c old ++ l)
  = new ++ PyStr.replace (String c old) new l.
Proof.
  unfold PyStr.replace.
  change (String c old ++ l) with (String c (old ++ l)).
  cbn [PyStr.replace_from].
  change (String c (old ++ l)) with (String c old ++ l).
  rewrite startswith_append.
  replace (String.length (String c old) - 1)%nat with (String.length old)
    by (cbn [String.length]; lia).
  now rewrite replace_from_skip.
Qed.

(** Nothing is replaced in a text where [old] does not occur. *)
Lemma replace_absent (old new s : string) :
  contains old s = false -> PyStr.replace old new s = s.
Proof.
  unfold PyStr.replace.
  induction s as [|c s IH]; [reflexivity|]. cbn [contains].
  intros H. apply orb_false_iff in H as [H1 H2].
  cbn [PyStr.replace_from]. rewrite H1. now rewrite IH.
Qed.

(** ** What each handler returns *)

Lemma is_authorized_pure (self : TransactionBot) (u : Update) (s : State) :
  exists b, forall s', is_authorized self u s' = (s', Return b).
Proof.
  unfold is_authorized.
  destruct (allowed_group_id self) as [[|c r]|]; eexists; reflexivity.
Qed.

Lemma start_run (self : TransactionBot) (u : Update) (s : State) (b : bool) :
  is_authorized self u s = (s, Return b) ->
  start self u s
  = if b
    then (with_sent s [ReplyText start_text (Some family_keyboard) markdown],
          Return FAMILY)
    else (with_sent s [ReplyText unauthorized_text None None], Return END).
Proof.
  intros H. unfold start, bind. rewrite H. now destruct b.
Qed.

Lemma select_family_run (u : Update) (s : State) :
  let family := PyStr.replace "family_" EmptyString (query_data u) in
  select_family u s
  = (with_draft_sent s (with_family (user_data s) family)
       [AnswerQuery;
        EditMessageText (family_selected_text family)
          (Some category_keyboard) markdown],
     Return CATEGORY).
Proof.
  intros family. destruct s as [d t snt lg lk].
  unfold select_family, edit_message_text, bind, call, set_user_data,
    modify, ret, with_draft_sent.
  cbn [user_data db sent log locked]. now rewrite <- app_assoc.
Qed.

Lemma select_category_run (u : Update) (s : State) :
  let category := PyStr.replace "category_" EmptyString (query_data u) in
  select_category u s
  = match ud_family (user_data s) with
    | Some family =>
        (with_draft_sent s (with_category (user_data s) category)
           [AnswerQuery;
            EditMessageText (ask_amount_text family category) None None],
         Return AMOUNT)
    | None =>
        (with_draft_sent s (with_category (user_data s) category)
           [AnswerQuery],
         Raise (KeyError "family"))
    end.
Proof.
  intros category. destruct s as [[f c a p] t snt lg lk].
  unfold select_category, edit_message_text, bind, call, set_user_data,
    lookup, modify, ret, with_draft_sent, with_category.
  cbn [user_data db sent log locked ud_family ud_category ud_amount ud_period].
  destruct f; cbn [user_data db sent log locked];
    [now rewrite <- app_assoc | reflexivity].
Qed.

Lemma get_period_accepts (u : Update) (s : State) (f c : string)
    (a : PyFloat.float) :
  ud_family (user_data s) = Some f ->
  ud_category (user_data s) = Some c ->
  ud_amount (user_data s) = Some a ->
  Strptime.strptime_Ymd (PyStr.strip (message_text u)) <> None ->
  get_period u s
  = (with_draft_sent s (draft f c a (PyStr.strip (message_text u)))
       [ReplyText (ask_contact_text f c a (PyStr.strip (message_text u)))
          None None],
     Return CONTACT).
Proof.
  intros Hf Hc Ha Hp. unfold get_period.
  unfold try_except, bind, check_period, lookup, reply_text, call,
    set_user_data, modify, ret.
  destruct (Strptime.strptime_Ymd _) eqn:E; [|congruence].
  cbn [user_data db sent log locked ud_family ud_category ud_amount ud_period].
  rewrite Hf, Hc, Ha. reflexivity.
Qed.

(** The dispatcher runs the handler that takes the update. *)
Lemma handle_update_handled (self : TransactionBot) (world : World)
    (conv : option Z) (u : Update) (s s' : State) (h : Update -> M Z)
    (r : outcome Z) :
  conv_handler self world conv u = Some h ->
  h u s = (s', r) ->
  handle_update self world conv u s
  = (match r with
     | Return new_state => if new_state =? END then None else Some new_state
     | Raise _ => conv
     end, s').
Proof.
  intros Hh Hr. unfold handle_update. rewrite Hh, Hr. now destruct r.
Qed.

Lemma handle_update_ignored (self : TransactionBot) (world : World)
    (conv : option Z) (u : Update) (s : State) :
  conv_handler self world conv u = None ->
  is_command "help" u = false ->
  handle_update self world conv u s = (conv, s).
Proof.
  intros Hh Hc. unfold handle_update. now rewrite Hh, Hc.
Qed.

Lemma five_states (state : Z) :
  In state [FAMILY; CATEGORY; AMOUNT; PERIOD; CONTACT] ->
  state = FAMILY \/ state = CATEGORY \/ state = AMOUNT \/ state = PERIOD
  \/ state = CONTACT.
Proof. simpl. intuition. Qed.

(** ** The two choices *)

(** X1.  For callback data "family_" followed by a label, [select_family]
    answers the query, stores the label with every occurrence of
    "family_" removed (the label itself when it has none, as for the five
    families), shows the categories and goes to CATEGORY; the label is
    not compared with the list of families. *)
Theorem select_family_stores_label (u : Update) (s : State) (label : string) :
  query_data u = "family_" ++ label ->
  let family := PyStr.replace "family_" EmptyString label in
  select_family u s
  = (with_draft_sent s (with_family (user_data s) family)
       [AnswerQuery;
        EditMessageText (family_selected_text family)
          (Some category_keyboard) markdown],
     Return CATEGORY)
  /\ (contains "family_" label = false -> family = label)
  /\ Forall (fun f => contains "family_" f = false) FAMILIES.
Proof.
  intros Hq family. split; [|split].
  - rewrite select_family_run. cbv zeta. rewrite Hq.
    now rewrite (replace_prefix "f" "amily_" EmptyString label).
  - apply replace_absent.
  - repeat constructor.
Qed.

Lemma select_family_stores_label_witness :
  ud_family (user_data (fst (select_family
     (update_of 7 42 None (CallbackQuery "family_Famiglia Verdi"))
     initial_state))) = Some "Famiglia Verdi"
  /\ ud_family (user_data (fst (select_family
     (update_of 7 42 None (CallbackQuery "family_my_family_x"))
     initial_state))) = Some "my_x".
Proof.
  split.
  - destruct (select_family_stores_label
                (update_of 7 42 None (CallbackQuery "family_Famiglia Verdi"))
                initial_state "Famiglia Verdi" eq_refl) as [E _].
    rewrite E. reflexivity.
  - destruct (select_family_stores_label
                (update_of 7 42 None (CallbackQuery "family_my_family_x"))
                initial_state "my_family_x" eq_refl) as [E _].
    rewrite E. reflexivity.
Defined.

(** X2.  For callback data "category_" followed by a label without
    "category_" in it, [select_category] stores the label and, when the
    draft has a family, asks for the amount and goes to AMOUNT; when the
    draft has no family it raises KeyError('family') after the category
    is stored and the query answered, and nothing is shown. *)
Theorem select_category_stores_label (u : Update) (s : State)
    (label : string) :
  query_data u = "category_" ++ label ->
  contains "category_" label = false ->
  (forall f, ud_family (user_data s) = Some f ->
     select_category u s
     = (with_draft_sent s (with_category (user_data s) label)
          [AnswerQuery;
           EditMessageText (ask_amount_text f label) None None],
        Return AMOUNT))
  /\ (ud_family (user_data s) = None ->
      select_category u s
      = (with_draft_sent s (with_category (user_data s) label) [AnswerQuery],
         Raise (KeyError "family"))).
Proof.
  intros Hq Hc.
  assert (E : PyStr.replace "category_" EmptyString (query_data u) = label).
  { rewrite Hq, (replace_prefix "c" "ategory_" EmptyString label).
    now apply replace_absent. }
  pose proof (select_category_run u s) as R. cbv zeta in R. rewrite E in R.
  split.
  - intros f Hf. now rewrite R, Hf.
  - intros Hf. now rewrite R, Hf.
Qed.

Lemma select_category_stores_label_witness :
  select_category (update_of 7 42 None (CallbackQuery "category_Altro"))
    initial_state
  = (with_draft_sent initial_state (with_category no_data "Altro")
       [AnswerQuery], Raise (KeyError "family")).
Proof.
  apply (select_category_stores_label
           (update_of 7 42 None (CallbackQuery "category_Altro"))
           initial_state "Altro" eq_refl eq_refl).
  reflexivity.
Defined.

(** X3.  Every button of the two keyboards is taken by the handler of its
    state: pressed in FAMILY (in CATEGORY, with a family in the draft) it
    stores its own label, leaves the table alone and moves the
    conversation on. *)
Theorem keyboard_buttons_are_taken (self : TransactionBot) (world : World)
    (chat uid : Z) (uname : option string) (s : State) :
  (forall label data,
     In (label, data) (buttons family_keyboard) ->
     exists s',
       handle_update self world (Some FAMILY)
         (update_of chat uid uname (CallbackQuery data)) s
       = (Some CATEGORY, s')
       /\ ud_family (user_data s') = Some label /\ db s' = db s)
  /\ (forall label data f,
        In (label, data) (buttons category_keyboard) ->
        ud_family (user_data s) = Some f ->
        exists s',
          handle_update self world (Some CATEGORY)
            (update_of chat uid uname (CallbackQuery data)) s
          = (Some AMOUNT, s')
          /\ ud_family (user_data s') = Some f
          /\ ud_category (user_data s') = Some label /\ db s' = db s).
Proof.
  split.
  - intros label data Hin. simpl in Hin.
    repeat (destruct Hin as [Hin|Hin]); try contradiction;
      injection Hin as <- <-;
      match goal with
      | |- context [handle_update self world (Some FAMILY) ?u s] =>
          rewrite (handle_update_handled self world (Some FAMILY) u s _
                     select_family _ eq_refl (select_family_run u s))
      end;
      eexists; repeat split.
  - intros label data f Hin Hf. simpl in Hin.
    repeat (destruct Hin as [Hin|Hin]); try contradiction;
      injection Hin as <- <-;
      match goal with
      | |- context [handle_update self world (Some CATEGORY) ?u s] =>
          pose proof (select_category_run u s) as R; cbv zeta in R;
          rewrite Hf in R;
          rewrite (handle_update_handled self world (Some CATEGORY) u s _
                     select_category _ eq_refl R)
      end;
      eexists; repeat split; exact Hf.
Qed.

Lemma keyboard_buttons_are_taken_witness :
  exists s',
    handle_update open_bot (world_with None) (Some FAMILY)
      (update_of 7 42 None (CallbackQuery "family_Famiglia Blu"))
      initial_state = (Some CATEGORY, s')
    /\ ud_family (user_data s') = Some "Famiglia Blu".
Proof.
  destruct (keyboard_buttons_are_taken open_bot (world_with None) 7 42 None
              initial_state) as [H _].
  destruct (H "Famiglia Blu" "family_Famiglia Blu") as (s' & H1 & H2 & _).
  - simpl. tauto.
  - exists s'. split; [exact H1 | exact H2].
Defined.

(** ** Updates that no handler takes, and [/help] *)

Lemma conv_handler_command (self : TransactionBot) (world : World)
    (state : Z) (u : Update) (name text : string) :
  update_payload u = Command name text ->
  conv_handler self world (Some state) u
  = if String.eqb name "cancel" then Some cancel else None.
Proof.
  intros Hu. unfold conv_handler, states.
  assert (Hp : is_plain_text u = false) by (unfold is_plain_text; now rewrite Hu).
  assert (Hc : forall p, is_callback p u = false)
    by (intros p; unfold is_callback; now rewrite Hu).
  assert (Hf : first_match fallbacks u
               = if String.eqb name "cancel" then Some cancel else None).
  { unfold fallbacks. rewrite first_match_single. unfold is_command.
    now rewrite Hu. }
  repeat match goal with
  | |- context [if (state =? ?k) then _ else _] => destruct (state =? k)
  end;
  rewrite ?first_match_single, ?Hp, ?Hc; exact Hf.
Qed.

(** X4.  While a conversation is open, a command other than [/cancel] and
    [/help] changes nothing: state, draft, table, messages and log stay
    as they are.  This holds for [/start]: the conversation is not
    restarted. *)
Theorem other_commands_are_ignored (self : TransactionBot) (world : World)
    (state : Z) (u : Update) (s : State) (name text : string) :
  update_payload u = Command name text ->
  name <> "cancel" -> name <> "help" ->
  handle_update self world (Some state) u s = (Some state, s).
Proof.
  intros Hu Hc Hh. apply handle_update_ignored.
  - rewrite (conv_handler_command self world state u name text Hu).
    apply String.eqb_neq in Hc. now rewrite Hc.
  - unfold is_command. rewrite Hu. now apply String.eqb_neq.
Qed.

Lemma other_commands_are_ignored_witness :
  handle_update open_bot (world_with None) (Some PERIOD)
    (update_of 7 42 None (Command "start" "/start")) rossi_period_state
  = (Some PERIOD, rossi_period_state).
Proof.
  apply (other_commands_are_ignored open_bot (world_with None) PERIOD
           (update_of 7 42 None (Command "start" "/start"))
           rossi_period_state "start" "/start" eq_refl);
    discriminate.
Defined.

(** X5.  An update of the wrong kind for the state changes nothing: a text
    while a button is awaited, a button while a text is awaited, and a
    button whose data does not begin as the state expects (a category
    button pressed in FAMILY, a family button in CATEGORY). *)
Theorem wrong_kind_is_ignored (self : TransactionBot) (world : World)
    (state : Z) (u : Update) (s : State) :
  (forall text,
     update_payload u = TextMessage text ->
     state = FAMILY \/ state = CATEGORY ->
     handle_update self world (Some state) u s = (Some state, s))
  /\ (forall data,
        update_payload u = CallbackQuery data ->
        state = AMOUNT \/ state = PERIOD \/ state = CONTACT
        \/ (state = FAMILY /\ PyStr.startswith "family_" data = false)
        \/ (state = CATEGORY /\ PyStr.startswith "category_" data = false) ->
        handle_update self world (Some state) u s = (Some state, s)).
Proof.
  assert (One : forall st p h,
            states world st = [(p, h)] -> p u = false ->
            is_command "cancel" u = false ->
            conv_handler self world (Some st) u = None).
  { intros st p h E Hp Hc. unfold conv_handler, fallbacks.
    rewrite E, !first_match_single. now rewrite Hp, Hc. }
  split.
  - intros text Hu Hst.
    assert (Hc : forall n, is_command n u = false)
      by (intros n; unfold is_command; now rewrite Hu).
    assert (Hb : forall p, is_callback p u = false)
      by (intros p; unfold is_callback; now rewrite Hu).
    apply handle_update_ignored; [|apply Hc].
    destruct Hst as [->| ->];
      eapply One; try reflexivity; (apply Hb || apply Hc).
  - intros data Hu Hst.
    assert (Hc : forall n, is_command n u = false)
      by (intros n; unfold is_command; now rewrite Hu).
    assert (Ht : is_plain_text u = false)
      by (unfold is_plain_text; now rewrite Hu).
    apply handle_update_ignored; [|apply Hc].
    destruct Hst as [->|[->|[->|[[-> Hp]|[-> Hp]]]]];
      eapply One; try reflexivity; try exact Ht; try apply Hc;
      unfold is_callback; now rewrite Hu.
Qed.

Lemma wrong_kind_is_ignored_witness :
  handle_update open_bot (world_with None) (Some FAMILY)
    (update_of 7 42 None (CallbackQuery "category_Altro")) initial_state
  = (Some FAMILY, initial_state)
  /\ handle_update open_bot (world_with None) (Some FAMILY)
       (text_update "Famiglia Rossi") initial_state
     = (Some FAMILY, initial_state).
Proof.
  split.
  - apply (proj2 (wrong_kind_is_ignored open_bot (world_with None) FAMILY
                    (update_of 7 42 None (CallbackQuery "category_Altro"))
                    initial_state) "category_Altro" eq_refl).
    right. right. right. left. split; reflexivity.
  - apply (proj1 (wrong_kind_is_ignored open_bot (world_with None) FAMILY
                    (text_update "Famiglia Rossi") initial_state)
             "Famiglia Rossi" eq_refl).
    now left.
Defined.

(** X6.  With no conversation open, only [/start] and [/help] have an
    effect: any other command ([/cancel] too, which gets no answer), any
    text and any button press leave everything as it is. *)
Theorem nothing_outside_conversation (self : TransactionBot) (world : World)
    (u : Update) (s : State) :
  (forall text, update_payload u <> Command "start" text) ->
  (forall text, update_payload u <> Command "help" text) ->
  handle_update self world None u s = (None, s).
Proof.
  intros Hs Hh.
  assert (E : forall name, (forall text, update_payload u <> Command name text)
                           -> is_command name u = false).
  { intros name H. unfold is_command.
    destruct (update_payload u) as [n t| |]; try reflexivity.
    destruct (String.eqb_spec n name) as [->|]; [|reflexivity].
    now elim (H t). }
  apply handle_update_ignored; [|now apply E].
  unfold conv_handler, entry_points. rewrite first_match_single.
  now rewrite (E "start" Hs).
Qed.

Lemma nothing_outside_conversation_witness :
  handle_update open_bot (world_with None) None
    (update_of 7 42 None (Command "cancel" "/cancel")) initial_state
  = (None, initial_state).
Proof.
  apply (nothing_outside_conversation open_bot (world_with None)
           (update_of 7 42 None (Command "cancel" "/cancel")) initial_state);
    discriminate.
Defined.

(** X7.  [/help] is answered in every state of the conversation, open or
    not, and leaves the conversation where it is: the only effect is one
    message, the help text for an authorized chat and the rejection text
    otherwise. *)
Theorem help_keeps_conversation (self : TransactionBot) (world : World)
    (conv : option Z) (u : Update) (s : State) (text : string) :
  update_payload u = Command "help" text ->
  exists b,
    is_authorized self u s = (s, Return b)
    /\ handle_update self world conv u s
       = (conv,
          with_sent s [if b then ReplyText help_text None markdown
                       else ReplyText unauthorized_text None None]).
Proof.
  intros Hu. destruct (is_authorized_pure self u s) as [b Hb].
  exists b. split; [apply Hb|].
  assert (Hn : conv_handler self world conv u = None).
  { destruct conv as [state|].
    - now rewrite (conv_handler_command self world state u "help" text Hu).
    - unfold conv_handler, entry_points. rewrite first_match_single.
      unfold is_command. now rewrite Hu. }
  unfold handle_update. rewrite Hn. unfold is_command. rewrite Hu.
  cbn [String.eqb Ascii.eqb Bool.eqb andb].
  unfold help_command, bind. rewrite Hb. now destruct b.
Qed.

Lemma help_keeps_conversation_witness :
  handle_update open_bot (world_with None) (Some AMOUNT)
    (update_of 7 42 None (Command "help" "/help")) rossi_amount_state
  = (Some AMOUNT,
     with_sent rossi_amount_state [ReplyText help_text None markdown]).
Proof.
  destruct (help_keeps_conversation open_bot (world_with None) (Some AMOUNT)
              (update_of 7 42 None (Command "help" "/help"))
              rossi_amount_state "/help" eq_refl) as (b & Hb & H).
  rewrite H. injection Hb as <-. reflexivity.
Defined.

(** ** The commit, when it fails and when it is repeated *)

(** X8.  [save_transaction] commits all or nothing.  When it raises, the
    draft, the table, the messages and the log are those before, and
    [get_contact] raises the same error without notifying or confirming,
    the draft kept.  It raises KeyError for the first key the draft
    lacks (family, category, amount, period, in this order), and
    OperationalError on a full draft when there is no table. *)
Theorem failed_commit_changes_nothing (world : World) (u : Update)
    (s : State) :
  (forall s' e,
     save_transaction world u (contact_of u) s = (s', Raise e) ->
     user_data s' = user_data s /\ db s' = db s
     /\ sent s' = sent s /\ log s' = log s
     /\ get_contact world u s = (s', Raise e))
  /\ (forall key,
        first_missing (user_data s) = Some key ->
        exists s',
          save_transaction world u (contact_of u) s
          = (s', Raise (KeyError key)))
  /\ (first_missing (user_data s) = None -> db s = None ->
      exists s',
        save_transaction world u (contact_of u) s
        = (s', Raise (OperationalError "no such table: transactions"))).
Proof.
  split; [|split].
  - intros s' e H.
    destruct (save_transaction_raise _ _ _ _ _ _ H)
      as (H1 & H2 & H3 & H4 & _).
    repeat split; try assumption.
    unfold get_contact. fold (contact_of u). unfold bind at 1. now rewrite H.
  - intros key. destruct s as [[f c a p] t snt lg lk].
    unfold first_missing, save_transaction, connect, bind, lookup, modify.
    cbn [user_data db sent log locked ud_family ud_category ud_amount
         ud_period].
    destruct f; [|intros [= <-]; eexists; reflexivity].
    destruct c; [|intros [= <-]; eexists; reflexivity].
    destruct a; [|intros [= <-]; eexists; reflexivity].
    destruct p; [discriminate|intros [= <-]; eexists; reflexivity].
  - destruct s as [[f c a p] t snt lg lk].
    unfold first_missing, save_transaction, connect, bind, lookup, modify.
    cbn [user_data db sent log locked ud_family ud_category ud_amount
         ud_period].
    destruct f; [|discriminate]. destruct c; [|discriminate].
    destruct a; [|discriminate]. destruct p; [|discriminate].
    intros _ ->. eexists. reflexivity.
Qed.

Lemma failed_commit_changes_nothing_witness :
  exists s',
    get_contact (world_with None) (text_update "mario") rossi_period_state
    = (s', Raise (KeyError "period"))
    /\ user_data s' = user_data rossi_period_state
    /\ db s' = db rossi_period_state.
Proof.
  destruct (failed_commit_changes_nothing (world_with None)
              (text_update "mario") rossi_period_state) as (H1 & H2 & _).
  destruct (H2 "period" eq_refl) as [s' E].
  destruct (H1 s' _ E) as (Hd & Hdb & _ & _ & G).
  exists s'. repeat split; assumption.
Defined.

(** X9.  [send_notification] never raises and never touches the draft or
    the table.  When the draft lacks a key nothing is sent to the
    contact: one line is logged, which names the key, and the user is
    sent the warning.  On a full draft the notifier decides: the message
    is delivered to the contact, in Markdown, and nothing is logged; or
    its error is logged in one line and the user is sent the warning. *)
Theorem send_notification_never_raises (world : World) (u : Update)
    (contact : string) (s : State) :
  exists s',
    send_notification world u contact s = (s', Return tt)
    /\ user_data s' = user_data s /\ db s' = db s /\ locked s' = locked s
    /\ (forall key,
          first_missing (user_data s) = Some key ->
          sent s'
          = (sent s ++ [ReplyText (delivery_warning_text contact) None None])%list
          /\ log s'
             = (log s ++ [("Failed to send notification to " ++ contact
                           ++ ": '" ++ key ++ "'")%string])%list)
    /\ (forall f c a p,
          user_data s = draft f c a p ->
          match send_message_error world contact
                  (notification_for world u f c a p) with
          | None =>
              sent s'
              = (sent s ++ [SendMessage contact
                              (notification_for world u f c a p) markdown])%list
              /\ log s' = log s
          | Some err =>
              sent s'
              = (sent s
                 ++ [ReplyText (delivery_warning_text contact) None None])%list
              /\ log s'
                 = (log s ++ [("Failed to send notification to " ++ contact
                               ++ ": " ++ err)%string])%list
          end).
Proof.
  destruct s as [[f c a p] t snt lg lk].
  destruct f as [f|]; [destruct c as [c|]; [destruct a as [a|];
    [destruct p as [p|]|]|]|];
    unfold send_notification, send_message, try_except, bind, lookup,
      reply_text, call, logger_error, modify, raise, first_missing, draft;
    cbn [user_data db sent log locked ud_family ud_category ud_amount
         ud_period];
    try (eexists; do 4 (split; [reflexivity|]);
         split; [intros key [= <-]; split; reflexivity
                |intros f0 c0 a0 p0; discriminate]).
  fold (notification_for world u f c a p).
  destruct (send_message_error world contact
              (notification_for world u f c a p)) as [err|] eqn:E;
    cbn [user_data db sent log locked is_Exception];
    (eexists; do 4 (split; [reflexivity|]);
     split; [intros key; discriminate|]);
    intros f0 c0 a0 p0 [= <- <- <- <-]; rewrite E; split; reflexivity.
Qed.

(** X10.  A contact message that arrives twice commits once: when
    [save_transaction] returns for the first, the conversation ends and
    the draft is emptied, the second finds no conversation and is
    ignored, so the table has one more row, not two. *)
Theorem repeated_contact_commits_once (self : TransactionBot) (world : World)
    (u : Update) (s s1 : State) (text : string) :
  update_payload u = TextMessage text ->
  save_transaction world u (contact_of u) s = (s1, Return tt) ->
  exists s' t f c a p,
    handle_updates self world (Some CONTACT) [u; u] s = (None, s')
    /\ handle_update self world (Some CONTACT) u s = (None, s')
    /\ user_data s' = no_data
    /\ db s = Some t /\ user_data s = draft f c a p
    /\ db s' = Some (with_row t
                       (committed_row world u f c a p (contact_of u) t)).
Proof.
  intros Hu Hsave.
  destruct (handle_contact_saved self world u s s1 text Hu Hsave)
    as (s' & H1 & _ & H3 & H4).
  destruct (save_transaction_inv world u _ s s1 Hsave)
    as (t & f & c & a & p & Hdb & Hud & _ & _ & _ & E).
  exists s', t, f, c, a, p. repeat split; try assumption.
  - cbn [handle_updates]. rewrite H1.
    rewrite handle_update_ignored; [reflexivity| |];
      unfold conv_handler, entry_points, first_match, find, fst, is_command;
      now rewrite Hu.
  - rewrite H4, E. reflexivity.
Qed.

Lemma repeated_contact_commits_once_witness :
  exists s',
    handle_updates open_bot (world_with None) (Some CONTACT)
      [text_update "mario"; text_update "mario"] rossi_state
    = (None, s')
    /\ user_data s' = no_data
    /\ option_map (fun t => List.length (Sqlite.rows t)) (db s') = Some 1%nat.
Proof.
  destruct (repeated_contact_commits_once open_bot (world_with None)
              (text_update "mario") rossi_state
              (fst (save_transaction (world_with None) (text_update "mario")
                      "@mario" rossi_state))
              "mario" eq_refl eq_refl)
    as (s' & t & f & c & a & p & H1 & _ & H3 & Hdb & _ & H4).
  exists s'. repeat split; [exact H1 | exact H3 |].
  injection Hdb as <-. now rewrite H4.
Defined.

(** ** The moves of the conversation *)

Lemma contact_of_at (u : Update) : exists c, contact_of u = String "@" c.
Proof.
  unfold contact_of, normalize_contact.
  destruct (PyStr.startswith "@" _) eqn:E; cbn [negb].
  - now apply startswith_at_inv.
  - eexists. reflexivity.
Qed.

Lemma le_zero_above (a : PyFloat.float) :
  PyFloat.le_zero a = false -> a <> S754_nan -> above_zero a = true.
Proof.
  destruct a as [[]|[]| |[] m e]; try reflexivity; try discriminate;
    congruence.
Qed.

(** The handler that takes an update is the one of the current state, or
    [cancel]; [start] when there is no conversation. *)
Lemma conv_handler_cases (self : TransactionBot) (world : World)
    (conv : option Z) (u : Update) (h : Update -> M Z) :
  conv_handler self world conv u = Some h ->
  (conv = None /\ h = start self)
  \/ (conv = Some FAMILY /\ h = select_family)
  \/ (conv = Some CATEGORY /\ h = select_category)
  \/ (conv = Some AMOUNT /\ h = get_amount)
  \/ (conv = Some PERIOD /\ h = get_period)
  \/ (conv = Some CONTACT /\ h = get_contact world)
  \/ (exists state, conv = Some state /\ h = cancel
                     /\ is_command "cancel" u = true).
Proof.
  unfold conv_handler. destruct conv as [state|].
  - unfold states, fallbacks.
    repeat match goal with
    | |- context [if (state =? ?k) then _ else _] =>
        destruct (Z.eqb_spec state k) as [->|?]
    end;
    rewrite ?first_match_single;
    repeat match goal with
    | |- context [if ?p u then _ else _] => destruct (p u) eqn:?
    end;
    try discriminate; intros [= <-]; eauto 12.
  - unfold entry_points. rewrite first_match_single.
    destruct (is_command "start" u); [|discriminate].
    intros [= <-]. now left.
Qed.

Lemma get_amount_run (u : Update) (s : State) (a : PyFloat.float) :
  PyFloat.of_string (PyStr.replace "," "." (message_text u)) = Some a ->
  PyFloat.le_zero a = false ->
  get_amount u s
  = match ud_family (user_data s), ud_category (user_data s) with
    | Some f, Some c =>
        (with_draft_sent s (with_amount (user_data s) a)
           [ReplyText (ask_period_text f c a) None None], Return PERIOD)
    | None, _ =>
        (with_draft s (with_amount (user_data s) a), Raise (KeyError "family"))
    | Some _, None =>
        (with_draft s (with_amount (user_data s) a),
         Raise (KeyError "category"))
    end.
Proof.
  intros Ha Hle. destruct s as [[f c a0 p] t snt lg lk].
  unfold get_amount, try_except, bind, read_amount, lookup, reply_text, call,
    set_user_data, modify, ret, raise.
  rewrite Ha, Hle.
  cbn [user_data db sent log locked ud_family ud_category ud_amount ud_period].
  destruct f, c; reflexivity.
Qed.

Lemma get_period_run (u : Update) (s : State) :
  let period := PyStr.strip (message_text u) in
  Strptime.strptime_Ymd period <> None ->
  get_period u s
  = match ud_family (user_data s), ud_category (user_data s),
          ud_amount (user_data s) with
    | Some f, Some c, Some a =>
        (with_draft_sent s (with_period (user_data s) period)
           [ReplyText (ask_contact_text f c a period) None None],
         Return CONTACT)
    | None, _, _ =>
        (with_draft s (with_period (user_data s) period),
         Raise (KeyError "family"))
    | Some _, None, _ =>
        (with_draft s (with_period (user_data s) period),
         Raise (KeyError "category"))
    | Some _, Some _, None =>
        (with_draft s (with_period (user_data s) period),
         Raise (KeyError "amount"))
    end.
Proof.
  intros period Hp. destruct s as [[f c a p] t snt lg lk].
  unfold get_period, try_except, bind, check_period, lookup, reply_text, call,
    set_user_data, modify, ret, raise.
  fold period. destruct (Strptime.strptime_Ymd period); [|congruence].
  cbn [user_data db sent log locked ud_family ud_category ud_amount ud_period].
  destruct f, c, a; reflexivity.
Qed.

Lemma get_period_rejects (u : Update) (s : State) :
  Strptime.strptime_Ymd (PyStr.strip (message_text u)) = None ->
  get_period u s
  = (with_sent s [ReplyText period_retry_text None None], Return PERIOD).
Proof.
  intros H. unfold get_period, try_except, bind, check_period, raise.
  now rewrite H.
Qed.

(** [get_contact] raises with the draft, the table, the messages and the
    log as they were, or commits the full draft, empties it and ends the
    conversation. *)
Lemma get_contact_cases (world : World) (u : Update) (s : State) :
  (exists e s',
     get_contact world u s = (s', Raise e)
     /\ user_data s' = user_data s /\ db s' = db s
     /\ sent s' = sent s /\ log s' = log s
     /\ (locked s' = true
         \/ locked s' = locked s && negb (collected world)))
  \/ (exists t f c a p s',
        db s = Some t /\ user_data s = draft f c a p /\ a <> S754_nan
        /\ get_contact world u s = (s', Return END)
        /\ user_data s' = no_data
        /\ db s' = Some (with_row t
                           (committed_row world u f c a p (contact_of u) t))).
Proof.
  destruct (save_transaction world u (contact_of u) s) as [s1 [[]|e]] eqn:E.
  - right.
    destruct (save_transaction_inv world u _ s s1 E)
      as (t & f & c & a & p & Hdb & Hud & Ha & _ & _ & E1).
    exists t, f, c, a, p.
    pose proof (get_contact_saved world u s s1 f c a p E Hud) as G.
    cbv zeta in G. rewrite G, E1.
    destruct (send_message_error world _ _); eexists; repeat split;
      assumption.
  - left. exists e, s1.
    destruct (save_transaction_raise _ _ _ _ _ _ E)
      as (H1 & H2 & H3 & H4 & H5).
    repeat split; try assumption.
    unfold get_contact. fold (contact_of u). unfold bind at 1. now rewrite E.
Qed.

Lemma help_command_draft (self : TransactionBot) (u : Update) (s : State) :
  user_data (fst (help_command self u s)) = user_data s.
Proof.
  unfold help_command, bind. destruct (is_authorized_pure self u s) as [b H].
  rewrite (H s). now destruct b.
Qed.

Ltac conv_state :=
  cbn [fst snd user_data with_draft_sent with_draft with_sent];
  change (CATEGORY =? END) with false;
  change (AMOUNT =? END) with false;
  change (PERIOD =? END) with false;
  change (CONTACT =? END) with false;
  change (FAMILY =? END) with false;
  change (END =? END) with true;
  cbn iota.

(** Every update is one move of [draft_step]. *)
Lemma handle_update_draft (self : TransactionBot) (world : World)
    (conv : option Z) (u : Update) (s : State) :
  draft_step conv (user_data s)
    (fst (handle_update self world conv u s))
    (user_data (snd (handle_update self world conv u s))).
Proof.
  unfold handle_update.
  destruct (conv_handler self world conv u) as [h|] eqn:E.
  2:{ destruct (is_command "help" u); cbn [fst snd];
        [rewrite help_command_draft|]; constructor. }
  apply conv_handler_cases in E.
  destruct E as [[-> ->]|[[-> ->]|[[-> ->]|[[-> ->]|[[-> ->]|[[-> ->]|
                 (state & -> & -> & _)]]]]]].
  - destruct (is_authorized_pure self u s) as [b H].
    rewrite (start_run self u s b (H s)).
    destruct b; conv_state; constructor.
  - rewrite select_family_run. conv_state. constructor.
  - rewrite select_category_run.
    destruct (ud_family (user_data s)) eqn:F; conv_state; constructor; auto.
  - destruct (amount_valid (message_text u)) eqn:V.
    + destruct (read_amount_valid _ s V) as (a & Ha & Hle & _).
      rewrite (get_amount_run u s a Ha Hle).
      destruct (ud_family (user_data s)) eqn:F;
        [destruct (ud_category (user_data s)) eqn:C|];
        conv_state; constructor; auto.
    + rewrite (get_amount_rejects u s V). conv_state. constructor.
  - destruct (Strptime.strptime_Ymd (PyStr.strip (message_text u))) eqn:V.
    + assert (Hp : Strptime.strptime_Ymd (PyStr.strip (message_text u))
                   <> None) by congruence.
      rewrite (get_period_run u s Hp).
      destruct (ud_family (user_data s)) eqn:F;
        [destruct (ud_category (user_data s)) eqn:C;
         [destruct (ud_amount (user_data s)) eqn:A|]|];
        conv_state; constructor; auto.
    + rewrite (get_period_rejects u s V). conv_state. constructor.
  - destruct (get_contact_cases world u s) as [(e & s' & H & Hud & _)|
      (t & f & c & a & p & s' & _ & _ & _ & H & Hud & _)]; rewrite H.
    + cbn [fst snd]. rewrite Hud. constructor.
    + conv_state. rewrite Hud. constructor.
  - unfold cancel, bind, reply_text, call, set_user_data, modify, ret.
    conv_state. constructor.
Qed.

(** The table changes only when the contact step commits the draft. *)
Lemma handle_update_commit (self : TransactionBot) (world : World)
    (conv : option Z) (u : Update) (s : State) :
  db (snd (handle_update self world conv u s)) = db s
  \/ (exists t f c a p,
        conv = Some CONTACT /\ db s = Some t /\ user_data s = draft f c a p
        /\ a <> S754_nan
        /\ db (snd (handle_update self world conv u s))
           = Some (with_row t
                     (committed_row world u f c a p (contact_of u) t))).
Proof.
  unfold handle_update.
  destruct (conv_handler self world conv u) as [h|] eqn:E.
  2:{ left. destruct (is_command "help" u); cbn [fst snd];
        [apply keeps_db_help|reflexivity]. }
  assert (K : keeps_db (h u) ->
              db (snd (let (s', r) := h u s in
                       match r with
                       | Return new_state =>
                           (if new_state =? END then None else Some new_state,
                            s')
                       | Raise _ => (conv, s')
                       end)) = db s).
  { intros K. specialize (K s). destruct (h u s) as [s' [n|e]]; exact K. }
  apply conv_handler_cases in E.
  destruct E as [[-> ->]|[[-> ->]|[[-> ->]|[[-> ->]|[[-> ->]|[[-> ->]|
                 (state & -> & -> & _)]]]]]].
  - left. apply K, keeps_db_start.
  - left. apply K, keeps_db_select_family.
  - left. apply K, keeps_db_select_category.
  - left. apply K, keeps_db_get_amount.
  - left. apply K, keeps_db_get_period.
  - destruct (get_contact_cases world u s) as [(e & s' & H & _ & Hdb' & _)|
      (t & f & c & a & p & s' & Hdb & Hd & Ha & H & _ & Hdb')]; rewrite H.
    + now left.
    + right. exists t, f, c, a, p. conv_state. auto.
  - left. apply K, keeps_db_cancel.
Qed.

Lemma reachable_updates (self : TransactionBot) (world : World)
    (updates : list Update) :
  forall conv s,
    reachable self conv s ->
    reachable self (fst (handle_updates self world conv updates s))
                   (snd (handle_updates self world conv updates s)).
Proof.
  induction updates as [|u us IH]; intros conv s H; [exact H|].
  cbn [handle_updates].
  pose proof (reach_step self conv s world u H) as H1.
  destruct (handle_update self world conv u s) as [conv' s'].
  now apply IH.
Qed.

Lemma draft_step_shape (conv conv' : option Z) (d d' : UserData) :
  draft_step conv d conv' d' -> draft_shape conv d -> draft_shape conv' d'.
Proof.
  intros H. destruct H;
    repeat match goal with
    | H : _ \/ _ |- _ => destruct H
    | H : _ /\ _ |- _ => destruct H
    end; subst; cbn [draft_shape];
    try (intros ->); try intros (Hr & Hf & Hc & Ha & Hp);
    unfold with_family, with_category, with_amount, with_period, no_data,
      FAMILY, CATEGORY, AMOUNT, PERIOD, CONTACT in *;
    cbn [ud_family ud_category ud_amount ud_period] in *;
    try reflexivity; try tauto;
    repeat split; intros;
    first
      [ lia
      | congruence
      | match goal with
        | I : ?x <> None <-> _ |- ?x <> None => apply I; lia
        end
      | match goal with
        | I : ?x <> None <-> _, K : ?x <> None |- _ => apply I in K; lia
        end
      | match goal with
        | H : ?x = None, I : ?x <> None <-> _ |- _ =>
            exfalso; apply (proj2 I); [lia | exact H]
        end ].
Qed.

Lemma draft_step_checked (conv conv' : option Z) (d d' : UserData) :
  draft_step conv d conv' d' -> draft_checked d -> draft_checked d'.
Proof.
  intros H [Ha Hp]. destruct H; try (split; assumption);
    unfold draft_checked, with_amount, with_period, no_data;
    cbn [ud_amount ud_period]; split; intros x E;
    try discriminate; try injection E as <-; auto.
Qed.

(** X11.  One update moves the conversation by one step at most: after
    it the state is the one before, or the next one ([/start] opens in
    FAMILY, no other state is entered from outside), or the conversation
    is over; no step is skipped and none is gone back to.  While the
    conversation goes on, the update changes no key of the draft but the
    one of the current step. *)
Theorem conversation_moves_one_step (self : TransactionBot) (world : World)
    (conv : option Z) (u : Update) (s : State) :
  let conv' := fst (handle_update self world conv u s) in
  let d' := user_data (snd (handle_update self world conv u s)) in
  (conv' = conv
   \/ (conv = None /\ conv' = Some FAMILY)
   \/ (exists state, conv = Some state /\ FAMILY <= state < CONTACT
                     /\ conv' = Some (state + 1))
   \/ (conv <> None /\ conv' = None))
  /\ (conv' <> None ->
      (conv <> Some FAMILY -> ud_family d' = ud_family (user_data s))
      /\ (conv <> Some CATEGORY -> ud_category d' = ud_category (user_data s))
      /\ (conv <> Some AMOUNT -> ud_amount d' = ud_amount (user_data s))
      /\ (conv <> Some PERIOD -> ud_period d' = ud_period (user_data s))).
Proof.
  intros conv' d'.
  pose proof (handle_update_draft self world conv u s) as H.
  fold conv' d' in H. clearbody conv' d'.
  destruct H; (split; [|intros Hn; repeat split; intros; try reflexivity;
                        congruence]).
  - now left.
  - right; left. now split.
  - right; right; left. exists FAMILY. repeat split; vm_compute; congruence.
  - destruct H as [->|[-> _]]; [|now left].
    right; right; left. exists CATEGORY. repeat split; vm_compute; congruence.
  - destruct H0 as [->|[-> _]]; [|now left].
    right; right; left. exists AMOUNT. repeat split; vm_compute; congruence.
  - destruct H0 as [->|[-> _]]; [|now left].
    right; right; left. exists PERIOD. repeat split; vm_compute; congruence.
  - right; right; right. split; [discriminate|reflexivity].
Qed.

(** X12.  In every state the bot reaches from a fresh installation, the
    updates being those of one user in one chat (one conversation and its
    draft, as [handle_update] has them), the draft has exactly the keys
    of the steps that are behind: it is empty
    outside a conversation, so nothing of a finished or cancelled
    conversation is left for the next one, and in the state of a step it
    holds the values of the steps before and none of the later ones.  The
    amount in it has passed [amount <= 0] as false, and the period is a
    text that [strptime] reads. *)
Theorem draft_has_the_steps_behind (self : TransactionBot) (conv : option Z)
    (s : State) :
  reachable self conv s ->
  draft_shape conv (user_data s) /\ draft_checked (user_data s).
Proof.
  induction 1 as [|conv s world u Hr [IH1 IH2]].
  - split; [reflexivity|]. split; intros x E; discriminate E.
  - pose proof (handle_update_draft self world conv u s) as H. split.
    + exact (draft_step_shape _ _ _ _ H IH1).
    + exact (draft_step_checked _ _ _ _ H IH2).
Qed.

Lemma draft_has_the_steps_behind_witness :
  let end_state :=
    handle_updates open_bot (world_with None) None
      (firstn 4 (conversation 7 42 None "Famiglia Rossi" "Quota Mensile"
                   "25,50" "2024-01-15" "mario"))
      initial_state in
  fst end_state = Some PERIOD
  /\ draft_shape (fst end_state) (user_data (snd end_state))
  /\ draft_checked (user_data (snd end_state)).
Proof.
  split; [vm_compute; reflexivity|].
  apply (draft_has_the_steps_behind open_bot).
  apply reachable_updates. constructor.
Defined.

(** ** The ledger along the updates *)

Lemma reachable_checked (self : TransactionBot) (conv : option Z)
    (s : State) :
  reachable self conv s -> draft_checked (user_data s).
Proof.
  induction 1 as [|conv s world u Hr IH].
  - split; intros x E; discriminate E.
  - exact (draft_step_checked _ _ _ _ (handle_update_draft self world conv u s)
             IH).
Qed.

Lemma committed_row_checked (world : World) (u : Update) (f c : string)
    (a : PyFloat.float) (p : string) (t : Sqlite.table) :
  draft_checked (draft f c a p) -> a <> S754_nan ->
  row_checked (committed_row world u f c a p (contact_of u) t).
Proof.
  intros [Ha Hp] Hn. repeat split.
  - exists a. split; [reflexivity|].
    apply le_zero_above; [now apply Ha | exact Hn].
  - exists p. split; [reflexivity | now apply Hp].
  - destruct (contact_of_at u) as [k ->]. now exists k.
Qed.

(** X13.  In every state the bot reaches from a fresh installation, the
    updates being those of one user in one chat, each row of the table
    holds an amount above zero (a number, [inf] at
    most: never zero, negative or [nan]), a period that [strptime] reads
    with ['%Y-%m-%d'], and a contact that starts with [@]. *)
Theorem stored_rows_are_checked (self : TransactionBot) (conv : option Z)
    (s : State) :
  reachable self conv s ->
  exists t, db s = Some t /\ Forall row_checked (Sqlite.rows t).
Proof.
  induction 1 as [|conv s world u Hr (t & Hdb & Hrows)].
  - exists Sqlite.empty. split; [reflexivity | constructor].
  - destruct (handle_update_commit self world conv u s)
      as [E|(t0 & f & c & a & p & _ & Hdb0 & Hd & Ha & E)]; rewrite E.
    + now exists t.
    + rewrite Hdb in Hdb0. injection Hdb0 as <-.
      eexists. split; [reflexivity|].
      cbn [with_row Sqlite.rows]. apply Forall_app. split; [exact Hrows|].
      constructor; [|constructor].
      apply committed_row_checked; [|exact Ha].
      rewrite <- Hd. eapply reachable_checked, Hr.
Qed.

Lemma stored_rows_are_checked_witness :
  exists t,
    db (snd (handle_updates open_bot (world_with None) None
               (conversation 7 42 None "Famiglia Rossi" "Quota Mensile"
                  "25,50" "2024-01-15" "mario")
               initial_state)) = Some t
    /\ Forall row_checked (Sqlite.rows t).
Proof.
  eapply (stored_rows_are_checked open_bot).
  apply reachable_updates. constructor.
Defined.

(** X14.  In every state the bot reaches from a fresh installation, the
    identifiers of the rows are 1, 2, ..., n in the order of insertion,
    and the counter of the table is the number of its rows: no identifier
    is skipped, a failed commit uses none. *)
Theorem identifiers_count_the_rows (self : TransactionBot) (conv : option Z)
    (s : State) :
  reachable self conv s ->
  exists t,
    db s = Some t
    /\ map Sqlite.id (Sqlite.rows t)
       = map Z.of_nat (seq 1 (List.length (Sqlite.rows t)))
    /\ Sqlite.sequence t = Z.of_nat (List.length (Sqlite.rows t)).
Proof.
  induction 1 as [|conv s world u Hr (t & Hdb & Hids & Hseq)].
  - exists Sqlite.empty. repeat split.
  - destruct (handle_update_step self world conv u s)
      as [E|(t0 & r & Hdb0 & E & _ & Hid)]; rewrite E.
    + now exists t.
    + rewrite Hdb in Hdb0. injection Hdb0 as <-.
      eexists. split; [reflexivity|].
      cbn [with_row Sqlite.rows Sqlite.sequence].
      rewrite length_app, seq_app, !map_app, <- Hids. cbn [List.length seq map].
      split; [|lia]. do 2 f_equal. lia.
Qed.

Lemma identifiers_count_the_rows_witness :
  exists t,
    db (snd (handle_updates open_bot (world_with (Some "chat not found")) None
               (conversation 7 42 None "Famiglia Rossi" "Quota Mensile"
                  "25,50" "2024-01-15" "mario"
                ++ conversation 7 42 None "Famiglia Blu" "Altro"
                     "3" "2024-2-1" "@anna")
               initial_state)) = Some t
    /\ map Sqlite.id (Sqlite.rows t)
       = map Z.of_nat (seq 1 (List.length (Sqlite.rows t)))
    /\ Sqlite.sequence t = Z.of_nat (List.length (Sqlite.rows t)).
Proof.
  eapply (identifiers_count_the_rows open_bot).
  apply reachable_updates. constructor.
Defined.

Lemma handle_updates_grow (self : TransactionBot) (world : World)
    (updates : list Update) :
  forall conv s t,
    db s = Some t ->
    exists t' l,
      db (snd (handle_updates self world conv updates s)) = Some t'
      /\ Sqlite.rows t' = (Sqlite.rows t ++ l)%list
      /\ (List.length l <= List.length updates)%nat.
Proof.
  induction updates as [|u us IH]; intros conv s t Hdb.
  - exists t, []. cbn [handle_updates snd List.length].
    rewrite app_nil_r. auto.
  - cbn [handle_updates].
    pose proof (handle_update_step self world conv u s) as H.
    destruct (handle_update self world conv u s) as [conv' s'].
    cbn [snd] in H. destruct H as [E|(t0 & r & Hdb0 & E & _)].
    + rewrite Hdb in E. destruct (IH conv' s' t E) as (t' & l & H1 & H2 & H3).
      exists t', l. cbn [List.length]. repeat split; try assumption. lia.
    + rewrite Hdb in Hdb0. injection Hdb0 as <-.
      destruct (IH conv' s' _ E) as (t' & l & H1 & H2 & H3).
      exists t', (r :: l). cbn [List.length]. repeat split; try assumption; [|lia].
      rewrite H2. cbn [with_row Sqlite.rows]. now rewrite <- app_assoc.
Qed.

(** X15.  A run of the program, [TransactionBot()] then [run()], on the
    database as it was left: the table afterwards begins with the rows
    that were there, unchanged and in their order, so no update removes
    or rewrites a row, and a restart keeps the ledger; what is added is
    at most one row for each update.  Without a token (unset or empty)
    the table is still made, and then no update is handled: no row is
    added and nothing is sent. *)
Theorem ledger_only_grows (self : TransactionBot) (world : World)
    (database : option Sqlite.table) (updates : list Update) :
  let before :=
    match database with Some t => t | None => Sqlite.empty end in
  exists t added,
    db (main self world database updates) = Some t
    /\ Sqlite.rows t = (Sqlite.rows before ++ added)%list
    /\ (List.length added <= List.length updates)%nat
    /\ (bot_token self = None \/ bot_token self = Some EmptyString ->
        t = before /\ sent (main self world database updates) = []).
Proof.
  intros before. unfold main, run.
  set (s0 := fst (init_database _)).
  assert (Hdb : db s0 = Some before) by (now destruct database).
  destruct (bot_token self) as [[|c tok]|] eqn:T.
  - exists before, []. rewrite app_nil_r.
    repeat split; auto; cbn [List.length]; lia.
  - destruct (handle_updates_grow self world updates None
                (fst (logger_info "Starting bot..." s0)) before Hdb)
      as (t & l & H1 & H2 & H3).
    exists t, l. repeat split; try assumption; destruct H; discriminate.
  - exists before, []. rewrite app_nil_r.
    repeat split; auto; cbn [List.length]; lia.
Qed.

(** ** Amounts with more than one separator *)

Lemma count_char_app (x : ascii) (s r : string) :
  count_char x (s ++ r) = (count_char x s + count_char x r)%nat.
Proof.
  induction s as [|c s IH]; [reflexivity|].
  cbn [String.append count_char]. rewrite IH. lia.
Qed.

Lemma replace_char (c x : ascii) (new s : string) :
  PyStr.replace (String c EmptyString) new (String x s)
  = if Ascii.eqb c x
    then new ++ PyStr.replace (String c EmptyString) new s
    else String x (PyStr.replace (String c EmptyString) new s).
Proof.
  unfold PyStr.replace. cbn [PyStr.replace_from].
  replace (PyStr.startswith (String c EmptyString) (String x s))
    with (Ascii.eqb c x)
    by (cbn [PyStr.startswith]; destruct s; now rewrite andb_true_r).
  reflexivity.
Qed.

(** After [replace(',', '.')] there are as many points as there were
    commas and points. *)
Lemma count_replace_comma (s : string) :
  count_char "." (PyStr.replace "," "." s)
  = (count_char "," s + count_char "." s)%nat.
Proof.
  induction s as [|x s IH]; [reflexivity|].
  rewrite replace_char.
  destruct (Ascii.eqb_spec "," x) as [<-|N].
  - change ("." ++ PyStr.replace "," "." s)
      with (String "." (PyStr.replace "," "." s)).
    cbn [count_char]. rewrite IH.
    change (Ascii.eqb "." ".") with true. change (Ascii.eqb "," ".") with false.
    rewrite Ascii.eqb_refl. cbv iota. lia.
  - cbn [count_char]. rewrite IH.
    assert (E : Ascii.eqb x "," = false) by (apply Ascii.eqb_neq; congruence).
    rewrite E. lia.
Qed.

Lemma count_spaces_to_ascii (s : string) :
  count_char "." (PyFloat.spaces_to_ascii s) = count_char "." s.
Proof.
  induction s as [|c s IH]; [reflexivity|].
  cbn [PyFloat.spaces_to_ascii count_char]. rewrite IH. f_equal.
  destruct (Ascii.eqb_spec c ".") as [->|N]; [reflexivity|].
  destruct (_ || _)%bool; [reflexivity|].
  now apply Ascii.eqb_neq in N as ->.
Qed.

Lemma count_remove_underscores (s : string) :
  forall prev s1,
    PyFloat.remove_underscores prev s = Some s1 ->
    count_char "." s1 = count_char "." s.
Proof.
  induction s as [|c s IH]; intros prev s1; cbn [PyFloat.remove_underscores].
  - destruct (Ascii.eqb prev "_"); [discriminate|]. now intros [= <-].
  - destruct (Ascii.eqb_spec c "_") as [->|N].
    + destruct (PyStr.isdigit prev); [|discriminate].
      intros H. apply IH in H. rewrite H. reflexivity.
    + destruct (_ && _)%bool; [discriminate|].
      destruct (PyFloat.remove_underscores c s) as [r|] eqn:E; [|discriminate].
      intros [= <-]. cbn [count_char]. now rewrite (IH c r E).
Qed.

Lemma count_lstrip (p : ascii -> bool) (x : ascii) (s : string) :
  p x = false ->
  count_char x (PyStr.lstrip_by p s) = count_char x s.
Proof.
  intros Hp. induction s as [|c s IH]; [reflexivity|].
  cbn [PyStr.lstrip_by]. destruct (p c) eqn:E; [|reflexivity].
  cbn [count_char]. rewrite IH.
  destruct (Ascii.eqb_spec c x) as [->|N]; [congruence|reflexivity].
Qed.

Lemma count_rstrip (p : ascii -> bool) (x : ascii) (s : string) :
  p x = false ->
  count_char x (PyStr.rstrip_by p s) = count_char x s.
Proof.
  intros Hp. induction s as [|c s IH]; [reflexivity|].
  cbn [PyStr.rstrip_by count_char]. rewrite <- IH.
  destruct (PyStr.rstrip_by p s) as [|c' r]; [|reflexivity].
  destruct (p c) eqn:E; [|reflexivity].
  destruct (Ascii.eqb_spec c x) as [->|N]; [congruence|reflexivity].
Qed.

Lemma count_parse_sign (s : string) :
  count_char "." (snd (PyFloat.parse_sign s)) = count_char "." s.
Proof.
  destruct s as [|c s]; [reflexivity|].
  destruct c as [[] [] [] [] [] [] [] []]; reflexivity.
Qed.

Lemma count_span_digits (s : string) :
  count_char "." (snd (PyFloat.span_digits s)) = count_char "." s.
Proof.
  induction s as [|c s IH]; [reflexivity|].
  cbn [PyFloat.span_digits]. destruct (PyStr.isdigit c) eqn:E; [|reflexivity].
  destruct (PyFloat.span_digits s) as [d r]. cbn [snd count_char] in *.
  rewrite IH.
  destruct (Ascii.eqb_spec c ".") as [->|N]; [discriminate E|reflexivity].
Qed.

(** The part after the integer digits: one point at most is consumed. *)
Lemma count_fraction (r1 : string) :
  (count_char "." r1
   <= 1 + count_char "."
            (snd match r1 with
                 | String "." r => PyFloat.span_digits r
                 | _ => (EmptyString, r1)
                 end))%nat.
Proof.
  destruct r1 as [|c r]; [cbn; lia|].
  destruct c as [[] [] [] [] [] [] [] []];
    try (cbn [snd]; lia).
  rewrite count_span_digits. cbn [count_char].
  rewrite Ascii.eqb_refl. lia.
Qed.

Lemma count_parse_decimal (neg : bool) (s : string) (l : PyFloat.literal) :
  PyFloat.parse_decimal neg s = Some l -> (count_char "." s <= 1)%nat.
Proof.
  unfold PyFloat.parse_decimal.
  pose proof (count_span_digits s) as H1.
  destruct (PyFloat.span_digits s) as [ip r1]. cbn [snd] in H1.
  pose proof (count_fraction r1) as H2.
  destruct (match r1 with
            | String "." r => PyFloat.span_digits r
            | _ => (EmptyString, r1)
            end) as [fp r2].
  cbn [snd] in H2.
  destruct (_ =? 0); [discriminate|].
  destruct r2 as [|c r3]; [cbn [count_char] in H2; lia|].
  destruct (Ascii.eqb c "e" || Ascii.eqb c "E") eqn:E; [|discriminate].
  pose proof (count_parse_sign r3) as H3.
  destruct (PyFloat.parse_sign r3) as [eneg r4]. cbn [snd] in H3.
  pose proof (count_span_digits r4) as H4.
  destruct (PyFloat.span_digits r4) as [ed r5]. cbn [snd] in H4.
  destruct ed; [discriminate|]. destruct r5; [|discriminate].
  intros _. cbn [count_char] in H2, H4.
  destruct (Ascii.eqb_spec c ".") as [->|N]; [discriminate E|]. lia.
Qed.

Lemma count_lowercase (s : string) :
  count_char "." (PyFloat.lowercase s) = count_char "." s.
Proof.
  induction s as [|c s IH]; [reflexivity|].
  cbn [PyFloat.lowercase count_char]. rewrite IH. f_equal.
  destruct c as [[] [] [] [] [] [] [] []]; reflexivity.
Qed.

Lemma count_parse_inf_or_nan (neg : bool) (s : string) (l : PyFloat.literal) :
  PyFloat.parse_inf_or_nan neg s = Some l -> count_char "." s = 0%nat.
Proof.
  unfold PyFloat.parse_inf_or_nan. rewrite <- (count_lowercase s).
  destruct (String.eqb_spec (PyFloat.lowercase s) "inf") as [->|_];
    [reflexivity|].
  destruct (String.eqb_spec (PyFloat.lowercase s) "infinity") as [->|_];
    [reflexivity|].
  destruct (String.eqb_spec (PyFloat.lowercase s) "nan") as [->|_];
    [reflexivity|discriminate].
Qed.

(** A text that [float] reads has one point at most. *)
Lemma count_parse_literal (s : string) (l : PyFloat.literal) :
  PyFloat.parse_literal s = Some l -> (count_char "." s <= 1)%nat.
Proof.
  unfold PyFloat.parse_literal.
  destruct (PyFloat.remove_underscores _ _) as [s1|] eqn:E1; [|discriminate].
  apply count_remove_underscores in E1. rewrite count_spaces_to_ascii in E1.
  rewrite <- E1.
  rewrite <- (count_lstrip PyFloat.c_isspace "." s1 eq_refl).
  rewrite <- (count_rstrip PyFloat.c_isspace "." _ eq_refl).
  rewrite <- count_parse_sign.
  destruct (PyFloat.parse_sign _) as [neg r]. cbn [snd].
  destruct (PyFloat.parse_decimal neg r) as [l0|] eqn:E2.
  - intros _. now apply count_parse_decimal in E2.
  - intros H. apply count_parse_inf_or_nan in H. lia.
Qed.

(** X16.  A text with two or more separators, commas or points, is never
    an amount: every comma becomes a point, and [float] reads one point
    at most.  So an amount written with a separator of thousands, as
    1.234,56 or 1,234.56, gets the retry prompt; the draft and the table
    stay as they are and the state is AMOUNT again. *)
Theorem two_separators_are_rejected (u : Update) (s : State) :
  (2 <= count_char "," (message_text u) + count_char "." (message_text u))%nat ->
  amount_valid (message_text u) = false
  /\ get_amount u s
     = (with_sent s [ReplyText amount_retry_text None None], Return AMOUNT).
Proof.
  intros H.
  assert (V : amount_valid (message_text u) = false).
  { unfold amount_valid, PyFloat.of_string.
    destruct (PyFloat.parse_literal _) as [l|] eqn:E; [|reflexivity].
    apply count_parse_literal in E. rewrite count_replace_comma in E. lia. }
  split; [exact V | now apply get_amount_rejects].
Qed.

Lemma two_separators_are_rejected_witness :
  get_amount (text_update "1.234,56") rossi_amount_state
  = (with_sent rossi_amount_state [ReplyText amount_retry_text None None],
     Return AMOUNT).
Proof.
  apply (two_separators_are_rejected (text_update "1.234,56")
           rossi_amount_state).
  vm_compute. lia.
Defined.

(** ** A whole conversation, and a chat that is not authorized *)

Lemma is_authorized_eq (self : TransactionBot) (u : Update) (s : State) :
  is_authorized self u s = (s, Return (authorized self (effective_chat_id u))).
Proof.
  unfold is_authorized, authorized.
  now destruct (allowed_group_id self) as [[|c r]|].
Qed.

Lemma replace_label (c : ascii) (old label : string) :
  contains (String c old) label = false ->
  PyStr.replace (String c old) EmptyString (String c old ++ label) = label.
Proof.
  intros H. rewrite replace_prefix. now rewrite replace_absent.
Qed.

(** X17.  The whole conversation, for any inputs that the steps take: in
    an authorized chat, [/start], a family button, a category button
    (labels that do not themselves contain the prefix of their button),
    an amount text that [float] reads as a number above zero once its
    commas are points, a period that [strptime] reads once stripped, and
    any contact text.  When [save_transaction] returns for this draft
    and this contact on the database as it is, the six updates end the
    conversation with the draft empty and exactly one row added: the two
    labels, the amount as read, the period stripped, the contact
    normalized, and the sender of the last message.  It is so whatever
    the draft held before and whether or not the notifier delivers. *)
Theorem whole_conversation_commits (self : TransactionBot) (world : World)
    (s s1 : State) (chat uid : Z) (uname : option string)
    (family category amount period contact : string) (a : PyFloat.float) :
  authorized self chat = true ->
  contains "family_" family = false ->
  contains "category_" category = false ->
  PyFloat.of_string (PyStr.replace "," "." amount) = Some a ->
  PyFloat.le_zero a = false ->
  Strptime.strptime_Ymd (PyStr.strip period) <> None ->
  save_transaction world (update_of chat uid uname (TextMessage contact))
    (normalize_contact (PyStr.strip contact))
    (with_draft s (draft family category a (PyStr.strip period)))
  = (s1, Return tt) ->
  exists s' t,
    handle_updates self world None
      (conversation chat uid uname family category amount period contact) s
    = (None, s')
    /\ user_data s' = no_data
    /\ db s = Some t
    /\ db s' = Some (with_row t
                       (committed_row world
                          (update_of chat uid uname (TextMessage contact))
                          family category a (PyStr.strip period)
                          (normalize_contact (PyStr.strip contact)) t)).
Proof.
  intros Hauth Hf Hc Ha Hle Hp Hsave.
  destruct (save_transaction_inv world _ _ _ s1 Hsave)
    as (t & f' & c' & a' & p' & Hdb & Hud & Hn & Hid & Hl & _).
  cbn [with_draft db user_data] in Hdb, Hud.
  injection Hud as <- <- <- <-.
  unfold lock_free in Hl. cbn [with_draft locked] in Hl.
  cbn [update_of effective_user_id] in Hid.
  unfold conversation. cbn [map handle_updates].
  match goal with
  | |- context [handle_update self world None ?u s] =>
      assert (E : start self u s
                  = (with_sent s [ReplyText start_text (Some family_keyboard)
                                    markdown], Return FAMILY))
        by (rewrite (start_run self u s _ (is_authorized_eq self u s));
            cbn [effective_chat_id]; now rewrite Hauth);
      rewrite (handle_update_handled self world None u s _ (start self) _
                 eq_refl E); clear E
  end.
  conv_state.
  match goal with
  | |- context [handle_update self world (Some FAMILY) ?u ?s1] =>
      rewrite (handle_update_handled self world (Some FAMILY) u s1 _
                 select_family _ eq_refl (select_family_run u s1))
  end.
  conv_state.
  match goal with
  | |- context [handle_update self world (Some CATEGORY) ?u ?s1] =>
      rewrite (handle_update_handled self world (Some CATEGORY) u s1 _
                 select_category _ eq_refl (select_category_run u s1))
  end.
  cbn [user_data with_draft_sent with_family ud_family]. conv_state.
  unfold query_data. cbn [update_payload].
  rewrite (replace_label _ _ family Hf), (replace_label _ _ category Hc).
  match goal with
  | |- context [handle_update self world (Some AMOUNT) ?u ?s1] =>
      rewrite (handle_update_handled self world (Some AMOUNT) u s1 _
                 get_amount _ eq_refl (get_amount_run u s1 a Ha Hle))
  end.
  cbn [user_data with_draft_sent with_family with_category ud_family
       ud_category]. conv_state.
  match goal with
  | |- context [handle_update self world (Some PERIOD) ?u ?s1] =>
      rewrite (handle_update_handled self world (Some PERIOD) u s1 _
                 get_period _ eq_refl (get_period_run u s1 Hp))
  end.
  cbn [user_data with_draft_sent with_family with_category with_amount
       ud_family ud_category ud_amount]. conv_state.
  match goal with
  | |- context [handle_update self world (Some CONTACT) ?u ?s1] =>
      destruct (handle_contact_full self world u s1 t family category a
                  (PyStr.strip period) contact eq_refl Hdb eq_refl Hn Hid Hl)
        as (s' & H1 & _ & H3 & H4)
  end.
  rewrite H1. exists s', t. repeat split; assumption.
Qed.

Lemma whole_conversation_commits_witness :
  exists s',
    handle_updates open_bot (world_with (Some "chat not found")) None
      (conversation 7 42 (Some "luca") "Famiglia Verdi" "Altro" " 3,5 "
         " 2024-2-1 " "anna ")
      rossi_state
    = (None, s')
    /\ user_data s' = no_data
    /\ db s' = Some (with_row Sqlite.empty
                       (committed_row (world_with (Some "chat not found"))
                          (update_of 7 42 (Some "luca") (TextMessage "anna "))
                          "Famiglia Verdi" "Altro"
                          (S754_finite false 7881299347898368 (-51))
                          "2024-2-1" "@anna" Sqlite.empty)).
Proof.
  destruct (whole_conversation_commits open_bot
              (world_with (Some "chat not found")) rossi_state
              (fst (save_transaction (world_with (Some "chat not found"))
                      (update_of 7 42 (Some "luca") (TextMessage "anna "))
                      "@anna"
                      (with_draft rossi_state
                         (draft "Famiglia Verdi" "Altro"
                            (S754_finite false 7881299347898368 (-51))
                            "2024-2-1"))))
              7 42 (Some "luca") "Famiglia Verdi" "Altro"
              " 3,5 " " 2024-2-1 " "anna "
              (S754_finite false 7881299347898368 (-51))
              eq_refl eq_refl eq_refl eq_refl eq_refl
              ltac:(discriminate) eq_refl)
    as (s' & t & H1 & H2 & Hdb & H4).
  exists s'. injection Hdb as <-. repeat split; assumption.
Defined.

Lemma help_command_run (self : TransactionBot) (u : Update) (s : State) :
  help_command self u s
  = (with_sent s
       [if authorized self (effective_chat_id u)
        then ReplyText help_text None markdown
        else ReplyText unauthorized_text None None],
     Return tt).
Proof.
  unfold help_command, bind. rewrite is_authorized_eq.
  now destruct (authorized self (effective_chat_id u)).
Qed.

(** X18.  A chat that is not authorized gets nothing out of the bot and
    puts nothing in: when no conversation is open, updates from such
    chats, whatever they are and however many, open no conversation and
    leave the draft, the table and the log as they are; all that is sent
    is the fixed rejection, once for each [/start] and [/help]. *)
Theorem unauthorized_chat_writes_nothing (self : TransactionBot)
    (world : World) (updates : list Update) (s : State) :
  Forall (fun u => authorized self (effective_chat_id u) = false) updates ->
  exists answers,
    handle_updates self world None updates s = (None, with_sent s answers)
    /\ Forall (fun o => o = ReplyText unauthorized_text None None) answers
    /\ List.length answers
       = List.length (filter (fun u => is_command "start" u
                                       || is_command "help" u) updates).
Proof.
  intros H. revert s. induction H as [|u us Hu _ IH]; intros s.
  - exists []. destruct s as [d t snt lg lk]. unfold with_sent.
    cbn [handle_updates user_data db sent log locked]. rewrite app_nil_r.
    repeat split. constructor.
  - cbn [handle_updates filter].
    assert (E : handle_update self world None u s
                = (None,
                   with_sent s
                     (if is_command "start" u || is_command "help" u
                      then [ReplyText unauthorized_text None None] else []))).
    { unfold handle_update, conv_handler, entry_points.
      rewrite first_match_single. destruct (is_command "start" u).
      - rewrite (start_run self u s _ (is_authorized_eq self u s)), Hu.
        reflexivity.
      - cbn [orb]. destruct (is_command "help" u).
        + now rewrite help_command_run, Hu.
        + destruct s as [d t snt lg lk]. unfold with_sent.
          cbn [user_data db sent log locked]. now rewrite app_nil_r. }
    rewrite E.
    destruct (IH (with_sent s
                    (if is_command "start" u || is_command "help" u
                     then [ReplyText unauthorized_text None None] else [])))
      as (answers & H1 & H2 & H3).
    rewrite H1.
    exists ((if is_command "start" u || is_command "help" u
             then [ReplyText unauthorized_text None None] else [])
            ++ answers)%list.
    split; [|split].
    + unfold with_sent. cbn [user_data db sent log locked].
      now rewrite <- app_assoc.
    + apply Forall_app. split; [|exact H2].
      destruct (_ || _)%bool; repeat constructor.
    + rewrite length_app, H3.
      now destruct (is_command "start" u || is_command "help" u).
Qed.

Lemma unauthorized_chat_writes_nothing_witness :
  exists answers,
    handle_updates group_bot (world_with None) None
      (conversation 7 42 None "Famiglia Rossi" "Quota Mensile" "25,50"
         "2024-01-15" "mario")
      initial_state
    = (None, with_sent initial_state answers)
    /\ Forall (fun o => o = ReplyText unauthorized_text None None) answers
    /\ List.length answers = 1%nat.
Proof.
  apply (unauthorized_chat_writes_nothing group_bot (world_with None)
           (conversation 7 42 None "Famiglia Rossi" "Quota Mensile" "25,50"
              "2024-01-15" "mario") initial_state).
  repeat constructor.
Defined.

(** ** A draft that has lost its family *)

Lemma handle_update_stuck (self : TransactionBot) (world : World)
    (state : Z) (u : Update) (s : State) :
  CATEGORY <= state <= CONTACT ->
  ud_family (user_data s) = None ->
  is_command "cancel" u = false ->
  exists s',
    handle_update self world (Some state) u s = (Some state, s')
    /\ db s' = db s /\ ud_family (user_data s') = None.
Proof.
  intros Hst Hf Hc. unfold handle_update.
  destruct (conv_handler self world (Some state) u) as [h|] eqn:E.
  2:{ destruct (is_command "help" u); eexists; (split; [reflexivity|]);
        [split; [apply keeps_db_help | now rewrite help_command_draft]
        |now split]. }
  apply conv_handler_cases in E.
  destruct E as [[[=] _]|[[[= ->] ->]|[[[= ->] ->]|[[[= ->] ->]|[[[= ->] ->]|
               [[[= ->] ->]|(st & _ & _ & E)]]]]]].
  - unfold FAMILY, CATEGORY in Hst. lia.
  - rewrite select_category_run, Hf. eexists. split; [reflexivity|].
    now split.
  - destruct (amount_valid (message_text u)) eqn:V.
    + destruct (read_amount_valid _ s V) as (a & Ha & Hle & _).
      rewrite (get_amount_run u s a Ha Hle), Hf.
      eexists. split; [reflexivity|]. now split.
    + rewrite (get_amount_rejects u s V). conv_state.
      eexists. split; [reflexivity|]. now split.
  - destruct (Strptime.strptime_Ymd (PyStr.strip (message_text u))) eqn:V.
    + assert (Hp : Strptime.strptime_Ymd (PyStr.strip (message_text u))
                   <> None) by congruence.
      rewrite (get_period_run u s Hp), Hf.
      eexists. split; [reflexivity|]. now split.
    + rewrite (get_period_rejects u s V). conv_state.
      eexists. split; [reflexivity|]. now split.
  - destruct (get_contact_cases world u s) as [(e & s' & H & Hud & Hdb & _)|
      (t & f & c & a & p & s' & _ & Hd & _)].
    + rewrite H. eexists. split; [reflexivity|]. split; [exact Hdb|].
      now rewrite Hud.
    + rewrite Hd in Hf. discriminate Hf.
  - congruence.
Qed.

(** X19.  A conversation past the family step whose draft has no family
    cannot go on: every handler from CATEGORY to CONTACT reads the
    family, and the KeyError leaves the state of the conversation as it
    is.  So whatever updates follow, as long as none is [/cancel], the
    conversation stays in its state, no step stores the family again, and
    no row is written. *)
Theorem draft_without_family_is_stuck (self : TransactionBot) (world : World)
    (updates : list Update) (state : Z) (s : State) :
  CATEGORY <= state <= CONTACT ->
  ud_family (user_data s) = None ->
  Forall (fun u => is_command "cancel" u = false) updates ->
  exists s',
    handle_updates self world (Some state) updates s = (Some state, s')
    /\ db s' = db s /\ ud_family (user_data s') = None.
Proof.
  intros Hst Hf H. revert s Hf.
  induction H as [|u us Hu _ IH]; intros s Hf.
  - exists s. now repeat split.
  - cbn [handle_updates].
    destruct (handle_update_stuck self world state u s Hst Hf Hu)
      as (s1 & E & Hdb & Hf1).
    rewrite E. destruct (IH s1 Hf1) as (s' & E' & Hdb' & Hf').
    exists s'. repeat split; try assumption. congruence.
Qed.

Lemma draft_without_family_is_stuck_witness :
  exists s',
    handle_updates open_bot (world_with None) (Some AMOUNT)
      [text_update "25,50"; text_update "2024-01-15"; text_update "mario"]
      initial_state
    = (Some AMOUNT, s')
    /\ db s' = db initial_state /\ ud_family (user_data s') = None.
Proof.
  apply (draft_without_family_is_stuck open_bot (world_with None)
           [text_update "25,50"; text_update "2024-01-15"; text_update "mario"]
           AMOUNT initial_state).
  - vm_compute. split; discriminate.
  - reflexivity.
  - repeat constructor.
Defined.

(** ** The connection that a failed INSERT leaves open *)

Lemma get_contact_returns_free (world : World) (u : Update) (s s' : State)
    (r : Z) :
  get_contact world u s = (s', Return r) -> lock_free world s.
Proof.
  intros H.
  destruct (save_transaction world u (contact_of u) s) as [s1 [[]|e]] eqn:E.
  - now destruct (save_transaction_inv world u _ s s1 E)
      as (t & f & c & a & p & _ & _ & _ & _ & Hl & _).
  - unfold get_contact in H. fold (contact_of u) in H.
    unfold bind at 1 in H. rewrite E in H. discriminate H.
Qed.

(** Under a lock that is not collected, an update leaves the table and
    the lock as they are. *)
Lemma handle_update_locked (self : TransactionBot) (world : World)
    (conv : option Z) (u : Update) (s : State) :
  locked s = true -> collected world = false ->
  db (snd (handle_update self world conv u s)) = db s
  /\ locked (snd (handle_update self world conv u s)) = true.
Proof.
  intros Hl Hc. unfold handle_update.
  destruct (conv_handler self world conv u) as [h|] eqn:E.
  2:{ destruct (is_command "help" u); cbn [fst snd];
        [rewrite help_command_run|]; now split. }
  apply conv_handler_cases in E.
  destruct E as [[-> ->]|[[-> ->]|[[-> ->]|[[-> ->]|[[-> ->]|[[-> ->]|
                 (state & -> & -> & _)]]]]]].
  - rewrite (start_run self u s _ (is_authorized_eq self u s)).
    destruct (authorized self (effective_chat_id u)); now split.
  - rewrite select_family_run. now split.
  - rewrite select_category_run.
    destruct (ud_family (user_data s)); now split.
  - destruct (amount_valid (message_text u)) eqn:V.
    + destruct (read_amount_valid _ s V) as (a & Ha & Hle & _).
      rewrite (get_amount_run u s a Ha Hle).
      destruct (ud_family (user_data s));
        [destruct (ud_category (user_data s))|]; now split.
    + rewrite (get_amount_rejects u s V). now split.
  - destruct (Strptime.strptime_Ymd (PyStr.strip (message_text u))) eqn:V.
    + assert (Hp : Strptime.strptime_Ymd (PyStr.strip (message_text u))
                   <> None) by congruence.
      rewrite (get_period_run u s Hp).
      destruct (ud_family (user_data s));
        [destruct (ud_category (user_data s));
         [destruct (ud_amount (user_data s))|]|]; now split.
    + rewrite (get_period_rejects u s V). now split.
  - destruct (get_contact_cases world u s)
      as [(e & s' & H & _ & Hdb & _ & _ & Hlk)|
          (t & f & c & a & p & s' & _ & _ & _ & H & _)].
    + rewrite H. cbn [snd]. split; [exact Hdb|].
      destruct Hlk as [Hlk|Hlk]; [exact Hlk|]. now rewrite Hlk, Hl, Hc.
    + apply get_contact_returns_free in H. unfold lock_free in H.
      rewrite Hl, Hc in H. discriminate H.
  - unfold cancel, bind, reply_text, call, set_user_data, modify, ret.
    now split.
Qed.

(** X21.  [save_transaction] closes its connection on its last line, so
    a call that raises leaves it open.  When the INSERT fails on the NOT
    NULL constraint (the amount of the draft is a NaN), the draft, the
    table, the messages and the log stay as they are and the connection
    left open holds the write lock.  Until the collector closes it, no
    update writes a row, whatever the updates are: a commit of a full
    draft raises "database is locked".  Once it is collected, the commit
    of a full draft with a number for amount goes through again. *)
Theorem failed_insert_holds_the_lock (self : TransactionBot) (world : World) :
  (forall u s t f c p,
     db s = Some t -> user_data s = draft f c S754_nan p ->
     Sqlite.fits_int64 (effective_user_id u) = true ->
     lock_free world s ->
     get_contact world u s
     = ({| user_data := user_data s; db := db s; sent := sent s;
           log := log s; locked := true |},
        Raise (IntegrityError
                 "NOT NULL constraint failed: transactions.amount")))
  /\ (forall conv updates s,
        locked s = true -> collected world = false ->
        db (snd (handle_updates self world conv updates s)) = db s
        /\ locked (snd (handle_updates self world conv updates s)) = true)
  /\ (forall u contact s t f c a p,
        locked s = true -> collected world = false ->
        db s = Some t -> user_data s = draft f c a p ->
        Sqlite.fits_int64 (effective_user_id u) = true ->
        save_transaction world u contact s
        = (s, Raise (OperationalError "database is locked")))
  /\ (forall u contact s t f c a p,
        collected world = true ->
        db s = Some t -> user_data s = draft f c a p -> a <> S754_nan ->
        Sqlite.fits_int64 (effective_user_id u) = true ->
        exists s', save_transaction world u contact s = (s', Return tt)).
Proof.
  split; [|split; [|split]].
  - intros u s t f c p Hdb Hud Hid Hl. unfold lock_free in Hl.
    destruct s as [d t0 snt lg lk]. cbn [db user_data locked] in *.
    subst d t0.
    unfold get_contact, save_transaction, connect, bind, lookup, modify.
    cbn [user_data db sent log locked ud_family ud_category ud_amount
         ud_period draft].
    rewrite Hid, Hl. reflexivity.
  - intros conv updates. revert conv.
    induction updates as [|u us IH]; intros conv s Hl Hc; [now split|].
    cbn [handle_updates].
    destruct (handle_update_locked self world conv u s Hl Hc) as [H1 H2].
    destruct (handle_update self world conv u s) as [conv' s1].
    cbn [snd] in H1, H2.
    destruct (IH conv' s1 H2 Hc) as [H3 H4]. split; [congruence|exact H4].
  - intros u contact s t f c a p Hl Hc Hdb Hud Hid.
    destruct s as [d t0 snt lg lk]. cbn [db user_data locked] in *.
    subst d t0 lk.
    unfold save_transaction, connect, bind, lookup, modify.
    cbn [user_data db sent log locked ud_family ud_category ud_amount
         ud_period draft].
    now rewrite Hid, Hc.
  - intros u contact s t f c a p Hc Hdb Hud Ha Hid. eexists.
    apply (save_transaction_ok world u contact s t f c a p Hdb Hud Ha Hid).
    unfold lock_free. rewrite Hc. now destruct (locked s).
Qed.

Lemma failed_insert_holds_the_lock_witness :
  let world := world_with None in
  let failed :=
    handle_updates open_bot world None
      (conversation 7 42 None "Famiglia Rossi" "Quota Mensile" "nan"
         "2024-01-15" "mario") initial_state in
  let later :=
    handle_updates open_bot world (fst failed)
      (text_update "mario" :: update_of 7 42 None (Command "cancel" "/cancel")
       :: conversation 7 42 None "Famiglia Blu" "Altro" "3"
            "2024-02-01" "@anna")
      (snd failed) in
  fst failed = Some CONTACT
  /\ locked (snd failed) = true
  /\ db (snd later) = Some Sqlite.empty
  /\ locked (snd later) = true.
Proof.
  intros world failed later.
  split; [reflexivity|]. split; [reflexivity|].
  destruct (failed_insert_holds_the_lock open_bot world) as (_ & H & _).
  exact (H (fst failed) _ (snd failed) eq_refl eq_refl).
Defined.
